(** * whisperGUI.py: a shallow embedding of the transcription front-end

    The development follows [src/whisperGUI.py].  Python values are
    embedded as follows.

    - [str] is [string]: the UTF-8 bytes of the text, which is also what
      the exporter writes to disk ([encoding="utf-8"]).
    - [int] is [Z].
    - a finite [float] is the rational it denotes ([Q]).  Truncating,
      comparing and printing a float are determined by that rational;
      an arithmetic operation rounds its exact result to the nearest
      float ([Py.float_round]).
    - [dict] is stdpp's [gmap] with string keys.
    - widgets, the message queue and the attributes of the
      [WhisperTranscriber] object are fields of records; everything the
      program does to the outside world (dialogs, log lines, threads,
      model loads, files) is recorded in a trace of events. *)

From Stdlib Require Import ZArith QArith Qround Qabs Qpower Qreduction Lqa.
From Stdlib Require Import Ascii String List Bool Lia.
From Stdlib Require Import DecimalString.
From stdpp Require Import base option gmap strings list.

Import ListNotations.
Local Open Scope Z_scope.
Local Open Scope string_scope.

(** ** Python built-ins used by the program *)

Module Py.

(** [str(n)] for an [int]. *)
Definition str_of_int (n : Z) : string :=
  NilZero.string_of_int (Z.to_int n).

Fixpoint zeros (n : nat) : string :=
  match n with
  | O => ""
  | S k => "0" ++ zeros k
  end.

(** [format(n, "0{w}d")]: decimal digits, zero-filled after the sign up
    to a minimum total width of [w]; never truncated. *)
Definition format_0d (w : nat) (n : Z) : string :=
  let ds := NilZero.string_of_uint (N.to_uint (Z.abs_N n)) in
  if (n <? 0)%Z
  then "-" ++ zeros (w - 1 - String.length ds) ++ ds
  else zeros (w - String.length ds) ++ ds.

(** [int(x)] for a float: truncation toward zero. *)
Definition int_of_float (x : Q) : Z :=
  Z.quot (Qnum x) (Z.pos (Qden x)).

(** Round a non-negative fraction [a / b] to the nearest integer, ties to
    even, as the correctly rounded float-to-decimal conversion does. *)
Definition round_half_even (a : Z) (b : positive) : Z :=
  let fl := a / Z.pos b in
  let r := a mod Z.pos b in
  match 2 * r ?= Z.pos b with
  | Lt => fl
  | Gt => fl + 1
  | Eq => if Z.even fl then fl else fl + 1
  end.

(** [format(x, ".{p}f")]: fixed notation with [p] digits after the
    point. *)
Definition format_f (p : nat) (x : Q) : string :=
  let scale := 10 ^ Z.of_nat p in
  let n := round_half_even (Z.abs (Qnum x) * scale) (Qden x) in
  let sign := if (Qnum x <? 0)%Z then "-" else "" in
  let ip := NilZero.string_of_uint (N.to_uint (Z.to_N (n / scale))) in
  match p with
  | O => sign ++ ip
  | _ => sign ++ ip ++ "." ++ format_0d p (n mod scale)
  end.

(** *** Floats

    A [float] is an IEEE 754 binary64 number: a mantissa of 53 bits, the
    last bit of the smallest numbers at [2^-1074].  An arithmetic
    operation gives its exact result rounded to the nearest float, ties
    to the even mantissa.  Results of magnitude [2^1024] and more, which
    are [inf] in Python, are outside the model. *)

Definition pow2 (e : Z) : Q := (2 ^ e)%Q.

(** The nearest whole number, ties to the even one. *)
Definition nearest_even (q : Q) : Z :=
  let f := Qfloor q in
  match (q - inject_Z f ?= 1 # 2)%Q with
  | Lt => f
  | Gt => f + 1
  | Eq => if Z.even f then f else f + 1
  end.

(** The exponent of the last mantissa bit of the floats next to [x]:
    [2^(e+52) <= |x| < 2^(e+53)], and [-1074] below that range. *)
Definition ulp_exponent (x : Q) : Z :=
  let e0 := Z.log2 (Z.abs (Qnum x)) - Z.log2 (Z.pos (Qden x)) - 53 in
  let e1 := if Qle_bool (pow2 (e0 + 53)) (Qabs x) then e0 + 1 else e0 in
  Z.max e1 (-1074).

(** The float nearest to [x], in lowest terms. *)
Definition float_round (x : Q) : Q :=
  let x := Qred x in
  let e := ulp_exponent x in
  Qred (inject_Z (nearest_even (x / pow2 e)) * pow2 e).

(** [x * y] and [x + y] for floats (an [int] operand is converted
    first, exactly for the small constants of the program). *)
Definition fmul (x y : Q) : Q := float_round (x * y).

Definition fadd (x y : Q) : Q := float_round (x + y).

(** [i / n] for two [int]s, [n] not zero: the correctly rounded
    quotient. *)
Definition truediv (i n : Z) : Q := float_round (inject_Z i / inject_Z n).

(** [needle in haystack] for strings. *)
Fixpoint contains (needle haystack : string) : bool :=
  String.prefix needle haystack ||
  match haystack with
  | EmptyString => false
  | String _ rest => contains needle rest
  end.

Fixpoint rev_string (s acc : string) : string :=
  match s with
  | EmptyString => acc
  | String c rest => rev_string rest (String c acc)
  end.

(** [s.endswith(suffix)]. *)
Definition endswith (s suffix : string) : bool :=
  String.prefix (rev_string suffix "") (rev_string s "").

(** The code points for which [str.isspace] holds, as UTF-8 byte
    sequences: U+0009..U+000D, U+001C..U+0020, U+0085, U+00A0, U+1680,
    U+2000..U+200A, U+2028, U+2029, U+202F, U+205F, U+3000. *)
Definition bytes (l : list nat) : string :=
  string_of_list_ascii (map ascii_of_nat l).

Definition whitespace : list string :=
  map bytes
    ([ [9]; [10]; [11]; [12]; [13]; [28]; [29]; [30]; [31]; [32];
       [194; 133]; [194; 160]; [225; 154; 128] ]
     ++ map (fun k => [226; 128; k])
          [128; 129; 130; 131; 132; 133; 134; 135; 136; 137; 138; 168; 169; 175]
     ++ [ [226; 129; 159]; [227; 128; 128] ])%nat%list.

(** Drop one leading white-space code point, if there is one. *)
Fixpoint drop_one (ws : list string) (s : string) : option string :=
  match ws with
  | [] => None
  | w :: ws' =>
      if String.prefix w s
      then Some (String.substring (String.length w)
                   (String.length s - String.length w) s)
      else drop_one ws' s
  end.

Fixpoint lstrip_fuel (fuel : nat) (s : string) : string :=
  match fuel with
  | O => s
  | S k =>
      match drop_one whitespace s with
      | Some s' => lstrip_fuel k s'
      | None => s
      end
  end.

(** [s.lstrip()]; every dropped code point shortens [s], so its length
    is fuel enough. *)
Definition lstrip (s : string) : string := lstrip_fuel (String.length s) s.

(** [s.rstrip()]: the same on the reversed text, with the byte sequences
    reversed as well. *)
Definition rstrip (s : string) : string :=
  let fix go (fuel : nat) (r : string) : string :=
    match fuel with
    | O => r
    | S k =>
        match drop_one (map (fun w => rev_string w "") whitespace) r with
        | Some r' => go k r'
        | None => r
        end
    end in
  rev_string (go (String.length s) (rev_string s "")) "".

(** [s.strip()]. *)
Definition strip (s : string) : string := rstrip (lstrip s).

End Py.

(** ** Module-level functions *)

(** [format_srt_time] (lines 50-62).  The second [divmod] rebinds
    [seconds] to the integer remainder, so the value the millisecond
    line reads is that integer, not the argument. *)
Definition format_srt_time (seconds : Q) : string :=
  let hours := Py.int_of_float seconds / 3600 in
  let remainder := Py.int_of_float seconds mod 3600 in
  let minutes := remainder / 60 in
  let seconds' := remainder mod 60 in
  let milliseconds := (seconds' - seconds') * 1000 in
  Py.format_0d 2 hours ++ ":" ++ Py.format_0d 2 minutes ++ ":"
    ++ Py.format_0d 2 seconds' ++ "," ++ Py.format_0d 3 milliseconds.


(** ** Data produced by the inference library *)

(** A recognised span of speech. *)
Record Segment := {
  seg_start : Q;
  seg_end : Q;
  seg_text : string
}.

(** The per-run metadata returned next to the segments. *)
Record TranscriptionInfo := {
  info_language : string;
  info_language_probability : Q;
  info_duration : Q
}.

(** The arguments of one [WhisperModel(...)] call; [compute_type] is
    always ["int8"] and [resume_download] always true where it is given. *)
Record LoadArgs := {
  model_size_or_path : string;
  device : string;
  download_root : option string;
  with_session : bool
}.

(** A loaded model remembers how it was constructed. *)
Record WhisperModel := { loaded_with : LoadArgs }.

(** Exceptions: the class as far as the handlers tell classes apart,
    and [str(e)]. *)
Inductive ExnClass := RuntimeError | IOError | OtherException.

Record Exn := { exn_class : ExnClass; exn_str : string }.

(** ** The object and its widgets *)

Inductive wstate := NORMAL | DISABLED.

(** The widgets whose [state] option the program sets. *)
Inductive widget :=
  transcribe_btn | file_btn | model_size | accelerate_btn | browse_btn | language.

Record Controls := {
  st_transcribe_btn : wstate;
  st_file_btn : wstate;
  st_model_size : wstate;
  st_accelerate_btn : wstate;
  st_browse_btn : wstate;
  st_language : wstate
}.

Definition state_of (w : widget) (c : Controls) : wstate :=
  match w with
  | transcribe_btn => st_transcribe_btn c
  | file_btn => st_file_btn c
  | model_size => st_model_size c
  | accelerate_btn => st_accelerate_btn c
  | browse_btn => st_browse_btn c
  | language => st_language c
  end.

(** [w.config(state=s)]. *)
Definition config_state (w : widget) (s : wstate) (c : Controls) : Controls :=
  match w with
  | transcribe_btn =>
      {| st_transcribe_btn := s; st_file_btn := st_file_btn c;
         st_model_size := st_model_size c; st_accelerate_btn := st_accelerate_btn c;
         st_browse_btn := st_browse_btn c; st_language := st_language c |}
  | file_btn =>
      {| st_transcribe_btn := st_transcribe_btn c; st_file_btn := s;
         st_model_size := st_model_size c; st_accelerate_btn := st_accelerate_btn c;
         st_browse_btn := st_browse_btn c; st_language := st_language c |}
  | model_size =>
      {| st_transcribe_btn := st_transcribe_btn c; st_file_btn := st_file_btn c;
         st_model_size := s; st_accelerate_btn := st_accelerate_btn c;
         st_browse_btn := st_browse_btn c; st_language := st_language c |}
  | accelerate_btn =>
      {| st_transcribe_btn := st_transcribe_btn c; st_file_btn := st_file_btn c;
         st_model_size := st_model_size c; st_accelerate_btn := s;
         st_browse_btn := st_browse_btn c; st_language := st_language c |}
  | browse_btn =>
      {| st_transcribe_btn := st_transcribe_btn c; st_file_btn := st_file_btn c;
         st_model_size := st_model_size c; st_accelerate_btn := st_accelerate_btn c;
         st_browse_btn := s; st_language := st_language c |}
  | language =>
      {| st_transcribe_btn := st_transcribe_btn c; st_file_btn := st_file_btn c;
         st_model_size := st_model_size c; st_accelerate_btn := st_accelerate_btn c;
         st_browse_btn := st_browse_btn c; st_language := s |}
  end.

(** What the window shows.  [result_text] is [None] until
    [create_result_frame] has built the text widget, which is when
    [result_frame_initialized] becomes true. *)
Record UI := {
  controls : Controls;
  accelerate_btn_look : string * string;   (* text, bg *)
  model_path : string;                     (* the entry's content *)
  model_size_value : string;               (* the combobox's value *)
  language_value : string;
  file_label : string;
  progress_var : Q;
  progress_label : string;
  status_var : string;
  result_text : option string
}.

(** The typed messages of the worker-to-UI queue. *)
Inductive Msg :=
| status (text : string)
| progress (value : Q)
| message (icon title text : string)
| clear_result
| append_result (text : string)
| update_acceleration_button.

(** A [requests.Session]: [verify] is a certificate bundle or [False]. *)
Record Session := {
  verify : option string;
  closed : bool
}.

(** The attributes of [WhisperTranscriber]. [filename] is [None] while
    the attribute does not exist. *)
Record App := {
  filename : option string;
  txt_var : bool;
  srt_var : bool;
  using_cpu : bool;
  config : gmap string string;
  model_cache : gmap string WhisperModel;
  requests_session : option Session;
  message_queue : list Msg;
  ui : UI
}.

Definition result_frame_initialized (a : App) : bool :=
  bool_decide (is_Some (result_text (ui a))).

(** *** Field updates *)

Definition with_controls (f : Controls -> Controls) (u : UI) : UI :=
  {| controls := f (controls u); accelerate_btn_look := accelerate_btn_look u;
     model_path := model_path u; model_size_value := model_size_value u;
     language_value := language_value u; file_label := file_label u;
     progress_var := progress_var u; progress_label := progress_label u;
     status_var := status_var u; result_text := result_text u |}.

Definition with_accelerate_btn_look (v : string * string) (u : UI) : UI :=
  {| controls := controls u; accelerate_btn_look := v;
     model_path := model_path u; model_size_value := model_size_value u;
     language_value := language_value u; file_label := file_label u;
     progress_var := progress_var u; progress_label := progress_label u;
     status_var := status_var u; result_text := result_text u |}.

Definition with_model_path (v : string) (u : UI) : UI :=
  {| controls := controls u; accelerate_btn_look := accelerate_btn_look u;
     model_path := v; model_size_value := model_size_value u;
     language_value := language_value u; file_label := file_label u;
     progress_var := progress_var u; progress_label := progress_label u;
     status_var := status_var u; result_text := result_text u |}.

Definition with_file_label (v : string) (u : UI) : UI :=
  {| controls := controls u; accelerate_btn_look := accelerate_btn_look u;
     model_path := model_path u; model_size_value := model_size_value u;
     language_value := language_value u; file_label := v;
     progress_var := progress_var u; progress_label := progress_label u;
     status_var := status_var u; result_text := result_text u |}.

Definition with_progress_var (v : Q) (u : UI) : UI :=
  {| controls := controls u; accelerate_btn_look := accelerate_btn_look u;
     model_path := model_path u; model_size_value := model_size_value u;
     language_value := language_value u; file_label := file_label u;
     progress_var := v; progress_label := progress_label u;
     status_var := status_var u; result_text := result_text u |}.

Definition with_progress_label (v : string) (u : UI) : UI :=
  {| controls := controls u; accelerate_btn_look := accelerate_btn_look u;
     model_path := model_path u; model_size_value := model_size_value u;
     language_value := language_value u; file_label := file_label u;
     progress_var := progress_var u; progress_label := v;
     status_var := status_var u; result_text := result_text u |}.

Definition with_status_var (v : string) (u : UI) : UI :=
  {| controls := controls u; accelerate_btn_look := accelerate_btn_look u;
     model_path := model_path u; model_size_value := model_size_value u;
     language_value := language_value u; file_label := file_label u;
     progress_var := progress_var u; progress_label := progress_label u;
     status_var := v; result_text := result_text u |}.

Definition with_result_text (v : option string) (u : UI) : UI :=
  {| controls := controls u; accelerate_btn_look := accelerate_btn_look u;
     model_path := model_path u; model_size_value := model_size_value u;
     language_value := language_value u; file_label := file_label u;
     progress_var := progress_var u; progress_label := progress_label u;
     status_var := status_var u; result_text := v |}.

Definition with_ui (f : UI -> UI) (a : App) : App :=
  {| filename := filename a; txt_var := txt_var a; srt_var := srt_var a;
     using_cpu := using_cpu a; config := config a; model_cache := model_cache a;
     requests_session := requests_session a; message_queue := message_queue a;
     ui := f (ui a) |}.

Definition with_filename (v : option string) (a : App) : App :=
  {| filename := v; txt_var := txt_var a; srt_var := srt_var a;
     using_cpu := using_cpu a; config := config a; model_cache := model_cache a;
     requests_session := requests_session a; message_queue := message_queue a;
     ui := ui a |}.

Definition with_using_cpu (v : bool) (a : App) : App :=
  {| filename := filename a; txt_var := txt_var a; srt_var := srt_var a;
     using_cpu := v; config := config a; model_cache := model_cache a;
     requests_session := requests_session a; message_queue := message_queue a;
     ui := ui a |}.

Definition with_config (v : gmap string string) (a : App) : App :=
  {| filename := filename a; txt_var := txt_var a; srt_var := srt_var a;
     using_cpu := using_cpu a; config := v; model_cache := model_cache a;
     requests_session := requests_session a; message_queue := message_queue a;
     ui := ui a |}.

Definition with_model_cache (v : gmap string WhisperModel) (a : App) : App :=
  {| filename := filename a; txt_var := txt_var a; srt_var := srt_var a;
     using_cpu := using_cpu a; config := config a; model_cache := v;
     requests_session := requests_session a; message_queue := message_queue a;
     ui := ui a |}.

Definition with_requests_session (v : option Session) (a : App) : App :=
  {| filename := filename a; txt_var := txt_var a; srt_var := srt_var a;
     using_cpu := using_cpu a; config := config a; model_cache := model_cache a;
     requests_session := v; message_queue := message_queue a;
     ui := ui a |}.

Definition with_message_queue (v : list Msg) (a : App) : App :=
  {| filename := filename a; txt_var := txt_var a; srt_var := srt_var a;
     using_cpu := using_cpu a; config := config a; model_cache := model_cache a;
     requests_session := requests_session a; message_queue := v;
     ui := ui a |}.

(** ** The outside world *)

Inductive level := INFO | WARNING | ERROR.

Inductive dialog := showinfo | showwarning | showerror | askyesno.

(** What the program does to its surroundings, in order. *)
Inductive Event :=
| Log (lvl : level) (text : string)
| Dialog (kind : dialog) (title text : string)
| ThreadStart (target : string)
| Load (args : LoadArgs)
| MakeDirs (path : string)
| WriteFile (path : string) (writes : list string)
| SaveConfig (cfg : gmap string string)
| SessionClose
| After (ms : Z) (callback : string).

(** What the surroundings answer.  [whisper_model k args] is the result
    of the [k]-th [WhisperModel(...)] call of a run; [transcribe] gives
    the progress fractions passed to a callback (if one was given), and
    either an exception or the metadata with the segment generator,
    whose consumption by [list(...)] may itself raise. *)
Record Env := {
  app_dir : string;
  whisper_model : nat -> LoadArgs -> Exn + WhisperModel;
  signature_has_progress_callback : WhisperModel -> Exn + bool;
  transcribe :
    WhisperModel -> string -> option string ->
    list Q * (Exn + TranscriptionInfo * (Exn + list Segment));
  certifi_where : option string;
  makedirs : string -> option Exn;
  open_for_writing : string -> option Exn;
  config_write_error : option Exn;
  path_exists : string -> bool
}.

(** ** Paths *)

Module Path.

(** The program is Windows-only (it imports [winreg]): [str] of a
    [pathlib] path and [os.path.join] put a backslash between
    components. *)
Definition sep : string := "\".

Definition is_sep (c : ascii) : bool :=
  (Ascii.eqb c "/" || Ascii.eqb c "\")%char.

(** [p / name] for a [Path] that does not end in a separator, as a
    string. *)
Definition div (p name : string) : string := p ++ sep ++ name.

(** [os.path.join(a, b)] for a relative [b] without a drive: [b] is
    appended, after a separator unless [a] is empty or already ends in
    one. *)
Definition join (a b : string) : string :=
  match Py.rev_string a "" with
  | EmptyString => b
  | String c _ => if is_sep c then a ++ b else a ++ sep ++ b
  end.

(** The text after the last separator, scanning from the end. *)
Fixpoint tail_rev (r acc : string) : string :=
  match r with
  | EmptyString => acc
  | String c rest => if is_sep c then acc else tail_rev rest (String c acc)
  end.

(** The text after the first separator, if there is one. *)
Fixpoint after_sep (s : string) : option string :=
  match s with
  | EmptyString => None
  | String c rest => if is_sep c then Some rest else after_sep rest
  end.

Definition is_letter (upper lower c : ascii) : bool :=
  (Ascii.eqb c upper || Ascii.eqb c lower)%char.

(** What follows two leading separators, without the [?\UNC\] of a
    long UNC path. *)
Definition after_unc_prefix (s : string) : string :=
  match s with
  | String "?" (String s1 (String u (String n (String c (String s2 rest))))) =>
      if is_sep s1 && is_letter "U" "u" u && is_letter "N" "n" n
         && is_letter "C" "c" c && is_sep s2
      then rest else s
  | _ => s
  end.

(** [ntpath.splitdrive(p)[1]] (as in CPython 3.11; later versions
    differ only for a path that starts with a separator and a colon):
    the path without its drive.  The drive is the first character with
    the colon after it, or the server and share of a UNC path, which
    then is the whole path unless a separator follows the share. *)
Definition splitdrive_tail (p : string) : string :=
  match p with
  | String c1 (String c2 r) =>
      if is_sep c1 && is_sep c2
      then
        match after_sep (after_unc_prefix r) with
        | None => ""
        | Some share =>
            match after_sep share with
            | None => ""
            | Some tail => tail
            end
        end
      else if Ascii.eqb c2 ":" then r
      else p
  | _ => p
  end.

(** [os.path.basename(p)]: what follows the last separator after the
    drive. *)
Definition basename (p : string) : string :=
  tail_rev (Py.rev_string (splitdrive_tail p) "") "".

(** [root_rev r] splits the reversed name at its last dot: the reversed
    text before that dot, if there is a dot. *)
Fixpoint root_rev (r : string) : option string :=
  match r with
  | EmptyString => None
  | String c rest => if Ascii.eqb c "." then Some rest else root_rev rest
  end.

Fixpoint all_dots (s : string) : bool :=
  match s with
  | EmptyString => true
  | String c rest => Ascii.eqb c "." && all_dots rest
  end.

(** [os.path.splitext(name)[0]] for a name without separators: the
    last dot starts the extension unless only dots precede it. *)
Definition splitext_root (name : string) : string :=
  match root_rev (Py.rev_string name "") with
  | Some r => if all_dots r then name else Py.rev_string r ""
  | None => name
  end.

End Path.

Definition get_app_dir (env : Env) : string := app_dir env.

Definition get_model_dir (env : Env) : string :=
  Path.div (get_app_dir env) "models".

Definition config_file (env : Env) : string :=
  Path.div (get_app_dir env) "config.json".

(** ** Computations: state, trace and exceptions *)

Definition St : Type := App * list Event.

Definition M (A : Type) : Type := St -> (Exn + A) * St.

Definition ret {A} (x : A) : M A := fun s => (inr x, s).

Definition raise {A} (e : Exn) : M A := fun s => (inl e, s).

Definition bind {A B} (m : M A) (k : A -> M B) : M B :=
  fun s =>
    match m s with
    | (inr x, s') => k x s'
    | (inl e, s') => (inl e, s')
    end.

Declare Scope m_scope.
Delimit Scope m_scope with m.
Bind Scope m_scope with M.

Notation "'let*' x ':=' m 'in' k" :=
  (bind m (fun x => k))
  (at level 10, x name, m at level 100, k at level 200)
  : m_scope.
Notation "m >> k" :=
  (bind m (fun _ => k))
  (at level 90, right associativity) : m_scope.

Local Open Scope m_scope.

Definition get : M App := fun s => (inr (fst s), s).

Definition modify (f : App -> App) : M unit :=
  fun s => (inr tt, (f (fst s), snd s)).

Definition emit (e : Event) : M unit :=
  fun s => (inr tt, (fst s, (snd s ++ [e])%list)).

Definition when (b : bool) (m : M unit) : M unit :=
  if b then m else ret tt.

(** [try: m except <classes matched by catches> as e: h e]. *)
Definition try_except {A} (m : M A) (catches : ExnClass -> bool)
    (h : Exn -> M A) : M A :=
  fun s =>
    match m s with
    | (inl e, s') => if catches (exn_class e) then h e s' else (inl e, s')
    | r => r
    end.

(** [try: m finally: f]: [f] runs either way; if it raises, its
    exception is the one that leaves. *)
Definition try_finally {A} (m : M A) (f : M unit) : M A :=
  fun s =>
    match m s with
    | (r, s') =>
        match f s' with
        | (inr _, s'') => (r, s'')
        | (inl e, s'') => (inl e, s'')
        end
    end.

Definition any_exception (c : ExnClass) : bool := true.

Definition is_RuntimeError (c : ExnClass) : bool :=
  match c with RuntimeError => true | _ => false end.

Definition is_IOError (c : ExnClass) : bool :=
  match c with IOError => true | _ => false end.

Definition logger_info (text : string) : M unit := emit (Log INFO text).
Definition logger_warning (text : string) : M unit := emit (Log WARNING text).
Definition logger_error (text : string) : M unit := emit (Log ERROR text).

(** [send_message] (lines 758-759). *)
Definition send_message (m : Msg) : M unit :=
  modify (fun a => with_message_queue (message_queue a ++ [m])%list a).

Definition set_state (w : widget) (s : wstate) : M unit :=
  modify (with_ui (with_controls (config_state w s))).

(** ** Methods that run on the UI thread *)

(** [save_config] (lines 153-161): any failure to write is logged and
    reported as [False]. *)
Definition save_config (env : Env) : M bool :=
  match config_write_error env with
  | None => let* a := get in emit (SaveConfig (config a)) >> ret true
  | Some e =>
      logger_error ("保存配置文件失败: " ++ exn_str e) >> ret false
  end.

(** [select_file] (lines 303-320); the argument is what the file dialog
    returned. *)
Definition select_file (chosen : string) : M unit :=
  if String.eqb chosen "" then ret tt
  else
    modify (with_filename (Some chosen)) >>
    modify (with_ui (with_file_label (Path.basename chosen))) >>
    set_state transcribe_btn NORMAL >>
    modify (with_ui (with_status_var ("已选择文件: " ++ Path.basename chosen))) >>
    logger_info ("已选择文件: " ++ chosen).

(** [select_model_dir] (lines 322-344); the argument is what the
    directory dialog returned. *)
Definition select_model_dir (env : Env) (chosen : string) : M unit :=
  let dirname :=
    if Py.endswith chosen "models" then Path.join chosen "base" else chosen in
  if negb (String.eqb dirname "") && path_exists env dirname
  then
    modify (with_ui (with_model_path dirname)) >>
    set_state model_size DISABLED >>
    logger_info ("已选择本地模型路径: " ++ dirname) >>
    modify (fun a => with_config (<["model.path" := dirname]> (config a)) a) >>
    let* saved := save_config env in
    when (negb saved)
      (logger_error "保存模型路径到配置文件失败" >>
       emit (Dialog showerror "错误" "保存模型路径到配置文件失败"))
  else
    set_state model_size NORMAL >>
    logger_info "取消选择本地模型路径".

(** [toggle_acceleration] (lines 346-363). *)
Definition toggle_acceleration (env : Env) : M unit :=
  modify (fun a => with_using_cpu (negb (using_cpu a)) a) >>
  let* a := get in
  (if using_cpu a
   then
     modify (with_ui (with_accelerate_btn_look ("加速", "#FF9800"))) >>
     logger_info "切换到CPU模式" >>
     modify (fun a => with_config (<["model.device" := "cpu"]> (config a)) a)
   else
     modify (with_ui (with_accelerate_btn_look ("GPU模式", "#4CAF50"))) >>
     logger_info "切换到GPU模式" >>
     modify (fun a => with_config (<["model.device" := "cuda"]> (config a)) a)) >>
  let* saved := save_config env in
  when (negb saved)
    (logger_error "保存设备设置到配置文件失败" >>
     emit (Dialog showerror "错误" "保存设备设置到配置文件失败")).

(** [create_result_frame] (lines 785-791): the text widget is created
    empty, or emptied if it exists. *)
Definition create_result_frame : M unit :=
  modify (with_ui (with_result_text (Some ""))).

(** [start_transcription] (lines 446-478). *)
Definition start_transcription : M unit :=
  let* a := get in
  match filename a with
  | None =>
      emit (Dialog showwarning "提示" "请选择文件") >>
      logger_warning "用户尝试在未选择文件的情况下开始转录"
  | Some file =>
      if negb (txt_var a) && negb (srt_var a)
      then
        emit (Dialog showwarning "提示" "请选择至少一种输出格式") >>
        logger_warning "用户未选择任何输出格式"
      else
        logger_info ("开始转录 - 文件: " ++ Path.basename file
                     ++ ", 模型: " ++ model_size_value (ui a)
                     ++ ", 设备: " ++ (if using_cpu a then "CPU" else "GPU")) >>
        set_state transcribe_btn DISABLED >>
        set_state file_btn DISABLED >>
        set_state model_size DISABLED >>
        set_state accelerate_btn DISABLED >>
        set_state browse_btn DISABLED >>
        set_state language DISABLED >>
        create_result_frame >>
        modify (with_ui (with_progress_var 0%Q)) >>
        modify (with_ui (with_progress_label "正在准备...")) >>
        emit (ThreadStart "run_transcription")
  end.

(** One iteration of the loop of [process_messages] (lines 763-778). *)
Definition apply_message (env : Env) (m : Msg) : M unit :=
  let* a := get in
  match m with
  | status text => modify (with_ui (with_status_var text))
  | progress value => modify (with_ui (with_progress_var value))
  | message icon title text =>
      if String.eqb icon "info"
      then emit (Dialog showinfo title text)
      else emit (Dialog showerror title text)
  | clear_result =>
      when (result_frame_initialized a)
        (modify (with_ui (with_result_text (Some ""))))
  | append_result text =>
      match result_text (ui a) with
      | Some shown => modify (with_ui (with_result_text (Some (shown ++ text))))
      | None => ret tt
      end
  | update_acceleration_button => toggle_acceleration env
  end.

(** [while not self.message_queue.empty(): ...]; no handler enqueues, so
    the number of messages waiting at the start bounds the number of
    iterations. *)
Fixpoint drain (env : Env) (fuel : nat) : M unit :=
  match fuel with
  | O => ret tt
  | S k =>
      let* a := get in
      match message_queue a with
      | [] => ret tt
      | m :: rest =>
          modify (with_message_queue rest) >>
          apply_message env m >>
          drain env k
      end
  end.

(** [process_messages] (lines 761-780): drain, then reschedule. *)
Definition process_messages (env : Env) : M unit :=
  let* a := get in
  drain env (length (message_queue a)) >>
  emit (After 100 "process_messages").

(** [update_progress] (lines 782-783), the callback handed to the
    library. *)
Definition update_progress (fraction : Q) : M unit :=
  send_message (progress (Py.fmul fraction 100)).

(** ** The result exporter *)

(** The line feed of the ["\n"] escapes. *)
Definition nl : string := String (ascii_of_nat 10) "".

(** One line of the plain-text export (line 723). *)
Definition txt_line (segment : Segment) : string :=
  "[" ++ Py.format_f 2 (seg_start segment) ++ "s -> "
      ++ Py.format_f 2 (seg_end segment) ++ "s] " ++ seg_text segment ++ nl.

(** The [f.write] calls of the plain-text export, in order
    (lines 718-723). *)
Definition txt_writes (info : TranscriptionInfo) (segments_list : list Segment)
    : list string :=
  let language_line := "检测语言: " ++ info_language info ++ nl in
  let duration_line :=
    "音频时长: " ++ Py.format_f 1 (info_duration info) ++ "秒" ++ nl ++ nl in
  app (if String.eqb (info_language info) "" then [] else [language_line])
      (duration_line :: map txt_line segments_list).

(** The three [f.write] calls of subtitle block [i] (lines 733-737). *)
Definition srt_block (i : Z) (segment : Segment) : list string :=
  [ Py.str_of_int i ++ nl;
    format_srt_time (seg_start segment) ++ " --> "
      ++ format_srt_time (seg_end segment) ++ nl;
    Py.strip (seg_text segment) ++ nl ++ nl ].

(** [for i, segment in enumerate(segments_list, i): ...]. *)
Fixpoint srt_blocks (i : Z) (segments_list : list Segment) : list string :=
  match segments_list with
  | [] => []
  | segment :: rest => app (srt_block i segment) (srt_blocks (i + 1) rest)
  end.

Definition srt_writes (segments_list : list Segment) : list string :=
  srt_blocks 1 segments_list.

(** [with open(path, "w", encoding="utf-8") as f: <writes>]. *)
Definition write_file (env : Env) (path : string) (writes : list string)
    : M unit :=
  match open_for_writing env path with
  | Some e => raise e
  | None => emit (WriteFile path writes)
  end.

Definition self_filename : M string :=
  let* a := get in
  match filename a with
  | Some file => ret file
  | None =>
      raise {| exn_class := OtherException;
               exn_str := "'WhisperTranscriber' object has no attribute 'filename'" |}
  end.

Definition completion_message (saved_files : list string) : string :=
  fold_left (fun acc file => acc ++ "已保存到: " ++ file ++ nl) saved_files
    ("转录完成" ++ nl).

(** [save_transcription_results] (lines 708-756). *)
Definition save_transcription_results (env : Env) (info : TranscriptionInfo)
    (segments_list : list Segment) (output_dir : string) : M unit :=
  try_except
    (let* file := self_filename in
     let base_name := Path.splitext_root (Path.basename file) in
     let* a := get in
     let* saved_txt :=
       if txt_var a
       then
         let txt_file := Path.div output_dir (base_name ++ "_transcript.txt") in
         write_file env txt_file (txt_writes info segments_list) >>
         logger_info ("已保存TXT文件: " ++ txt_file) >>
         ret [txt_file]
       else ret [] in
     let* saved_files :=
       if srt_var a
       then
         let srt_file := Path.div output_dir (base_name ++ ".srt") in
         write_file env srt_file (srt_writes segments_list) >>
         logger_info ("已保存SRT文件: " ++ srt_file) >>
         ret (app saved_txt [srt_file])
       else ret saved_txt in
     send_message (message "info" "完成" (completion_message saved_files)) >>
     send_message (status "完成! 结果已保存") >>
     send_message (progress 100%Q) >>
     logger_info "转录完成")
    is_IOError
    (fun e =>
       logger_error ("文件保存失败: " ++ exn_str e) >>
       send_message (message "error" "错误" ("文件保存失败: " ++ exn_str e)) >>
       send_message (status "文件保存失败") >>
       raise e).

(** ** The transcription worker *)

Definition cuda_marker : string := "CUDA driver version is insufficient".

(** The [k]-th [WhisperModel(...)] call of a run. *)
Definition construct (env : Env) (k : nat) (args : LoadArgs) : M WhisperModel :=
  emit (Load args) >>
  match whisper_model env k args with
  | inl e => raise e
  | inr m => ret m
  end.

Definition cache_model (key : string) (m : WhisperModel) : M unit :=
  modify (fun a => with_model_cache (<[key := m]> (model_cache a)) a).

(** The load with its fallback.  Lines 506-527 (local path) and 544-575
    (download) are the same code up to the arguments of the two
    constructor calls and the two log texts, which are the parameters
    here.  The result is the value of [model_key] afterwards. *)
Definition load_or_fall_back (env : Env) (requested on_cpu : LoadArgs)
    (model_key cpu_key loaded_log cpu_loaded_log : string) : M string :=
  try_except
    (let* m := construct env 0 requested in
     cache_model model_key m >>
     logger_info loaded_log >>
     ret model_key)
    is_RuntimeError
    (fun e =>
       if Py.contains cuda_marker (exn_str e)
       then
         logger_warning "CUDA驱动版本不足，尝试回退到CPU模式" >>
         send_message (message "warning" "GPU不可用" "CUDA驱动版本不足，切换到CPU模式") >>
         send_message (status "CUDA驱动版本不足，切换到CPU模式...") >>
         modify (with_using_cpu true) >>
         send_message update_acceleration_button >>
         let* m := construct env 1 on_cpu in
         cache_model cpu_key m >>
         logger_info cpu_loaded_log >>
         ret cpu_key
       else raise e).

Definition make_dirs (env : Env) (path : string) : M unit :=
  emit (MakeDirs path) >>
  match makedirs env path with
  | Some e => raise e
  | None => ret tt
  end.

(** The lazily created network session (lines 534-542). *)
Definition ensure_session (env : Env) : M unit :=
  let* a := get in
  match requests_session a with
  | Some _ => ret tt
  | None =>
      match certifi_where env with
      | Some bundle =>
          modify (with_requests_session
                    (Some {| verify := Some bundle; closed := false |})) >>
          logger_info ("使用certifi证书: " ++ bundle)
      | None =>
          modify (with_requests_session
                    (Some {| verify := None; closed := false |})) >>
          logger_warning "无法加载certifi，已禁用SSL验证"
      end
  end.

(** Lines 501-575: the model key in effect once a model for it is in
    the cache. *)
Definition resolve_model (env : Env) (size dev path : string) : M string :=
  let model_key := size ++ "_" ++ dev ++ "_" ++ path in
  let cpu_key := size ++ "_cpu_" ++ path in
  let* a := get in
  match model_cache a !! model_key with
  | Some _ => ret model_key
  | None =>
      if negb (String.eqb path "")
      then
        load_or_fall_back env
          {| model_size_or_path := path; device := dev;
             download_root := None; with_session := false |}
          {| model_size_or_path := path; device := "cpu";
             download_root := None; with_session := false |}
          model_key cpu_key
          ("已从本地加载模型: " ++ path)
          ("已从本地加载模型到CPU: " ++ path)
      else
        let model_dir := get_model_dir env in
        make_dirs env model_dir >>
        ensure_session env >>
        load_or_fall_back env
          {| model_size_or_path := size; device := dev;
             download_root := Some model_dir; with_session := true |}
          {| model_size_or_path := size; device := "cpu";
             download_root := Some model_dir; with_session := true |}
          model_key cpu_key
          ("已下载并加载模型: " ++ size ++ " 到 " ++ model_dir)
          ("已下载并加载模型到CPU: " ++ size)
  end.

(** Lines 585-592. *)
Definition detect_progress_support (env : Env) (model : WhisperModel) : M bool :=
  match signature_has_progress_callback env model with
  | inr b =>
      logger_info ("faster-whisper版本支持进度回调: " ++ (if b then "True" else "False")) >>
      ret b
  | inl e =>
      logger_warning ("无法检测进度回调支持: " ++ exn_str e ++ "，假设不支持") >>
      ret false
  end.

(** [list(segments)]. *)
Definition materialize (segments : Exn + list Segment) : M (list Segment) :=
  match segments with
  | inl e => raise e
  | inr l => ret l
  end.

Definition total_log (total_segments : Z) : string :=
  "音频分析完成，开始处理转录结果，共" ++ Py.str_of_int total_segments ++ "个片段".

(** Lines 613-624 and 658-669: the result panel's header. *)
Definition show_header (info : TranscriptionInfo) : M unit :=
  send_message clear_result >>
  when (negb (String.eqb (info_language info) "")
        && negb (Qeq_bool (info_language_probability info) 0))
    (let detected :=
       "检测语言: " ++ info_language info ++ " (置信度: "
        ++ Py.format_f 1 (Py.fmul (info_language_probability info) 100)
        ++ "%)" in
     send_message (append_result (detected ++ nl)) >>
     logger_info detected) >>
  send_message (append_result
    ("音频时长: " ++ Py.format_f 1 (info_duration info) ++ "秒" ++ nl ++ nl)) >>
  logger_info ("音频时长: " ++ Py.format_f 1 (info_duration info) ++ "秒").

(** The progress value of segment [i] of [total_segments] (line 637). *)
Definition segment_progress (i total_segments : Z) : Q :=
  Py.fadd 90 (Py.fmul (Py.truediv i total_segments) 10).

(** The loop of lines 631-641, from index [i] on; the running transcript
    is its result. *)
Fixpoint process_segments (total_segments i : Z) (segments_list : list Segment)
    (full_text : string) : M string :=
  match segments_list with
  | [] => ret full_text
  | segment :: rest =>
      let text := txt_line segment in
      let full_text := full_text ++ seg_text segment ++ nl in
      send_message (progress (segment_progress i total_segments)) >>
      when ((i mod 10 =? 0)%Z || (i =? total_segments)%Z)
        (logger_info ("已处理 " ++ Py.str_of_int i ++ "/"
                      ++ Py.str_of_int total_segments ++ " 个片段")) >>
      process_segments total_segments (i + 1) rest full_text
  end.

Fixpoint for_each {A} (body : A -> M unit) (l : list A) : M unit :=
  match l with
  | [] => ret tt
  | x :: rest => body x >> for_each body rest
  end.

(** Lines 491-499: the first status, log line and progress value. *)
Definition announce (env : Env) (size path : string) : M unit :=
  (if negb (String.eqb path "")
   then
     send_message (status "正在加载模型") >>
     logger_info ("正在从 " ++ Path.basename path ++ " 加载模型...")
   else
     send_message (status ("正在下载 " ++ size ++ " 模型（国内镜像加速）...")) >>
     logger_info ("正在下载模型: " ++ size ++ " 到 " ++ get_model_dir env)) >>
  send_message (progress 10%Q).

(** Lines 651-682: the tail of the path taken when the library reports
    progress itself. *)
Definition export_after_callbacks (env : Env) (info : TranscriptionInfo)
    (segments_list : list Segment) : M unit :=
  let total_segments := Z.of_nat (length segments_list) in
  try_except
    (send_message (status "正在处理结果") >>
     send_message (progress 90%Q) >>
     logger_info (total_log total_segments) >>
     show_header info >>
     let output_dir := Path.div (get_app_dir env) "transcripts" in
     make_dirs env output_dir >>
     save_transcription_results env info segments_list output_dir)
    any_exception
    (fun e =>
       logger_error ("转录过程中发生错误: " ++ exn_str e) >>
       send_message (message "error" "错误" ("转录过程中发生错误: " ++ exn_str e)) >>
       send_message (status "转录失败") >>
       raise e).

(** Lines 608-646: the tail of the path taken when progress has to be
    synthesised. *)
Definition export_with_synthetic_progress (env : Env) (info : TranscriptionInfo)
    (segments_list : list Segment) : M unit :=
  let total_segments := Z.of_nat (length segments_list) in
  send_message (progress 90%Q) >>
  logger_info (total_log total_segments) >>
  show_header info >>
  let output_dir := Path.div (get_app_dir env) "transcripts" in
  make_dirs env output_dir >>
  let* full_text := process_segments total_segments 1 segments_list "" in
  save_transcription_results env info segments_list output_dir.

(** Lines 577-682: from the cached model to the exported files. *)
Definition analyse_and_export (env : Env) (lang_arg : option string)
    (model_key : string) : M unit :=
  let* a := get in
  let* model :=
    match model_cache a !! model_key with
    | Some m => ret m
    | None => raise {| exn_class := OtherException; exn_str := model_key |}
    end in
  send_message (status "正在分析音频") >>
  send_message (progress 20%Q) >>
  logger_info "开始分析音频" >>
  let* supports_progress := detect_progress_support env model in
  let* file := self_filename in
  let outcome := transcribe env model file lang_arg in
  if supports_progress
  then
    for_each update_progress (fst outcome) >>
    let* r := match snd outcome with inl e => raise e | inr r => ret r end in
    let* segments_list := materialize (snd r) in
    export_after_callbacks env (fst r) segments_list
  else
    let* r := match snd outcome with inl e => raise e | inr r => ret r end in
    let* segments_list := materialize (snd r) in
    export_with_synthetic_progress env (fst r) segments_list.

(** The [try] block of [run_transcription] (lines 483-682). *)
Definition run_body (env : Env) : M unit :=
  let* a := get in
  let size := model_size_value (ui a) in
  let dev := if using_cpu a then "cpu" else "cuda" in
  let lang := language_value (ui a) in
  let path := Py.strip (model_path (ui a)) in
  let lang_arg := if String.eqb lang "auto" then None else Some lang in
  announce env size path >>
  let* model_key := resolve_model env size dev path in
  analyse_and_export env lang_arg model_key.

(** The [finally] block (lines 690-706).  The loop over the cached
    models only unbinds its own variable ([del model]) on each turn. *)
Definition cleanup : M unit :=
  set_state transcribe_btn NORMAL >>
  set_state file_btn NORMAL >>
  set_state model_size NORMAL >>
  set_state accelerate_btn NORMAL >>
  set_state browse_btn NORMAL >>
  set_state language NORMAL >>
  let* a := get in
  match requests_session a with
  | Some session =>
      modify (with_requests_session
                (Some {| verify := verify session; closed := true |})) >>
      emit SessionClose >>
      logger_info "已关闭requests会话"
  | None => ret tt
  end >>
  for_each (fun model : string * WhisperModel => ret tt)
    (map_to_list (model_cache a)) >>
  logger_info "已清理模型缓存".

(** The [try] block with its [except Exception] handler
    (lines 482-688). *)
Definition run_guarded (env : Env) : M unit :=
  try_except (run_body env) any_exception
    (fun e =>
       logger_error ("转录过程中发生严重错误: " ++ exn_str e) >>
       send_message (message "error" "严重错误"
                       ("转录过程中发生严重错误: " ++ exn_str e)) >>
       send_message (status "严重错误") >>
       raise e).

(** [run_transcription] (lines 480-706), the body of the worker
    thread. *)
Definition run_transcription (env : Env) : M unit :=
  try_finally (run_guarded env) cleanup.

(** ** Vocabulary of the statements *)

Definition all_normal : Controls :=
  {| st_transcribe_btn := NORMAL; st_file_btn := NORMAL; st_model_size := NORMAL;
     st_accelerate_btn := NORMAL; st_browse_btn := NORMAL; st_language := NORMAL |}.

Definition all_disabled : Controls :=
  {| st_transcribe_btn := DISABLED; st_file_btn := DISABLED;
     st_model_size := DISABLED; st_accelerate_btn := DISABLED;
     st_browse_btn := DISABLED; st_language := DISABLED |}.

(** The progress values among some messages, in order. *)
Fixpoint progress_of (q : list Msg) : list Q :=
  match q with
  | [] => []
  | progress v :: rest => v :: progress_of rest
  | _ :: rest => progress_of rest
  end.

(** The number of pending acceleration-button commands. *)
Fixpoint toggles (q : list Msg) : nat :=
  match q with
  | [] => O
  | update_acceleration_button :: rest => S (toggles rest)
  | _ :: rest => toggles rest
  end.

(** The notification of the GPU-to-CPU fallback. *)
Definition fallback_notice : Msg :=
  message "warning" "GPU不可用" "CUDA驱动版本不足，切换到CPU模式".

Definition is_fallback_notice (m : Msg) : bool :=
  match m with
  | message icon title _ => String.eqb icon "warning" && String.eqb title "GPU不可用"
  | _ => false
  end.

(** The model constructions among some events, in order. *)
Fixpoint loads (t : list Event) : list LoadArgs :=
  match t with
  | [] => []
  | Load args :: rest => args :: loads rest
  | _ :: rest => loads rest
  end.

Definition is_dialog (e : Event) : bool :=
  match e with Dialog _ _ _ => true | _ => false end.

Definition is_thread_start (e : Event) : bool :=
  match e with ThreadStart _ => true | _ => false end.

Definition is_save_config (e : Event) : bool :=
  match e with SaveConfig _ => true | _ => false end.

Definition is_digit (c : ascii) : bool :=
  (48 <=? nat_of_ascii c)%nat && (nat_of_ascii c <=? 57)%nat.

(** Exactly [n] decimal digits. *)
Fixpoint digits (n : nat) (s : string) : bool :=
  match n, s with
  | O, EmptyString => true
  | S k, String c rest => is_digit c && digits k rest
  | _, _ => false
  end.

(** The whole numbers [i, i+1, ...], [n] of them. *)
Fixpoint count_from (i : Z) (n : nat) : list Z :=
  match n with
  | O => []
  | S k => i :: count_from (i + 1) k
  end.

(** The progress values of the segments of a run of [n] segments, and
    all the values of a complete run without a progress callback. *)
Definition segment_values (n : nat) : list Q :=
  map (fun i => segment_progress i (Z.of_nat n)) (count_from 1 n).

Definition synthetic_progress (n : nat) : list Q :=
  (10%Q :: 20%Q :: 90%Q :: segment_values n ++ [100%Q])%list.

(** Non-decreasing, for the order of the rationals. *)
Fixpoint nondecreasing (l : list Q) : Prop :=
  match l with
  | [] => True
  | x :: rest =>
      match rest with
      | [] => True
      | y :: _ => (x <= y)%Q
      end /\ nondecreasing rest
  end.

(** [R] relates the state before a computation to the state after it,
    however the computation ends. *)
Definition respects {A} (R : St -> St -> Prop) (m : M A) : Prop :=
  forall s, R s (snd (m s)).

(** The worker only appends to the queue; [l] lists the progress values
    it appends when it completes, and [F] holds of the values it has
    appended when it raises. *)
Definition emits {A} (m : M A) (l : list Q) (F : list Q -> Prop) : Prop :=
  forall s,
    exists msgs,
      message_queue (fst (snd (m s))) = (message_queue (fst s) ++ msgs)%list /\
      match fst (m s) with
      | inr _ => progress_of msgs = l
      | inl _ => F (progress_of msgs)
      end.

(** *** Sample surroundings and states *)

Module Sample.

Definition ui0 : UI :=
  {| controls :=
       {| st_transcribe_btn := DISABLED; st_file_btn := NORMAL;
          st_model_size := NORMAL; st_accelerate_btn := NORMAL;
          st_browse_btn := NORMAL; st_language := NORMAL |};
     accelerate_btn_look := ("加速", "#FF9800");
     model_path := ""; model_size_value := "base"; language_value := "auto";
     file_label := "未选择文件"; progress_var := 0%Q;
     progress_label := "准备就绪"; status_var := "准备就绪";
     result_text := None |}.

(** The object as [__init__] leaves it when there is no configuration
    file and no local model folder. *)
Definition fresh : App :=
  {| filename := None; txt_var := true; srt_var := true; using_cpu := true;
     config := ∅; model_cache := ∅; requests_session := None;
     message_queue := []; ui := ui0 |}.

(** A file and a local model folder have been chosen. *)
Definition ready : App :=
  with_ui (with_model_path "C:/m/base")
    (with_filename (Some "C:/audio/talk.mp3") fresh).

(** The same with GPU mode switched on. *)
Definition ready_gpu : App := with_using_cpu false ready.

(** Both output formats switched off. *)
Definition no_format : App :=
  {| filename := Some "C:/audio/talk.mp3"; txt_var := false; srt_var := false;
     using_cpu := true; config := ∅; model_cache := ∅;
     requests_session := None; message_queue := []; ui := ui0 |}.

Definition segments : list Segment :=
  [ {| seg_start := 0%Q; seg_end := (5 # 2)%Q; seg_text := " hello" |};
    {| seg_start := (5 # 2)%Q; seg_end := (37254 # 10)%Q; seg_text := " world " |} ].

Definition info : TranscriptionInfo :=
  {| info_language := "en"; info_language_probability := (99 # 100)%Q;
     info_duration := (37254 # 10)%Q |}.

Definition driver_error : Exn :=
  {| exn_class := RuntimeError;
     exn_str := "CUDA failed with error CUDA driver version is insufficient for CUDA runtime version" |}.

(** A machine without a usable GPU driver, a library without progress
    callback, and a disk that can be written. *)
Definition env : Env :=
  {| app_dir := "C:\app";
     whisper_model := fun _ args =>
       if String.eqb (device args) "cuda" then inl driver_error
       else inr {| loaded_with := args |};
     signature_has_progress_callback := fun _ => inr false;
     transcribe := fun _ _ _ => ([], inr (info, inr segments));
     certifi_where := None;
     makedirs := fun _ => None;
     open_for_writing := fun _ => None;
     config_write_error := None;
     path_exists := fun p => String.eqb p "C:/x/models\base" |}.

End Sample.

(** *** Further vocabulary *)

(** The two files the exporter writes for a source file. *)
Definition txt_path (output_dir file : string) : string :=
  Path.div output_dir
    (Path.splitext_root (Path.basename file) ++ "_transcript.txt").

Definition srt_path (output_dir file : string) : string :=
  Path.div output_dir (Path.splitext_root (Path.basename file) ++ ".srt").

(** The window's content and the dialogs shown stay as they are. *)
Definition window_untouched (s s' : St) : Prop :=
  ui (fst s') = ui (fst s) /\
  List.filter is_dialog (snd s') = List.filter is_dialog (snd s).

(** [session.close()]. *)
Definition close (session : Session) : Session :=
  {| verify := verify session; closed := true |}.

(** What the [finally] block adds to the trace. *)
Definition cleanup_events (a : App) : list Event :=
  app (match requests_session a with
       | Some _ => [SessionClose; Log INFO "已关闭requests会话"]
       | None => []
       end)
      [Log INFO "已清理模型缓存"].

(** The state [start_transcription] hands to the worker: the sample
    state with its six controls disabled. *)
Definition started : App :=
  fst (snd (start_transcription (Sample.ready, []))).

(** C8 read literally: a run leaves the window as it was, so that
    nothing shows before the queue is drained. *)
Definition worker_leaves_window (env : Env) (s : St) : Prop :=
  ui (fst (snd (run_transcription env s))) = ui (fst s).

(** The number of fallback notices among some messages. *)
Definition fallback_notices (q : list Msg) : nat :=
  length (List.filter is_fallback_notice q).

(** The values [run_transcription] reads from the object at its start. *)
Definition size_of (a : App) : string := model_size_value (ui a).

Definition device_of (a : App) : string := if using_cpu a then "cpu" else "cuda".

Definition path_of (a : App) : string := Py.strip (model_path (ui a)).

Definition lang_of (a : App) : option string :=
  if String.eqb (language_value (ui a)) "auto" then None
  else Some (language_value (ui a)).

Definition model_key_of (a : App) : string :=
  size_of a ++ "_" ++ device_of a ++ "_" ++ path_of a.

Definition cpu_key_of (a : App) : string :=
  size_of a ++ "_cpu_" ++ path_of a.

(** The arguments of the first load of a run, and of its retry. *)
Definition load_args (env : Env) (a : App) (dev : string) : LoadArgs :=
  if negb (String.eqb (path_of a) "")
  then {| model_size_or_path := path_of a; device := dev;
          download_root := None; with_session := false |}
  else {| model_size_or_path := size_of a; device := dev;
          download_root := Some (get_model_dir env); with_session := true |}.

Definition requested_args (env : Env) (a : App) : LoadArgs :=
  load_args env a (device_of a).

Definition cpu_args (env : Env) (a : App) : LoadArgs := load_args env a "cpu".

(** The report of an exception that ends the run. *)
Definition fatal_error (e : Exn) : Msg :=
  message "error" "严重错误" ("转录过程中发生严重错误: " ++ exn_str e).

(** What holds between any two points of a run after its load phase:
    the CPU flag, the pending button commands and fallback notices, the
    loads made and the cached models stay as they are, and the trace
    only grows. *)
Definition quiet (s s' : St) : Prop :=
  using_cpu (fst s') = using_cpu (fst s) /\
  toggles (message_queue (fst s')) = toggles (message_queue (fst s)) /\
  fallback_notices (message_queue (fst s'))
  = fallback_notices (message_queue (fst s)) /\
  model_cache (fst s') = model_cache (fst s) /\
  config (fst s') = config (fst s) /\
  loads (snd s') = loads (snd s) /\
  (forall ev, In ev (snd s) -> In ev (snd s')).

(** ** Start-up and the FFmpeg check *)

Definition with_txt_var (v : bool) (a : App) : App :=
  {| filename := filename a; txt_var := v; srt_var := srt_var a;
     using_cpu := using_cpu a; config := config a; model_cache := model_cache a;
     requests_session := requests_session a; message_queue := message_queue a;
     ui := ui a |}.

Definition with_srt_var (v : bool) (a : App) : App :=
  {| filename := filename a; txt_var := txt_var a; srt_var := v;
     using_cpu := using_cpu a; config := config a; model_cache := model_cache a;
     requests_session := requests_session a; message_queue := message_queue a;
     ui := ui a |}.

(** What [config.json] holds when the program starts:
    - nothing;
    - something that cannot be examined, opened or decoded ([exists],
      [open] or the read raises [e], an [OSError] or a
      [UnicodeDecodeError]);
    - text that is not JSON ([json.JSONDecodeError]);
    - the JSON value [null], [true], [false] or a number, on which the
      test ['model.path' in self.config] raises the [TypeError] [e];
    - an object whose values are strings, which is all [save_config]
      writes.
    A JSON string or array, and an object with other values, are not
    covered. *)
Inductive ConfigFile :=
| NoConfigFile
| ConfigUnreadable (e : Exn)
| BadConfigFile
| ConfigScalar (e : Exn)
| ConfigOf (cfg : gmap string string).

(** What [load_config] returns: a mapping, or a value that is no
    container, with the error of a membership test on it. *)
Inductive Loaded :=
| Mapping (cfg : gmap string string)
| Scalar (e : Exn).

(** How [subprocess.run(["ffmpeg", "-version"])] ends: with an exit
    code, or with an exception, which is [FileNotFoundError],
    [PermissionError] or another one. *)
Inductive FfmpegProbe :=
| Exited (returncode : Z)
| FileNotFound
| PermissionDenied
| ProbeFailed (e : Exn).

(** What the machine answers at start-up and during the installation of
    FFmpeg.  [models_dir] lists the [models] folder if it exists (a
    [models] path that is no folder, or one that cannot be listed, is
    not covered);
    [install_answer] is the user's answer to the installation question;
    [registry_error] is the exception of the registry write, if it
    fails. *)
Record Host := {
  models_dir : option (list string);
  config_file_content : ConfigFile;
  ffmpeg_probe : FfmpegProbe;
  ffmpeg_package_dir : bool;
  install_answer : bool;
  ffmpeg_bin_dir : bool;
  environ_PATH : string;
  registry_error : option Exn
}.

(** What the installation does to the system besides logging. *)
Inductive SysOp :=
| SetUserPath (value : string)
| BroadcastSettingChange.

(** [check_local_base_model] (lines 96-101). *)
Definition check_local_base_model (env : Env) (h : Host) : M (option string) :=
  match models_dir h with
  | Some (_ :: _) =>
      logger_info "找到本地模型文件夹" >> ret (Some (get_model_dir env))
  | _ => ret None
  end.

(** [check_ffmpeg_installed] (lines 104-114): only the two named
    exceptions are caught. *)
Definition check_ffmpeg_installed (h : Host) : M bool :=
  match ffmpeg_probe h with
  | Exited returncode => ret (returncode =? 0)%Z
  | FileNotFound | PermissionDenied => ret false
  | ProbeFailed e => raise e
  end.

(** [load_config] (lines 143-151): only [json.JSONDecodeError] is
    caught, and whatever value the file holds is returned. *)
Definition load_config (h : Host) : M Loaded :=
  match config_file_content h with
  | NoConfigFile => ret (Mapping ∅)
  | ConfigUnreadable e => raise e
  | BadConfigFile =>
      logger_error "配置文件解析失败，使用默认配置" >> ret (Mapping ∅)
  | ConfigScalar e => ret (Scalar e)
  | ConfigOf cfg => ret (Mapping cfg)
  end.

(** The widgets as [create_ui] first builds them. *)
Definition built_ui : UI :=
  {| controls :=
       {| st_transcribe_btn := DISABLED; st_file_btn := NORMAL;
          st_model_size := NORMAL; st_accelerate_btn := NORMAL;
          st_browse_btn := NORMAL; st_language := NORMAL |};
     accelerate_btn_look := ("加速", "#FF9800");
     model_path := ""; model_size_value := "base"; language_value := "auto";
     file_label := "未选择文件"; progress_var := 0%Q;
     progress_label := "准备就绪"; status_var := "准备就绪";
     result_text := None |}.

(** [create_ui] (lines 163-301), as far as it depends on the detected
    model folder and on the configuration.  The first look at the
    configuration (line 220) raises if the loaded value is no
    container. *)
Definition create_ui (local_base_model : option string) (loaded : Loaded)
    : M unit :=
  modify (with_ui (fun _ => built_ui)) >>
  match local_base_model with
  | Some dir =>
      modify (with_ui (with_model_path dir)) >>
      set_state model_size DISABLED >>
      logger_info ("已检测到本地base模型，路径已自动填充: " ++ dir)
  | None => ret tt
  end >>
  match loaded with
  | Mapping _ => ret tt
  | Scalar e => raise e
  end >>
  let* a := get in
  match config a !! "model.path" with
  | Some path =>
      modify (with_ui (with_model_path path)) >>
      set_state model_size DISABLED >>
      logger_info ("从配置文件加载模型路径: " ++ path)
  | None => ret tt
  end >>
  when (bool_decide (config a !! "model.device" = Some "cuda"))
    (modify (with_using_cpu false) >>
     modify (with_ui (with_accelerate_btn_look ("GPU模式", "#4CAF50")))) >>
  modify (with_txt_var true) >>
  modify (with_srt_var true).

(** [check_ffmpeg] (lines 365-396). *)
Definition check_ffmpeg (env : Env) (h : Host) : M unit :=
  let* installed := check_ffmpeg_installed h in
  if installed then logger_info "FFmpeg已安装"
  else
    logger_info "未检测到FFmpeg" >>
    let ffmpeg_path := Path.div (get_app_dir env) "ffmpeg" in
    if ffmpeg_package_dir h
    then
      logger_info ("找到FFmpeg安装包: " ++ ffmpeg_path) >>
      emit (Dialog askyesno "依赖检查"
              ("是否安装FFmpeg?" ++ nl ++ nl ++ "安装包路径: " ++ ffmpeg_path)) >>
      if install_answer h
      then emit (ThreadStart "install_ffmpeg")
      else
        emit (Dialog showwarning "依赖缺失"
                ("某些音频格式可能无法正常处理。" ++ nl
                 ++ "请手动安装FFmpeg并确保已添加到系统PATH。"))
    else
      logger_warning ("未找到FFmpeg安装包: " ++ ffmpeg_path) >>
      emit (Dialog showwarning "依赖缺失"
              ("未检测到FFmpeg且未找到安装包。" ++ nl
               ++ "请确保安装包位于程序目录下的ffmpeg文件夹中。" ++ nl
               ++ "某些音频格式可能无法正常处理。")).

(** [install_ffmpeg] (lines 398-444); the result lists what was done to
    the system. *)
Definition install_ffmpeg (env : Env) (h : Host) : M (list SysOp) :=
  send_message (status "正在安装FFmpeg") >>
  try_except
    (let ffmpeg_bin := Path.div (Path.div (get_app_dir env) "ffmpeg") "bin" in
     let* ops :=
       if negb (ffmpeg_bin_dir h)
       then raise {| exn_class := IOError;
                     exn_str := "FFmpeg bin目录不存在: " ++ ffmpeg_bin |}
       else if negb (Py.contains ffmpeg_bin (environ_PATH h))
       then
         match registry_error h with
         | Some e => raise e
         | None =>
             logger_info "已将FFmpeg添加到系统PATH环境变量" >>
             ret [SetUserPath (ffmpeg_bin ++ ";" ++ environ_PATH h);
                  BroadcastSettingChange]
         end
       else logger_info "FFmpeg路径已在系统PATH中" >> ret [] in
     send_message (message "info" "安装完成"
                     ("FFmpeg安装成功" ++ nl ++ nl ++ "请重启应用")) >>
     send_message (status "准备就绪") >>
     logger_info "FFmpeg安装成功" >>
     ret ops)
    any_exception
    (fun e =>
       send_message (message "error" "安装失败"
                       ("FFmpeg安装失败" ++ nl ++ "错误详情: " ++ exn_str e)) >>
       send_message (status "准备就绪") >>
       logger_error "FFmpeg安装失败" >>
       ret []).

(** The object before [__init__] has set anything. *)
Definition blank : App :=
  {| filename := None; txt_var := false; srt_var := false; using_cpu := false;
     config := ∅; model_cache := ∅; requests_session := None;
     message_queue := []; ui := built_ui |}.

(** [__init__] (lines 117-141). *)
Definition init (env : Env) (h : Host) : M unit :=
  modify (with_message_queue []) >>
  emit (After 100 "process_messages") >>
  modify (with_using_cpu true) >>
  let* local_base_model := check_local_base_model env h in
  let* loaded := load_config h in
  modify (with_config
            match loaded with Mapping cfg => cfg | Scalar _ => ∅ end) >>
  create_ui local_base_model loaded >>
  modify (with_model_cache ∅) >>
  check_ffmpeg env h >>
  logger_info ("应用已启动 - 运行目录: " ++ get_app_dir env) >>
  modify (with_ui (with_result_text None)) >>
  modify (with_requests_session None).

(** The model folder and the configuration the program starts from. *)
Definition detected_models (env : Env) (h : Host) : option string :=
  match models_dir h with
  | Some (_ :: _) => Some (get_model_dir env)
  | _ => None
  end.

Definition loaded_config (h : Host) : gmap string string :=
  match config_file_content h with
  | ConfigOf cfg => cfg
  | _ => ∅
  end.

(** The exception the configuration file makes start-up raise, and the
    one the FFmpeg probe lets through, if any. *)
Definition config_error (h : Host) : option Exn :=
  match config_file_content h with
  | ConfigUnreadable e | ConfigScalar e => Some e
  | _ => None
  end.

Definition probe_error (h : Host) : option Exn :=
  match ffmpeg_probe h with
  | ProbeFailed e => Some e
  | _ => None
  end.

(** FFmpeg answers, with exit code 0. *)
Definition ffmpeg_runs (h : Host) : bool :=
  match ffmpeg_probe h with
  | Exited returncode => (returncode =? 0)%Z
  | _ => false
  end.

(** The kinds of the dialogs shown, in order. *)
Fixpoint dialog_kinds (t : list Event) : list dialog :=
  match t with
  | [] => []
  | Dialog kind _ _ :: rest => kind :: dialog_kinds rest
  | _ :: rest => dialog_kinds rest
  end.

(** *** Vocabulary of the further properties *)

(** The status text shown after some messages have been applied, from
    what was shown before. *)
Fixpoint shown_status (q : list Msg) (current : string) : string :=
  match q with
  | [] => current
  | status text :: rest => shown_status rest text
  | _ :: rest => shown_status rest current
  end.

(** The same for the progress value. *)
Fixpoint shown_progress (q : list Msg) (current : Q) : Q :=
  match q with
  | [] => current
  | progress value :: rest => shown_progress rest value
  | _ :: rest => shown_progress rest current
  end.

(** The same for the result panel, which ignores the messages while its
    text widget does not exist. *)
Fixpoint panel_after (q : list Msg) (shown : option string) : option string :=
  match q with
  | [] => shown
  | clear_result :: rest =>
      panel_after rest (match shown with Some _ => Some "" | None => None end)
  | append_result more :: rest =>
      panel_after rest
        (match shown with Some text => Some (text ++ more) | None => None end)
  | _ :: rest => panel_after rest shown
  end.

(** The CPU flag after the button commands among some messages. *)
Fixpoint flag_after (q : list Msg) (flag : bool) : bool :=
  match q with
  | [] => flag
  | update_acceleration_button :: rest => flag_after rest (negb flag)
  | _ :: rest => flag_after rest flag
  end.

(** The dialogs of the notifications among some messages. *)
Fixpoint dialogs_of (q : list Msg) : list Event :=
  match q with
  | [] => []
  | message icon title text :: rest =>
      Dialog (if String.eqb icon "info" then showinfo else showerror) title text
      :: dialogs_of rest
  | _ :: rest => dialogs_of rest
  end.

(** The notifications with the error icon among some messages. *)
Definition error_reports (q : list Msg) : list Msg :=
  List.filter
    (fun m => match m with
              | message icon _ _ => String.eqb icon "error"
              | _ => false
              end) q.

(** The run neither takes messages back nor rewrites the trace. *)
Definition only_appends (s s' : St) : Prop :=
  (exists msgs, message_queue (fst s') = (message_queue (fst s) ++ msgs)%list) /\
  (exists evs, snd s' = (snd s ++ evs)%list).

(** What the user chose stays as it is. *)
Definition choices_kept (s s' : St) : Prop :=
  filename (fst s') = filename (fst s) /\
  txt_var (fst s') = txt_var (fst s) /\
  srt_var (fst s') = srt_var (fst s) /\
  config (fst s') = config (fst s).

(** Both together. *)
Definition kept (s s' : St) : Prop := only_appends s s' /\ choices_kept s s'.

(** The network session stays the one it was. *)
Definition session_kept (s s' : St) : Prop :=
  requests_session (fst s') = requests_session (fst s).

(** The files written, with their content, among some events. *)
Fixpoint files_written (t : list Event) : list (string * list string) :=
  match t with
  | [] => []
  | WriteFile path writes :: rest => (path, writes) :: files_written rest
  | _ :: rest => files_written rest
  end.

(** The cache and the model settings of the window stay as they
    were. *)
Definition models_kept (s s' : St) : Prop :=
  model_cache (fst s') = model_cache (fst s) /\
  model_size_value (ui (fst s')) = model_size_value (ui (fst s)) /\
  model_path (ui (fst s')) = model_path (ui (fst s)).

(** The last three messages are the completion notice, the status
    [完成! 结果已保存] and progress 100. *)
Definition completion_tail (q : list Msg) : Prop :=
  exists earlier notice,
    q = (earlier
         ++ [message "info" "完成" notice; status "完成! 结果已保存";
             progress 100%Q])%list.

(** A computation that, when it returns, has just announced
    completion. *)
Definition announces_completion {A} (m : M A) : Prop :=
  forall s x s', m s = (inr x, s') -> completion_tail (message_queue (fst s')).

Module Sample2.

(** A library that reports progress itself, at a quarter and at the
    end. *)
Definition env_callback : Env :=
  {| app_dir := "C:\app";
     whisper_model := fun _ args => inr {| loaded_with := args |};
     signature_has_progress_callback := fun _ => inr true;
     transcribe := fun _ _ _ =>
       ([(1 # 4)%Q; 1%Q], inr (Sample.info, inr Sample.segments));
     certifi_where := Some "C:\certs\cacert.pem";
     makedirs := fun _ => None;
     open_for_writing := fun _ => None;
     config_write_error := None;
     path_exists := fun _ => true |}.

(** A disk on which no file can be opened for writing. *)
Definition disk_full : Exn :=
  {| exn_class := IOError; exn_str := "[Errno 28] No space left on device" |}.

Definition env_read_only (callback : bool) : Env :=
  {| app_dir := "C:\app";
     whisper_model := fun _ args => inr {| loaded_with := args |};
     signature_has_progress_callback := fun _ => inr callback;
     transcribe := fun _ _ _ => ([], inr (Sample.info, inr Sample.segments));
     certifi_where := None;
     makedirs := fun _ => None;
     open_for_writing := fun _ => Some disk_full;
     config_write_error := None;
     path_exists := fun _ => true |}.

(** A disk on which subtitle files cannot be opened for writing. *)
Definition env_srt_locked : Env :=
  {| app_dir := "C:\app";
     whisper_model := fun _ args => inr {| loaded_with := args |};
     signature_has_progress_callback := fun _ => inr false;
     transcribe := fun _ _ _ => ([], inr (Sample.info, inr Sample.segments));
     certifi_where := None;
     makedirs := fun _ => None;
     open_for_writing := fun path =>
       if Py.endswith path ".srt" then Some disk_full else None;
     config_write_error := None;
     path_exists := fun _ => true |}.

(** A machine with a [models] folder, a configuration that names
    another model folder and GPU mode, and FFmpeg installed. *)
Definition host : Host :=
  {| models_dir := Some ["base"];
     config_file_content :=
       ConfigOf (<["model.path" := "D:\whisper\small"]>
                   (<["model.device" := "cuda"]> ∅));
     ffmpeg_probe := Exited 0;
     ffmpeg_package_dir := false;
     install_answer := false;
     ffmpeg_bin_dir := true;
     environ_PATH := "C:\Windows;C:\Windows\System32";
     registry_error := None |}.

(** The machine at the restart after GPU mode was switched on. *)
Definition host_after_toggle : Host :=
  {| models_dir := None;
     config_file_content := ConfigOf (<["model.device" := "cuda"]> ∅);
     ffmpeg_probe := FileNotFound; ffmpeg_package_dir := true;
     install_answer := false; ffmpeg_bin_dir := false;
     environ_PATH := ""; registry_error := None |}.

(** The machine at the restart after [C:/x/models] was chosen; it has a
    [models] folder of its own. *)
Definition host_after_browse : Host :=
  {| models_dir := Some ["tiny"];
     config_file_content := ConfigOf (<["model.path" := "C:/x/models\base"]> ∅);
     ffmpeg_probe := Exited 0; ffmpeg_package_dir := false;
     install_answer := false; ffmpeg_bin_dir := false;
     environ_PATH := ""; registry_error := None |}.

(** The sample state after a run on the CPU: its model is cached. *)
Definition cached : App :=
  with_model_cache
    (<["base_cpu_C:/m/base" :=
         {| loaded_with :=
              {| model_size_or_path := "C:/m/base"; device := "cpu";
                 download_root := None; with_session := false |} |}]> ∅)
    Sample.ready.

(** A configuration file that is not UTF-8, one that holds [null], and
    an [ffmpeg] that is not a program. *)
Definition not_utf8 : Exn :=
  {| exn_class := OtherException;
     exn_str := "'utf-8' codec can't decode byte 0xff in position 0: invalid start byte" |}.

Definition not_iterable : Exn :=
  {| exn_class := OtherException;
     exn_str := "argument of type 'NoneType' is not iterable" |}.

Definition not_a_program : Exn :=
  {| exn_class := IOError;
     exn_str := "[WinError 193] %1 is not a valid Win32 application" |}.

Definition host_latin1_config : Host :=
  {| models_dir := None; config_file_content := ConfigUnreadable not_utf8;
     ffmpeg_probe := Exited 0; ffmpeg_package_dir := false;
     install_answer := false; ffmpeg_bin_dir := false;
     environ_PATH := ""; registry_error := None |}.

Definition host_null_config : Host :=
  {| models_dir := Some ["base"]; config_file_content := ConfigScalar not_iterable;
     ffmpeg_probe := Exited 0; ffmpeg_package_dir := false;
     install_answer := false; ffmpeg_bin_dir := false;
     environ_PATH := ""; registry_error := None |}.

Definition host_broken_ffmpeg : Host :=
  {| models_dir := None; config_file_content := NoConfigFile;
     ffmpeg_probe := ProbeFailed not_a_program; ffmpeg_package_dir := true;
     install_answer := true; ffmpeg_bin_dir := true;
     environ_PATH := ""; registry_error := None |}.

End Sample2.

(** * Properties *)

(** ** Floats *)

(** Rounding to the nearest float keeps the order of non-negative
    numbers and depends on the number only, not on how the fraction is
    written. *)

Lemma pow2_pos (e : Z) : (0 < Py.pow2 e)%Q.
Proof. apply Qpower_0_lt. reflexivity. Qed.

Lemma pow2_le (a b : Z) : a <= b -> (Py.pow2 a <= Py.pow2 b)%Q.
Proof. intros H. apply Qpower_le_compat_l; [exact H | discriminate]. Qed.

Lemma pow2_lt_inv (a b : Z) : (Py.pow2 a < Py.pow2 b)%Q -> a < b.
Proof. intros H. eapply Qpower_lt_compat_l_inv; [exact H | reflexivity]. Qed.

Lemma pow2_add (a b : Z) : (Py.pow2 (a + b) == Py.pow2 a * Py.pow2 b)%Q.
Proof. unfold Py.pow2. now rewrite Qpower_plus by discriminate. Qed.

Lemma pow2_frac (a b : Z) :
  0 <= a -> 0 <= b -> (Py.pow2 (a - b) == 2 ^ a # Z.to_pos (2 ^ b))%Q.
Proof.
  intros Ha Hb. unfold Py.pow2. rewrite Qpower_minus by discriminate.
  change 2%Q with (inject_Z 2). rewrite <- !Zpower_Qpower by assumption.
  rewrite (Qmake_Qdiv (2 ^ a) (Z.to_pos (2 ^ b))).
  rewrite Z2Pos.id by (apply Z.pow_pos_nonneg; lia). reflexivity.
Qed.

Lemma nearest_even_bounds (q : Q) :
  Qfloor q <= Py.nearest_even q <= Qfloor q + 1.
Proof.
  unfold Py.nearest_even.
  destruct (q - inject_Z (Qfloor q) ?= 1 # 2)%Q; [destruct (Z.even _)| |]; lia.
Qed.

Lemma nearest_even_mono (q1 q2 : Q) :
  (q1 <= q2)%Q -> Py.nearest_even q1 <= Py.nearest_even q2.
Proof.
  intros H. pose proof (Qfloor_resp_le _ _ H) as Hf.
  pose proof (nearest_even_bounds q1) as B1.
  pose proof (nearest_even_bounds q2) as B2.
  destruct (Z.eq_dec (Qfloor q1) (Qfloor q2)) as [E|N]; [|lia].
  clear B1 B2 Hf. unfold Py.nearest_even. rewrite E.
  destruct (Qcompare_spec (q1 - inject_Z (Qfloor q2)) (1 # 2)) as [C1|C1|C1];
    destruct (Qcompare_spec (q2 - inject_Z (Qfloor q2)) (1 # 2)) as [C2|C2|C2];
    try (destruct (Z.even (Qfloor q2))); try lia; exfalso; lra.
Qed.

Lemma nearest_even_Z (k : Z) : Py.nearest_even (inject_Z k) = k.
Proof.
  unfold Py.nearest_even. rewrite Qfloor_Z.
  destruct (Qcompare_spec (inject_Z k - inject_Z k) (1 # 2)) as [C|C|C];
    [exfalso; lra | reflexivity | exfalso; lra].
Qed.

Lemma ulp_exponent_spec (x : Q) :
  (0 < x)%Q ->
  (x < Py.pow2 (Py.ulp_exponent x + 53))%Q /\
  (Py.ulp_exponent x = -1074 \/ (Py.pow2 (Py.ulp_exponent x + 52) <= x)%Q).
Proof.
  intros Hx. unfold Py.ulp_exponent.
  rewrite (Qabs_pos x) by lra.
  destruct x as [n d]. cbn [Qnum Qden].
  assert (Hn : 0 < n) by (unfold Qlt in Hx; simpl in Hx; lia).
  rewrite (Z.abs_eq n) by lia.
  pose proof (Z.log2_spec n Hn) as [Ha1 Ha2].
  pose proof (Z.log2_spec (Z.pos d) eq_refl) as [Hb1 Hb2].
  pose proof (Z.log2_nonneg n) as Ha. pose proof (Z.log2_nonneg (Z.pos d)) as Hb.
  set (a := Z.log2 n) in *. set (b := Z.log2 (Z.pos d)) in *.
  assert (Pa : 0 < 2 ^ a) by (apply Z.pow_pos_nonneg; lia).
  assert (Pb : 0 < 2 ^ b) by (apply Z.pow_pos_nonneg; lia).
  assert (Sa : 2 ^ Z.succ a = 2 * 2 ^ a) by (apply Z.pow_succ_r; lia).
  assert (Sb : 2 ^ Z.succ b = 2 * 2 ^ b) by (apply Z.pow_succ_r; lia).
  assert (Hlow : (Py.pow2 (a - b - 53 + 52) <= n # d)%Q).
  { replace (a - b - 53 + 52) with (a - Z.succ b) by lia.
    rewrite pow2_frac by lia. unfold Qle. cbn [Qnum Qden].
    rewrite Z2Pos.id by lia. nia. }
  assert (Hhigh : (n # d < Py.pow2 (a - b - 53 + 54))%Q).
  { replace (a - b - 53 + 54) with (Z.succ a - b) by lia.
    rewrite pow2_frac by lia. unfold Qlt. cbn [Qnum Qden].
    rewrite Z2Pos.id by lia. nia. }
  set (e0 := a - b - 53) in *.
  assert (He1 :
    let e1 := if Qle_bool (Py.pow2 (e0 + 53)) (n # d) then e0 + 1 else e0 in
    (n # d < Py.pow2 (e1 + 53))%Q /\ (Py.pow2 (e1 + 52) <= n # d)%Q).
  { destruct (Qle_bool (Py.pow2 (e0 + 53)) (n # d)) eqn:T; cbv zeta.
    - apply Qle_bool_iff in T.
      replace (e0 + 1 + 53) with (e0 + 54) by lia.
      replace (e0 + 1 + 52) with (e0 + 53) by lia. split; assumption.
    - split; [|assumption].
      apply Qnot_le_lt. intros C. apply Qle_bool_iff in C. congruence. }
  cbv zeta in He1.
  set (e1 := if Qle_bool (Py.pow2 (e0 + 53)) (n # d) then e0 + 1 else e0) in *.
  destruct He1 as [H1 H2].
  destruct (Z.max_spec e1 (-1074)) as [[Hlt ->]|[Hge ->]].
  - split; [|left; reflexivity].
    eapply Qlt_le_trans; [exact H1|]. apply pow2_le. lia.
  - split; [exact H1 | right; exact H2].
Qed.

Lemma float_round_eq (x : Q) :
  (Py.float_round x
   == inject_Z (Py.nearest_even (Qred x / Py.pow2 (Py.ulp_exponent (Qred x))))
      * Py.pow2 (Py.ulp_exponent (Qred x)))%Q.
Proof. unfold Py.float_round. apply Qred_correct. Qed.

Lemma float_round_proper (x y : Q) : (x == y)%Q -> Py.float_round x = Py.float_round y.
Proof. intros H. unfold Py.float_round. now rewrite (Qred_complete _ _ H). Qed.

Lemma scaled_le (x y : Q) (e : Z) :
  (x <= y)%Q -> (x / Py.pow2 e <= y / Py.pow2 e)%Q.
Proof.
  intros H. unfold Qdiv. apply Qmult_le_compat_r; [exact H|].
  apply Qinv_le_0_compat, Qlt_le_weak, pow2_pos.
Qed.

Lemma scaled_pow2 (a e : Z) : (Py.pow2 (a + e) / Py.pow2 e == Py.pow2 a)%Q.
Proof.
  unfold Py.pow2. rewrite Qpower_plus by discriminate.
  apply Qdiv_mult_l. intros H. pose proof (pow2_pos e) as P. unfold Py.pow2 in P.
  rewrite H in P. discriminate.
Qed.

Lemma pow2_Z (a : Z) : 0 <= a -> (Py.pow2 a == inject_Z (2 ^ a))%Q.
Proof.
  intros H. unfold Py.pow2. change 2%Q with (inject_Z 2).
  now rewrite <- Zpower_Qpower.
Qed.

Lemma float_round_nonneg (x : Q) : (0 <= x)%Q -> (0 <= Py.float_round x)%Q.
Proof.
  intros H. rewrite float_round_eq.
  apply Qmult_le_0_compat; [|apply Qlt_le_weak, pow2_pos].
  change 0%Q with (inject_Z 0). rewrite <- Zle_Qle.
  rewrite <- (nearest_even_Z 0). apply nearest_even_mono.
  unfold Qdiv. apply Qmult_le_0_compat.
  - now rewrite Qred_correct.
  - apply Qinv_le_0_compat, Qlt_le_weak, pow2_pos.
Qed.

Lemma float_round_mono (x y : Q) :
  (0 <= x)%Q -> (x <= y)%Q -> (Py.float_round x <= Py.float_round y)%Q.
Proof.
  intros Hx Hxy.
  destruct (Qlt_le_dec 0 x) as [Hpos|Hzero].
  2: { assert (E : (x == 0)%Q) by lra.
       rewrite (float_round_proper _ _ E).
       change (Py.float_round 0) with 0%Q. apply float_round_nonneg. lra. }
  rewrite !float_round_eq.
  pose proof (Qred_correct x) as Ex. pose proof (Qred_correct y) as Ey.
  set (x' := Qred x) in *. set (y' := Qred y) in *.
  assert (Hx' : (0 < x')%Q) by lra. assert (Hy' : (0 < y')%Q) by lra.
  assert (Hle : (x' <= y')%Q) by lra.
  destruct (ulp_exponent_spec x' Hx') as [Ux Lx].
  destruct (ulp_exponent_spec y' Hy') as [Uy Ly].
  set (ex := Py.ulp_exponent x') in *. set (ey := Py.ulp_exponent y') in *.
  assert (Hexy : ex <= ey).
  { destruct Lx as [->|Lx]; [unfold ey, Py.ulp_exponent; lia|].
    assert (H : (Py.pow2 (ex + 52) < Py.pow2 (ey + 53))%Q) by lra.
    apply pow2_lt_inv in H. lia. }
  destruct (Z.eq_dec ex ey) as [E|N].
  - rewrite <- E. apply Qmult_le_compat_r; [|apply Qlt_le_weak, pow2_pos].
    rewrite <- Zle_Qle. apply nearest_even_mono, scaled_le, Hle.
  - assert (Hlt : ex + 1 <= ey) by lia.
    destruct Ly as [Ly|Ly]; [unfold ex, Py.ulp_exponent in *; lia|].
    apply Qle_trans with (Py.pow2 (53 + ex)).
    + rewrite pow2_add, (pow2_Z 53) by lia.
      apply Qmult_le_compat_r; [|apply Qlt_le_weak, pow2_pos].
      rewrite <- Zle_Qle, <- (nearest_even_Z (2 ^ 53)).
      apply nearest_even_mono.
      rewrite <- (pow2_Z 53), <- (scaled_pow2 53 ex) by lia.
      apply scaled_le. rewrite Z.add_comm. lra.
    + apply Qle_trans with (Py.pow2 (52 + ey)); [apply pow2_le; lia|].
      rewrite pow2_add, (pow2_Z 52) by lia.
      apply Qmult_le_compat_r; [|apply Qlt_le_weak, pow2_pos].
      rewrite <- Zle_Qle. rewrite <- (nearest_even_Z (2 ^ 52)) at 1.
      apply nearest_even_mono.
      rewrite <- (pow2_Z 52), <- (scaled_pow2 52 ey) by lia.
      apply scaled_le. rewrite Z.add_comm. lra.
Qed.

(** ** The subtitle-time formatter *)

Lemma format_0d_2_digits (n : Z) :
  (0 <= n < 100)%Z -> digits 2 (Py.format_0d 2 n) = true.
Proof.
  intros Hn. replace n with (Z.of_nat (Z.to_nat n)) by lia.
  assert (Hk : (Z.to_nat n < 100)%nat) by lia.
  generalize dependent (Z.to_nat n). clear Hn n. intros k Hk.
  do 100 (destruct k as [|k]; [vm_compute; reflexivity|]). lia.
Qed.

Lemma int_of_float_nonneg (x : Q) : (0 <= x)%Q -> (0 <= Py.int_of_float x)%Z.
Proof.
  intros Hx. unfold Py.int_of_float. apply Z.quot_pos; [|lia].
  unfold Qle in Hx. simpl in Hx. lia.
Qed.

(** The millisecond field is always [000]: the fractional part of the
    argument never reaches it. *)
Lemma format_srt_time_fields (seconds : Q) :
  format_srt_time seconds =
    Py.format_0d 2 (Py.int_of_float seconds / 3600) ++ ":"
    ++ Py.format_0d 2 (Py.int_of_float seconds mod 3600 / 60) ++ ":"
    ++ Py.format_0d 2 (Py.int_of_float seconds mod 3600 mod 60) ++ ",000".
Proof.
  unfold format_srt_time. cbv zeta. rewrite Z.sub_diag. reflexivity.
Qed.

(** Below one hundred hours the result has the shape [HH:MM:SS,mmm]. *)
Lemma format_srt_time_shape (seconds : Q) :
  (0 <= seconds)%Q -> (Py.int_of_float seconds < 360000)%Z ->
  exists hh mm ss,
    digits 2 hh = true /\ digits 2 mm = true /\ digits 2 ss = true /\
    format_srt_time seconds = hh ++ ":" ++ mm ++ ":" ++ ss ++ ",000".
Proof.
  intros H0 Hlt. apply int_of_float_nonneg in H0.
  set (n := Py.int_of_float seconds) in *.
  exists (Py.format_0d 2 (n / 3600)), (Py.format_0d 2 (n mod 3600 / 60)),
         (Py.format_0d 2 (n mod 3600 mod 60)).
  assert (0 <= n mod 3600 < 3600)%Z by (apply Z.mod_pos_bound; lia).
  repeat split.
  - apply format_0d_2_digits. split; [apply Z.div_pos; lia|].
    apply Z.div_lt_upper_bound; lia.
  - apply format_0d_2_digits. split; [apply Z.div_pos; lia|].
    apply Z.div_lt_upper_bound; lia.
  - apply format_0d_2_digits.
    assert (0 <= n mod 3600 mod 60 < 60)%Z by (apply Z.mod_pos_bound; lia). lia.
  - apply format_srt_time_fields.
Qed.

(** C1 (the code departs from the claim).  At 3725.4 seconds, both as
    the decimal fraction and as the double nearest to it, the formatter
    returns [01:02:05,000]: hours, minutes and seconds are right, the
    milliseconds are lost. *)
Theorem format_srt_time_3725_4 :
  format_srt_time (37254 # 10) = "01:02:05,000" /\
  format_srt_time (8192241236233421 # 2199023255552) = "01:02:05,000".
Proof. split; vm_compute; reflexivity. Qed.

(** ** Running computations *)

Lemma bind_ok {A B} (m : M A) (k : A -> M B) s x s' :
  m s = (inr x, s') -> bind m k s = k x s'.
Proof. intros H. unfold bind. rewrite H. reflexivity. Qed.

Lemma bind_raise {A B} (m : M A) (k : A -> M B) s e s' :
  m s = (inl e, s') -> bind m k s = (inl e, s').
Proof. intros H. unfold bind. rewrite H. reflexivity. Qed.

Lemma for_each_skip {A} (l : list A) s :
  for_each (fun _ : A => ret tt) l s = (inr tt, s).
Proof. induction l as [|x l IH]; simpl; [reflexivity|]. unfold bind, ret. apply IH. Qed.

(** Unfold the primitive steps of a computation applied to a state. *)
Ltac step :=
  unfold when, set_state, send_message, logger_info, logger_warning,
    logger_error, make_dirs, emit, modify, get, raise, ret, bind; simpl.

(** ** Starting a run *)

(** C4.  Without a file, or with both output formats switched off,
    [start_transcription] shows one warning dialog and writes one log
    line; the object with all its widgets is exactly as before, so no
    control is disabled, and no thread is started. *)
Theorem start_transcription_blocked (a : App) (t : list Event) :
  filename a = None \/ (txt_var a = false /\ srt_var a = false) ->
  exists title text line,
    start_transcription (a, t)
    = (inr tt, (a, t ++ [Dialog showwarning title text; Log WARNING line])%list).
Proof.
  intros H. unfold start_transcription. step.
  destruct (filename a) as [file|] eqn:Hf.
  - destruct H as [H|[Ht Hs]]; [discriminate|]. rewrite Ht, Hs. step.
    rewrite <- app_assoc. eauto.
  - step. rewrite <- app_assoc. eauto.
Qed.

Lemma start_transcription_blocked_witness :
  (filename Sample.fresh = None \/
   (txt_var Sample.fresh = false /\ srt_var Sample.fresh = false)) /\
  exists title text line,
    start_transcription (Sample.fresh, [])
    = (inr tt, (Sample.fresh, [Dialog showwarning title text; Log WARNING line])).
Proof.
  split; [left; reflexivity|].
  apply (start_transcription_blocked Sample.fresh []). left. reflexivity.
Defined.

(** The second way into the same guard. *)
Example start_transcription_no_format :
  exists title text line,
    start_transcription (Sample.no_format, [])
    = (inr tt, (Sample.no_format, [Dialog showwarning title text; Log WARNING line])).
Proof.
  do 3 eexists. reflexivity.
Qed.

(** With a file and a format, the six controls are disabled and the
    worker is started. *)
Lemma start_transcription_starts (a : App) (t : list Event) (file : string) :
  filename a = Some file -> txt_var a || srt_var a = true ->
  let s' := snd (start_transcription (a, t)) in
  controls (ui (fst s')) = all_disabled /\
  exists line, snd s' = (t ++ [Log INFO line; ThreadStart "run_transcription"])%list.
Proof.
  intros Hf Hfmt. unfold start_transcription. step. rewrite Hf.
  destruct (txt_var a), (srt_var a); try discriminate; step;
    (split; [reflexivity|]); rewrite <- app_assoc; eauto.
Qed.

(** ** Choosing the model directory *)

Lemma string_length_append (s1 s2 : string) :
  String.length (s1 ++ s2) = (String.length s1 + String.length s2)%nat.
Proof. induction s1 as [|c s1 IH]; simpl; [reflexivity|]. now rewrite IH. Qed.

(** A path that ends in [models] does not end in a separator, so
    [os.path.join] puts one in. *)
Lemma join_models_base (chosen : string) :
  Py.endswith chosen "models" = true ->
  Path.join chosen "base" = chosen ++ "\base".
Proof.
  unfold Py.endswith, Path.join.
  change (Py.rev_string "models" "") with "sledom".
  destruct (Py.rev_string chosen "") as [|c r]; [discriminate|].
  change (String.prefix "sledom" (String c r))
    with (if ascii_dec "s" c then String.prefix "ledom" r else false).
  destruct (ascii_dec "s" c) as [<-|]; [reflexivity | discriminate].
Qed.

Lemma append_base_differs (chosen : string) :
  String.eqb (chosen ++ "\base") chosen = false.
Proof.
  apply String.eqb_neq. intros H. apply (f_equal String.length) in H.
  rewrite string_length_append in H. simpl in H. lia.
Qed.

(** C10.  [dirname] is the chosen path, with [\base] appended when the
    chosen path ends in [models] (and then it differs from the chosen
    path).  If [dirname] is not empty and exists, it is what the path
    entry shows and what [model.path] holds in the configuration, which
    is then written to disk unless the write fails; otherwise the entry
    and the configuration stay as they were, nothing is written, and the
    model-size selector is enabled. *)
Theorem select_model_dir_stores_base (env : Env) (chosen : string)
    (a : App) (t : list Event) :
  let dirname :=
    if Py.endswith chosen "models" then chosen ++ "\base" else chosen in
  let a' := fst (snd (select_model_dir env chosen (a, t))) in
  let t' := snd (snd (select_model_dir env chosen (a, t))) in
  String.eqb dirname chosen = negb (Py.endswith chosen "models") /\
  if negb (String.eqb dirname "") && path_exists env dirname
  then
    model_path (ui a') = dirname /\
    config a' = <["model.path" := dirname]> (config a) /\
    st_model_size (controls (ui a')) = DISABLED /\
    match config_write_error env with
    | None =>
        t' = (t ++ [Log INFO ("已选择本地模型路径: " ++ dirname);
                    SaveConfig (config a')])%list
    | Some e =>
        t' = (t ++ [Log INFO ("已选择本地模型路径: " ++ dirname);
                    Log ERROR ("保存配置文件失败: " ++ exn_str e);
                    Log ERROR "保存模型路径到配置文件失败";
                    Dialog showerror "错误" "保存模型路径到配置文件失败"])%list
    end
  else
    model_path (ui a') = model_path (ui a) /\
    config a' = config a /\
    st_model_size (controls (ui a')) = NORMAL /\
    t' = (t ++ [Log INFO "取消选择本地模型路径"])%list.
Proof.
  cbv zeta. unfold select_model_dir.
  destruct (Py.endswith chosen "models") eqn:Hends.
  - rewrite (join_models_base _ Hends). split; [apply append_base_differs|].
    destruct (negb (String.eqb (chosen ++ "\base") "")
              && path_exists env (chosen ++ "\base")) eqn:Hok.
    + unfold save_config. destruct (config_write_error env); step;
        repeat split; repeat rewrite <- app_assoc; reflexivity.
    + step. repeat split.
  - split; [apply String.eqb_refl|].
    destruct (negb (String.eqb chosen "") && path_exists env chosen) eqn:Hok.
    + unfold save_config. destruct (config_write_error env); step;
        repeat split; repeat rewrite <- app_assoc; reflexivity.
    + step. repeat split.
Qed.

(** A chosen [C:/x/models] whose [base] sub-folder exists. *)
Example select_model_dir_models :
  let s' := snd (select_model_dir Sample.env "C:/x/models" (Sample.fresh, [])) in
  model_path (ui (fst s')) = "C:/x/models\base" /\
  config (fst s') !! "model.path" = Some "C:/x/models\base" /\
  List.existsb is_save_config (snd s') = true.
Proof. repeat split; vm_compute; reflexivity. Qed.

(** A chosen [C:/y/models] without one: nothing is stored. *)
Example select_model_dir_missing :
  let s' := snd (select_model_dir Sample.env "C:/y/models" (Sample.fresh, [])) in
  model_path (ui (fst s')) = "" /\
  config (fst s') = ∅ /\
  st_model_size (controls (ui (fst s'))) = NORMAL.
Proof. repeat split; vm_compute; reflexivity. Qed.

(** ** The exporter *)

Arguments Py.format_f : simpl never.
Arguments Py.strip : simpl never.
Arguments Py.str_of_int : simpl never.
Arguments Py.contains : simpl never.
Arguments format_srt_time : simpl never.
Arguments Path.basename : simpl never.
Arguments Path.splitext_root : simpl never.

Lemma string_append_assoc (s1 s2 s3 : string) :
  (s1 ++ s2) ++ s3 = s1 ++ s2 ++ s3.
Proof.
  induction s1 as [|c s1 IH]; [reflexivity|].
  change (String c ((s1 ++ s2) ++ s3) = String c (s1 ++ s2 ++ s3)).
  now rewrite IH.
Qed.

(** [format(x, ".2f")] ends in a point and exactly two digits. *)
Lemma format_f_2_decimals (x : Q) :
  exists whole frac,
    Py.format_f 2 x = whole ++ "." ++ frac /\ digits 2 frac = true.
Proof.
  unfold Py.format_f.
  set (n := Py.round_half_even _ _).
  set (sign := if (Qnum x <? 0)%Z then "-" else "").
  set (ip := NilZero.string_of_uint _).
  exists (sign ++ ip), (Py.format_0d 2 (n mod 10 ^ Z.of_nat 2)). split.
  - simpl. now rewrite string_append_assoc.
  - apply format_0d_2_digits. apply Z.mod_pos_bound. reflexivity.
Qed.

Lemma srt_blocks_imap (i : Z) (segments_list : list Segment) :
  srt_blocks i segments_list
  = concat (imap (fun k segment => srt_block (i + Z.of_nat k) segment)
              segments_list).
Proof.
  revert i. induction segments_list as [|segment rest IH]; intros i.
  - reflexivity.
  - simpl. rewrite Z.add_0_r, IH. do 4 f_equal.
    apply imap_ext. intros k x _. simpl. f_equal. lia.
Qed.

(** C5.  With a file name, the TXT format selected, a detected language
    and a writable target, the export writes
    [<basename>_transcript.txt] with: the language line, the duration
    line (which ends in an empty line), and then one write per segment,
    in the order of the segments, each [[start -> end] text] with both
    times printed with two decimals and an [s]. *)
Theorem txt_export_lines (env : Env) (info : TranscriptionInfo)
    (segments_list : list Segment) (output_dir file : string)
    (a : App) (t : list Event) :
  filename a = Some file ->
  txt_var a = true ->
  info_language info <> "" ->
  open_for_writing env (txt_path output_dir file) = None ->
  let language_line := "检测语言: " ++ info_language info ++ nl in
  let duration_line :=
    "音频时长: " ++ Py.format_f 1 (info_duration info) ++ "秒" ++ nl ++ nl in
  (exists rest,
     snd (snd (save_transcription_results env info segments_list output_dir (a, t)))
     = (t ++ WriteFile (txt_path output_dir file)
               (language_line :: duration_line :: map txt_line segments_list)
             :: rest)%list) /\
  (forall segment,
     txt_line segment
     = "[" ++ Py.format_f 2 (seg_start segment) ++ "s -> "
           ++ Py.format_f 2 (seg_end segment) ++ "s] "
           ++ seg_text segment ++ nl) /\
  (forall x, exists whole frac,
     Py.format_f 2 x = whole ++ "." ++ frac /\ digits 2 frac = true).
Proof.
  intros Hfile Htxt Hlang Hopen. cbv zeta.
  split; [|split; [reflexivity | apply format_f_2_decimals]].
  apply String.eqb_neq in Hlang.
  unfold save_transcription_results, try_except, self_filename, write_file.
  unfold txt_path in *.
  step. rewrite Hfile. step. rewrite Htxt, Hopen. step.
  unfold txt_writes. rewrite Hlang. simpl app.
  destruct (srt_var a).
  - destruct (open_for_writing env (Path.div output_dir (_ ++ ".srt")))
      as [e|]; step.
    + destruct (is_IOError (exn_class e)); step;
        repeat rewrite <- app_assoc; simpl; eauto.
    + repeat rewrite <- app_assoc; simpl; eauto.
  - step. repeat rewrite <- app_assoc; simpl; eauto.
Qed.

Lemma txt_export_lines_witness :
  filename Sample.ready = Some "C:/audio/talk.mp3" /\
  txt_var Sample.ready = true /\
  info_language Sample.info <> "" /\
  open_for_writing Sample.env (txt_path "C:\app\transcripts" "C:/audio/talk.mp3")
  = None /\
  exists rest,
    snd (snd (save_transcription_results Sample.env Sample.info Sample.segments
                "C:\app\transcripts" (Sample.ready, [])))
    = WriteFile "C:\app\transcripts\talk_transcript.txt"
        [ "检测语言: en" ++ nl; "音频时长: 3725.4秒" ++ nl ++ nl;
          "[0.00s -> 2.50s]  hello" ++ nl;
          "[2.50s -> 3725.40s]  world " ++ nl ]
      :: rest.
Proof.
  repeat split; try discriminate.
  destruct (txt_export_lines Sample.env Sample.info Sample.segments
              "C:\app\transcripts" "C:/audio/talk.mp3" Sample.ready [])
    as [[rest Hrest] _]; try reflexivity; try discriminate.
  exists rest. exact Hrest.
Defined.

(** With a file name, the SRT format selected and writable targets, the
    export writes [<basename>.srt] as one block per segment, in the
    order of the segments; block [k] (counting from 0) is three writes:
    the number [k + 1]; the start and the end time as printed by
    [format_srt_time], with [ --> ] between them; and the text stripped
    of surrounding white space, followed by an empty line. *)
Lemma srt_export_structure (env : Env) (info : TranscriptionInfo)
    (segments_list : list Segment) (output_dir file : string)
    (a : App) (t : list Event) :
  filename a = Some file ->
  srt_var a = true ->
  (forall path, open_for_writing env path = None) ->
  In (WriteFile (srt_path output_dir file)
        (concat (imap (fun k segment => srt_block (1 + Z.of_nat k) segment)
                   segments_list)))
     (snd (snd (save_transcription_results env info segments_list output_dir (a, t)))).
Proof.
  intros Hfile Hsrt Hopen.
  rewrite <- srt_blocks_imap. fold (srt_writes segments_list).
  unfold save_transcription_results, try_except, self_filename, write_file,
    srt_path.
  step. rewrite Hfile. step. rewrite Hsrt, !Hopen.
  destruct (txt_var a); step; rewrite !in_app_iff; simpl; tauto.
Qed.

(** The time line of a block never shows a fraction of a second: for
    times below one hundred hours it is two digits for each of hours,
    minutes and seconds, and [000] for the milliseconds. *)
Lemma srt_block_whole_seconds (i : Z) (segment : Segment) :
  (0 <= seg_start segment)%Q -> (0 <= seg_end segment)%Q ->
  (Py.int_of_float (seg_start segment) < 360000)%Z ->
  (Py.int_of_float (seg_end segment) < 360000)%Z ->
  exists h1 m1 s1 h2 m2 s2,
    nth_error (srt_block i segment) 1
    = Some ((h1 ++ ":" ++ m1 ++ ":" ++ s1 ++ ",000") ++ " --> "
            ++ (h2 ++ ":" ++ m2 ++ ":" ++ s2 ++ ",000") ++ nl).
Proof.
  intros H1 H2 B1 B2.
  destruct (format_srt_time_shape _ H1 B1) as (h1 & m1 & s1 & _ & _ & _ & E1).
  destruct (format_srt_time_shape _ H2 B2) as (h2 & m2 & s2 & _ & _ & _ & E2).
  exists h1, m1, s1, h2, m2, s2. unfold srt_block. cbn [nth_error].
  now rewrite E1, E2.
Qed.

(** C6 (the code departs from the claim).  The sample recording has a
    segment from 0 to 2.5 seconds and one from 2.5 to 3725.4 seconds.
    With SRT selected the export writes two blocks, numbered 1 and 2, in
    order, each with its stripped text and an empty line; but their time
    lines read [00:00:00,000 --> 00:00:02,000] and
    [00:00:02,000 --> 01:02:05,000], where [HH:MM:SS,mmm] is
    [00:00:02,500] and [01:02:05,400]. *)
Theorem srt_export_sample_blocks :
  In (WriteFile "C:\app\transcripts\talk.srt"
        [ "1" ++ nl; "00:00:00,000 --> 00:00:02,000" ++ nl; "hello" ++ nl ++ nl;
          "2" ++ nl; "00:00:02,000 --> 01:02:05,000" ++ nl; "world" ++ nl ++ nl ])
     (snd (snd (save_transcription_results Sample.env Sample.info Sample.segments
                  "C:\app\transcripts" (Sample.ready, [])))).
Proof.
  exact (srt_export_structure Sample.env Sample.info Sample.segments
           "C:\app\transcripts" "C:/audio/talk.mp3" Sample.ready []
           eq_refl eq_refl (fun _ => eq_refl)).
Qed.

(** ** What a computation leaves alone *)

Section Respects.

Variable R : St -> St -> Prop.
Hypothesis R_refl : forall s, R s s.
Hypothesis R_trans : forall s1 s2 s3, R s1 s2 -> R s2 s3 -> R s1 s3.

Lemma respects_ret {A} (x : A) : respects R (ret x).
Proof. intros s. apply R_refl. Qed.

Lemma respects_raise {A} (e : Exn) : respects R (@raise A e).
Proof. intros s. apply R_refl. Qed.

Lemma respects_get : respects R get.
Proof. intros s. apply R_refl. Qed.

Lemma respects_bind {A B} (m : M A) (k : A -> M B) :
  respects R m -> (forall x, respects R (k x)) -> respects R (bind m k).
Proof.
  intros Hm Hk s. unfold bind. specialize (Hm s).
  destruct (m s) as [[e|x] s']; simpl in *; [exact Hm|].
  eapply R_trans; [exact Hm | apply Hk].
Qed.

Lemma respects_try_except {A} (m : M A) catches (h : Exn -> M A) :
  respects R m -> (forall e, respects R (h e)) ->
  respects R (try_except m catches h).
Proof.
  intros Hm Hh s. unfold try_except. specialize (Hm s).
  destruct (m s) as [[e|x] s']; simpl in *; [|exact Hm].
  destruct (catches (exn_class e)); [|exact Hm].
  eapply R_trans; [exact Hm | apply Hh].
Qed.

Lemma respects_try_finally {A} (m : M A) (f : M unit) :
  respects R m -> respects R f -> respects R (try_finally m f).
Proof.
  intros Hm Hf s. unfold try_finally. specialize (Hm s).
  destruct (m s) as [r s']; simpl in *. specialize (Hf s').
  destruct (f s') as [[e|x] s'']; simpl in *; eapply R_trans; eauto.
Qed.

Lemma respects_when (b : bool) (m : M unit) :
  respects R m -> respects R (when b m).
Proof. intros Hm. destruct b; [exact Hm | apply respects_ret]. Qed.

Lemma respects_for_each {A} (body : A -> M unit) (l : list A) :
  (forall x, respects R (body x)) -> respects R (for_each body l).
Proof.
  intros Hb. induction l as [|x l IH]; simpl.
  - apply respects_ret.
  - apply respects_bind; [apply Hb | intros _; exact IH].
Qed.

Lemma respects_modify (f : App -> App) :
  (forall a t, R (a, t) (f a, t)) -> respects R (modify f).
Proof. intros Hf [a t]. apply Hf. Qed.

Lemma respects_emit (e : Event) :
  (forall a t, R (a, t) (a, (t ++ [e])%list)) -> respects R (emit e).
Proof. intros He [a t]. apply He. Qed.

End Respects.

(** The named parts of the worker, each in terms of the next. *)
Ltac unfold_worker :=
  unfold run_body, analyse_and_export, announce, resolve_model,
    load_or_fall_back, ensure_session, export_after_callbacks,
    export_with_synthetic_progress, show_header, save_transcription_results,
    detect_progress_support, materialize, self_filename, write_file,
    make_dirs, construct, cache_model, update_progress, send_message,
    set_state, logger_info, logger_warning, logger_error.

(** Take a computation apart down to its [modify] and [emit] steps. *)
Ltac respects_struct Hrefl Htrans :=
  repeat first
    [ apply (respects_ret _ Hrefl)
    | apply (respects_raise _ Hrefl)
    | apply (respects_get _ Hrefl)
    | apply (respects_bind _ Htrans); [|intros ?]
    | apply (respects_try_except _ Htrans); [|intros ?]
    | apply (respects_try_finally _ Htrans)
    | apply (respects_when _ Hrefl)
    | apply (respects_for_each _ Hrefl Htrans); intros ?
    | match goal with
      | |- respects _ (if ?b then _ else _) => destruct b
      | |- respects _ (match ?x with _ => _ end) => destruct x
      end
    | progress unfold_worker ].

(** *** The window *)

Lemma window_untouched_refl s : window_untouched s s.
Proof. split; reflexivity. Qed.

Lemma window_untouched_trans s1 s2 s3 :
  window_untouched s1 s2 -> window_untouched s2 s3 -> window_untouched s1 s3.
Proof. intros [H1 H2] [H3 H4]. split; congruence. Qed.

Ltac window_tac :=
  respects_struct window_untouched_refl window_untouched_trans;
  try (apply respects_modify; intros a0 t0; split; reflexivity);
  try (apply respects_emit; intros a0 t0; split; [reflexivity|];
       simpl; rewrite List.filter_app; simpl; apply app_nil_r).

Lemma process_segments_window total i segments_list full_text :
  respects window_untouched (process_segments total i segments_list full_text).
Proof.
  revert i full_text.
  induction segments_list as [|segment rest IH]; intros i full_text; simpl.
  - window_tac.
  - window_tac. apply IH.
Qed.

Lemma run_body_window (env : Env) : respects window_untouched (run_body env).
Proof.
  window_tac; apply process_segments_window.
Qed.

(** ** The end of a run *)

Lemma for_each_nothing {A} (l : list A) (s : St) :
  for_each (fun (_ : A) (s0 : St) => (@inr Exn unit tt, s0)) l s = (inr tt, s).
Proof. exact (for_each_skip l s). Qed.

(** What the [finally] block does: it never raises, re-enables the six
    controls, closes the session if there is one, and leaves the cached
    models where they are. *)
Lemma cleanup_run (a : App) (t : list Event) :
  fst (cleanup (a, t)) = inr tt /\
  ui (fst (snd (cleanup (a, t)))) = with_controls (fun _ => all_normal) (ui a) /\
  requests_session (fst (snd (cleanup (a, t)))) = close <$> requests_session a /\
  model_cache (fst (snd (cleanup (a, t)))) = model_cache a /\
  message_queue (fst (snd (cleanup (a, t)))) = message_queue a /\
  using_cpu (fst (snd (cleanup (a, t)))) = using_cpu a /\
  config (fst (snd (cleanup (a, t)))) = config a /\
  snd (snd (cleanup (a, t))) = (t ++ cleanup_events a)%list.
Proof.
  unfold cleanup, cleanup_events. step.
  destruct (requests_session a) as [session|] eqn:Hs; step;
    rewrite for_each_nothing; simpl;
    repeat rewrite <- app_assoc; repeat split; assumption.
Qed.

Arguments run_guarded : simpl never.
Arguments run_body : simpl never.
Arguments cleanup : simpl never.

Lemma run_transcription_result (env : Env) (s : St) :
  fst (run_transcription env s) = fst (run_guarded env s).
Proof.
  unfold run_transcription, try_finally.
  generalize (run_guarded env s). intros [r [a t]]. cbn [fst snd].
  pose proof (cleanup_run a t) as [Hok _].
  generalize dependent (cleanup (a, t)). intros [[e|[]] s''] Hok;
    [discriminate | reflexivity].
Qed.

Lemma run_transcription_state (env : Env) (s : St) :
  snd (run_transcription env s) = snd (cleanup (snd (run_guarded env s))).
Proof.
  unfold run_transcription, try_finally.
  generalize (run_guarded env s). intros [r [a t]]. cbn [fst snd].
  pose proof (cleanup_run a t) as [Hok _].
  generalize dependent (cleanup (a, t)). intros [[e|[]] s''] Hok;
    [discriminate | reflexivity].
Qed.

Lemma run_guarded_window (env : Env) :
  respects window_untouched (run_guarded env).
Proof.
  apply (respects_try_except _ window_untouched_trans);
    [apply run_body_window | intros e; window_tac].
Qed.

(** After any run the six controls are enabled and the session, if
    there is one, is closed. *)
Lemma run_transcription_releases (env : Env) (s : St) :
  controls (ui (fst (snd (run_transcription env s)))) = all_normal /\
  forall session,
    requests_session (fst (snd (run_transcription env s))) = Some session ->
    closed session = true.
Proof.
  rewrite run_transcription_state.
  generalize (run_guarded env s). intros [r [a t]]. cbn [fst snd].
  pose proof (cleanup_run a t) as (_ & Hui & Hsess & _).
  generalize dependent (cleanup (a, t)). intros [r' [a' t']] Hui Hsess.
  cbn [fst snd] in *. rewrite Hui, Hsess. split; [reflexivity|].
  intros session. destruct (requests_session a); simpl; [|discriminate].
  intros [= <-]. reflexivity.
Qed.

(** C2 (the code departs from the claim).  The [finally] block never
    changes the model cache, and after the successful run of the sample
    state the model that was loaded is still cached under its key. *)
Theorem run_transcription_keeps_model_cached :
  (forall s, model_cache (fst (snd (cleanup s))) = model_cache (fst s)) /\
  fst (run_transcription Sample.env (Sample.ready, [])) = inr tt /\
  model_cache (fst (snd (run_transcription Sample.env (Sample.ready, []))))
    !! "base_cpu_C:/m/base"
  = Some {| loaded_with :=
              {| model_size_or_path := "C:/m/base"; device := "cpu";
                 download_root := None; with_session := false |} |}.
Proof.
  split; [|split].
  - intros [a t]. apply cleanup_run.
  - vm_compute. reflexivity.
  - vm_compute. reflexivity.
Qed.

(** ** Who changes the window *)

(** C8, counterexample.  The run of the sample state re-enables the
    controls itself, with no drain of the queue in between. *)
Lemma worker_enables_controls_itself :
  ~ worker_leaves_window Sample.env (started, []).
Proof.
  unfold worker_leaves_window. intros H.
  apply (f_equal (fun u => st_transcribe_btn (controls u))) in H.
  vm_compute in H. discriminate.
Qed.

(** C8, amended.  A run changes nothing in the window but the state of
    the six controls, which its cleanup sets to enabled, and it shows no
    dialog: status, progress, notifications and result text are only
    put on the queue. *)
Theorem worker_touches_only_controls (env : Env) (s : St) :
  ui (fst (snd (run_transcription env s)))
  = with_controls (fun _ => all_normal) (ui (fst s)) /\
  List.filter is_dialog (snd (snd (run_transcription env s)))
  = List.filter is_dialog (snd s).
Proof.
  rewrite run_transcription_state.
  pose proof (run_guarded_window env s) as [Hui Hdlg].
  generalize dependent (run_guarded env s). intros [r [a t]] Hui Hdlg.
  cbn [fst snd] in *.
  pose proof (cleanup_run a t) as (_ & Hui' & _ & _ & _ & _ & _ & Ht).
  generalize dependent (cleanup (a, t)). intros [r' [a' t']] Hui' Ht.
  cbn [fst snd] in *.
  rewrite Hui', Ht, Hui, List.filter_app, Hdlg. split; [reflexivity|].
  unfold cleanup_events. destruct (requests_session a); simpl; apply app_nil_r.
Qed.

(** ** The load and its fallback *)

Arguments announce : simpl never.
Arguments resolve_model : simpl never.
Arguments analyse_and_export : simpl never.
Arguments load_or_fall_back : simpl never.

(** [run_body] is the load phase followed by the analysis. *)
Lemma run_body_phases (env : Env) (s : St) :
  run_body env s
  = match (announce env (size_of (fst s)) (path_of (fst s)) >>
           resolve_model env (size_of (fst s)) (device_of (fst s))
             (path_of (fst s))) s with
    | (inr model_key, s1) => analyse_and_export env (lang_of (fst s)) model_key s1
    | (inl e, s1) => (inl e, s1)
    end.
Proof.
  unfold run_body, bind, get. cbn [fst snd].
  fold (size_of (fst s)) (path_of (fst s)) (device_of (fst s)) (lang_of (fst s)).
  destruct (announce _ _ _ s) as [[e|[]] s0]; [reflexivity|].
  destruct (resolve_model _ _ _ _ s0) as [[e|key] s1]; reflexivity.
Qed.

(** The handler of the outer [try]: the exception is reported on the
    queue and raised again. *)
Lemma run_guarded_raise (env : Env) (s : St) (e : Exn) (a1 : App) (t1 : list Event) :
  run_body env s = (inl e, (a1, t1)) ->
  run_guarded env s
  = (inl e,
     (with_message_queue
        (message_queue a1 ++ [fatal_error e; status "严重错误"])%list a1,
      (t1 ++ [Log ERROR ("转录过程中发生严重错误: " ++ exn_str e)])%list)).
Proof.
  intros H. unfold run_guarded, try_except. rewrite H. cbn [any_exception exn_class].
  step. unfold with_message_queue. simpl. rewrite <- app_assoc. reflexivity.
Qed.

Lemma run_guarded_ok (env : Env) (s s1 : St) :
  run_body env s = (inr tt, s1) -> run_guarded env s = (inr tt, s1).
Proof. intros H. unfold run_guarded, try_except. rewrite H. reflexivity. Qed.

Lemma loads_app (t1 t2 : list Event) :
  loads (t1 ++ t2) = (loads t1 ++ loads t2)%list.
Proof.
  induction t1 as [|ev t1 IH]; [reflexivity|].
  destruct ev; simpl; try exact IH. now rewrite IH.
Qed.

Lemma toggles_app (q1 q2 : list Msg) :
  toggles (q1 ++ q2) = (toggles q1 + toggles q2)%nat.
Proof.
  induction q1 as [|m q1 IH]; [reflexivity|].
  destruct m; simpl; try exact IH. now rewrite IH.
Qed.

Lemma fallback_notices_app (q1 q2 : list Msg) :
  fallback_notices (q1 ++ q2) = (fallback_notices q1 + fallback_notices q2)%nat.
Proof. unfold fallback_notices. now rewrite List.filter_app, length_app. Qed.

(** The state in which the load phase of a run ends when its first
    [WhisperModel(...)] call raises [e]. *)
Lemma load_phase_failure (env : Env) (a : App) (t : list Event) (e : Exn) :
  model_cache a !! model_key_of a = None ->
  (path_of a = "" -> makedirs env (get_model_dir env) = None) ->
  whisper_model env 0 (requested_args env a) = inl e ->
  let r :=
    (announce env (size_of a) (path_of a) >>
     resolve_model env (size_of a) (device_of a) (path_of a)) (a, t) in
  exists first,
    if is_RuntimeError (exn_class e) && Py.contains cuda_marker (exn_str e)
    then
      using_cpu (fst (snd r)) = true /\
      message_queue (fst (snd r))
      = (message_queue a
         ++ [status first; progress 10%Q; fallback_notice;
             status "CUDA驱动版本不足，切换到CPU模式..."; update_acceleration_button])%list /\
      loads (snd (snd r)) = (loads t ++ [requested_args env a; cpu_args env a])%list /\
      In (Log WARNING "CUDA驱动版本不足，尝试回退到CPU模式") (snd (snd r)) /\
      match whisper_model env 1 (cpu_args env a) with
      | inr m =>
          fst r = inr (cpu_key_of a) /\
          model_cache (fst (snd r)) !! cpu_key_of a = Some m
      | inl e' => fst r = inl e'
      end
    else
      fst r = inl e /\
      using_cpu (fst (snd r)) = using_cpu a /\
      message_queue (fst (snd r))
      = (message_queue a ++ [status first; progress 10%Q])%list /\
      loads (snd (snd r)) = (loads t ++ [requested_args env a])%list.
Proof.
  intros Hmiss Hdirs Hload. cbv zeta.
  unfold requested_args, cpu_args, load_args, model_key_of, cpu_key_of in *.
  unfold announce, resolve_model, load_or_fall_back, construct, cache_model,
    try_except, ensure_session.
  destruct (negb (String.eqb (path_of a) "")) eqn:Hpath.
  - step. rewrite Hmiss. step. rewrite Hload. cbn [exn_class].
    eexists.
    destruct (is_RuntimeError (exn_class e)); cbn [andb];
      [destruct (Py.contains cuda_marker (exn_str e))|]; step.
    + destruct (whisper_model env 1 _) as [e'|m]; step;
        repeat rewrite <- app_assoc; rewrite ?loads_app; simpl;
        rewrite ?lookup_insert_eq, ?in_app_iff; simpl; repeat split; auto 10.
    + repeat rewrite <- app_assoc; rewrite ?loads_app; simpl. repeat split.
    + repeat rewrite <- app_assoc; rewrite ?loads_app; simpl. repeat split.
  - apply negb_false_iff, String.eqb_eq in Hpath. specialize (Hdirs Hpath).
    step. rewrite Hmiss. step. rewrite Hdirs.
    eexists.
    destruct (requests_session a) as [session|] eqn:Hsess;
      [|destruct (certifi_where env) as [bundle|]]; step;
      rewrite Hsess; step;
      rewrite Hload; cbn [exn_class];
      (destruct (is_RuntimeError (exn_class e)); cbn [andb];
       [destruct (Py.contains cuda_marker (exn_str e))|]; step;
       [ destruct (whisper_model env 1 _) as [e'|m]; step | | ]);
      repeat rewrite <- app_assoc; rewrite ?loads_app; simpl;
      rewrite ?lookup_insert_eq, ?in_app_iff; simpl; repeat split; auto 10.
Qed.

(** *** After the load *)

Lemma quiet_refl s : quiet s s.
Proof. repeat split; auto. Qed.

Lemma quiet_trans s1 s2 s3 : quiet s1 s2 -> quiet s2 s3 -> quiet s1 s3.
Proof.
  intros (H1 & H2 & H3 & H4 & H5 & H6 & H7) (G1 & G2 & G3 & G4 & G5 & G6 & G7).
  repeat split; try congruence. auto.
Qed.

Lemma quiet_send (m : Msg) :
  toggles [m] = O -> is_fallback_notice m = false ->
  respects quiet (send_message m).
Proof.
  intros Ht Hn. apply respects_modify. intros a t.
  repeat split; cbn [fst snd with_message_queue message_queue]; auto.
  - rewrite toggles_app, Ht. lia.
  - rewrite fallback_notices_app. unfold fallback_notices at 2. simpl.
    rewrite Hn. simpl. lia.
Qed.

Lemma quiet_emit (e : Event) :
  loads [e] = [] -> respects quiet (emit e).
Proof.
  intros He. apply respects_emit. intros a t.
  repeat split; cbn [fst snd]; auto.
  - rewrite loads_app, He. apply app_nil_r.
  - intros ev Hev. apply in_or_app. now left.
Qed.

Ltac quiet_tac :=
  respects_struct quiet_refl quiet_trans;
  try (apply quiet_send; reflexivity);
  try (apply quiet_emit; reflexivity);
  try (apply respects_modify; intros a0 t0; repeat split; auto).

Lemma process_segments_quiet total i segments_list full_text :
  respects quiet (process_segments total i segments_list full_text).
Proof.
  revert i full_text.
  induction segments_list as [|segment rest IH]; intros i full_text; simpl.
  - quiet_tac.
  - quiet_tac. apply IH.
Qed.

Lemma analyse_and_export_quiet env lang_arg model_key :
  respects quiet (analyse_and_export env lang_arg model_key).
Proof. unfold analyse_and_export. quiet_tac; apply process_segments_quiet. Qed.

Lemma cleanup_quiet : respects quiet cleanup.
Proof.
  intros [a t]. pose proof (cleanup_run a t) as (_ & _ & _ & Hc & Hq & Hu & Hg & Ht).
  unfold quiet. cbn [fst snd]. rewrite Hc, Hq, Hu, Hg, Ht, loads_app.
  repeat split; auto.
  - unfold cleanup_events. destruct (requests_session a); simpl; apply app_nil_r.
  - intros ev Hev. apply in_or_app. now left.
Qed.

(** From the end of a load phase that left a model key to the end of
    the run. *)
Lemma run_after_load (env : Env) (s s1 : St) (model_key : string) :
  (announce env (size_of (fst s)) (path_of (fst s)) >>
   resolve_model env (size_of (fst s)) (device_of (fst s)) (path_of (fst s))) s
  = (inr model_key, s1) ->
  quiet s1 (snd (run_transcription env s)).
Proof.
  intros Hload. rewrite run_transcription_state.
  eapply quiet_trans; [|apply cleanup_quiet].
  pose proof (run_body_phases env s) as Hbody. rewrite Hload in Hbody.
  pose proof (analyse_and_export_quiet env (lang_of (fst s)) model_key s1) as Hq.
  rewrite <- Hbody in Hq. clear Hbody Hload.
  destruct (run_body env s) as [[e|[]] [a' t']] eqn:Hrun.
  - rewrite (run_guarded_raise _ _ _ _ _ Hrun). cbn [fst snd] in *.
    eapply quiet_trans; [exact Hq|]. clear.
    unfold quiet. cbn [fst snd using_cpu model_cache config message_queue
                       with_message_queue].
    rewrite toggles_app, fallback_notices_app, loads_app. simpl.
    rewrite !Nat.add_0_r, app_nil_r. repeat split; auto.
    intros ev Hev. apply in_or_app. now left.
  - rewrite (run_guarded_ok _ _ _ Hrun). exact Hq.
Qed.

(** When the load phase raises, so does the run, after the report. *)
Lemma run_load_raises (env : Env) (s s1 : St) (e : Exn) :
  (announce env (size_of (fst s)) (path_of (fst s)) >>
   resolve_model env (size_of (fst s)) (device_of (fst s)) (path_of (fst s))) s
  = (inl e, s1) ->
  fst (run_transcription env s) = inl e /\
  using_cpu (fst (snd (run_transcription env s))) = using_cpu (fst s1) /\
  message_queue (fst (snd (run_transcription env s)))
  = (message_queue (fst s1) ++ [fatal_error e; status "严重错误"])%list /\
  loads (snd (snd (run_transcription env s))) = loads (snd s1) /\
  (forall ev, In ev (snd s1) -> In ev (snd (snd (run_transcription env s)))).
Proof.
  intros Hload. rewrite run_transcription_result, run_transcription_state.
  pose proof (run_body_phases env s) as Hbody. rewrite Hload in Hbody.
  destruct s1 as [a1 t1].
  rewrite (run_guarded_raise _ _ _ _ _ Hbody). cbn [fst snd].
  match goal with |- context [cleanup (?a, ?t)] =>
    pose proof (cleanup_run a t) as (_ & _ & _ & _ & Hq & Hu & _ & Ht);
    generalize dependent (cleanup (a, t))
  end.
  intros [r' [a' t']] Hq Hu Ht. cbn [fst snd] in *.
  rewrite Hq, Hu, Ht, !loads_app. simpl. repeat split.
  - unfold cleanup_events.
    match goal with |- context [match ?x with _ => _ end] => destruct x end;
      simpl; now rewrite !app_nil_r.
  - intros ev Hev. apply in_or_app. left. apply in_or_app. now left.
Qed.

(** ** The relay *)

Arguments apply_message : simpl never.
Arguments toggle_acceleration : simpl never.

(** One message applied: it never raises, leaves the queue alone and
    keeps the trace; only the button command touches the CPU flag and
    the configuration. *)
Lemma apply_message_effect (env : Env) (m : Msg) (a : App) (t : list Event) :
  exists a1 t1,
    apply_message env m (a, t) = (inr tt, (a1, t1)) /\
    message_queue a1 = message_queue a /\
    (forall ev, In ev t -> In ev t1) /\
    match m with
    | update_acceleration_button =>
        using_cpu a1 = negb (using_cpu a) /\
        config a1
        = <["model.device" := if using_cpu a then "cuda" else "cpu"]> (config a) /\
        (config_write_error env = None -> In (SaveConfig (config a1)) t1)
    | _ => using_cpu a1 = using_cpu a /\ config a1 = config a
    end.
Proof.
  unfold apply_message, toggle_acceleration, save_config.
  destruct m as [text|value|icon title text| |text|]; step.
  - do 2 eexists. repeat split; auto.
  - do 2 eexists. repeat split; auto.
  - destruct (String.eqb icon "info"); step; do 2 eexists; repeat split;
      auto using in_or_app.
  - unfold result_frame_initialized. destruct (bool_decide _); step;
      do 2 eexists; repeat split; auto.
  - destruct (result_text (ui a)); step; do 2 eexists; repeat split; auto.
  - destruct (using_cpu a), (config_write_error env) as [err|]; step;
      do 2 eexists; (split; [reflexivity|]); simpl;
      repeat split; auto; try discriminate;
      try (intros ev Hev; rewrite !in_app_iff; auto);
      try (intros _; rewrite !in_app_iff; simpl; auto).
Qed.

Lemma drain_cons (env : Env) (k : nat) (a : App) (t : list Event)
    (m : Msg) (rest : list Msg) :
  message_queue a = m :: rest ->
  drain env (S k) (a, t)
  = match apply_message env m (with_message_queue rest a, t) with
    | (inr _, s1) => drain env k s1
    | (inl e, s1) => (inl e, s1)
    end.
Proof.
  intros Hq. cbn [drain]. unfold bind, get, modify. cbn [fst snd].
  rewrite Hq. destruct (apply_message env m _) as [[e|[]] s1]; reflexivity.
Qed.

(** Draining a queue with no button command, or with exactly one. *)
Lemma drain_toggles (env : Env) (q : list Msg) :
  forall (a : App) (t : list Event),
    message_queue a = q ->
    let s' := snd (drain env (length q) (a, t)) in
    message_queue (fst s') = [] /\
    (forall ev, In ev t -> In ev (snd s')) /\
    (toggles q = O ->
     using_cpu (fst s') = using_cpu a /\ config (fst s') = config a) /\
    (toggles q = 1%nat ->
     using_cpu (fst s') = negb (using_cpu a) /\
     config (fst s')
     = <["model.device" := if using_cpu a then "cuda" else "cpu"]> (config a) /\
     (config_write_error env = None ->
      In (SaveConfig (config (fst s'))) (snd s'))).
Proof.
  induction q as [|m rest IH]; intros a t Hq; cbv zeta.
  - simpl. repeat split; auto; discriminate.
  - destruct (apply_message_effect env m (with_message_queue rest a) t)
      as (a1 & t1 & Happly & Hq1 & Ht1 & Hm).
    cbn [length]. rewrite (drain_cons env _ a t m rest Hq), Happly.
    specialize (IH a1 t1 Hq1). cbv zeta in IH.
    destruct IH as (IHq & IHt & IH0 & IH1).
    generalize dependent (drain env (length rest) (a1, t1)).
    intros [r' [a' t']] IHq IHt IH0 IH1. cbn [fst snd] in *.
    split; [exact IHq|]. split; [auto|].
    destruct m; cbn [toggles]; cbn [using_cpu config with_message_queue] in Hm.
    1-5: destruct Hm as [Hu Hc]; split;
      [ intros H0; destruct (IH0 H0); split; congruence
      | intros H1; destruct (IH1 H1) as (Hu1 & Hc1 & Hs1);
        rewrite <- Hu, <- Hc; repeat split; assumption ].
    destruct Hm as (Hu & Hc & Hs). split; [discriminate|].
    intros [= H0]. destruct (IH0 H0) as [Hu' Hc'].
    rewrite Hu', Hc'. repeat split; auto.
Qed.

Arguments drain : simpl never.

Lemma process_messages_toggles (env : Env) (a : App) (t : list Event) :
  let s' := snd (process_messages env (a, t)) in
  message_queue (fst s') = [] /\
  (toggles (message_queue a) = 1%nat ->
   using_cpu (fst s') = negb (using_cpu a) /\
   config (fst s')
   = <["model.device" := if using_cpu a then "cuda" else "cpu"]> (config a) /\
   (config_write_error env = None ->
    In (SaveConfig (config (fst s'))) (snd s'))).
Proof.
  cbv zeta. unfold process_messages, bind, get, emit. cbn [fst snd].
  pose proof (drain_toggles env (message_queue a) a t eq_refl) as H.
  cbv zeta in H. destruct H as (Hq & Ht & _ & H1).
  generalize dependent (drain env (length (message_queue a)) (a, t)).
  intros [[e|[]] [a' t']] Hq Ht H1; cbn [fst snd] in *;
    (split; [exact Hq|]); intros Hone;
    destruct (H1 Hone) as (Hu & Hc & Hs); repeat split; auto.
  intros Hw. apply in_or_app. left. auto.
Qed.

(** ** The fallback in a run *)

(** C3.  Take a run that has to load its model and whose first
    [WhisperModel(...)] call raises [e].  If [e] is a [RuntimeError]
    whose text contains the insufficient-driver marker, the run logs the
    warning, puts exactly one fallback notice more on the queue, ends
    with the CPU flag set, and makes exactly one more load, with device
    ["cpu"]; should that load raise too, its exception ends the run.
    Otherwise there is no second load, [e] ends the run, and the error
    is reported on the queue. *)
Theorem load_failure_policy (env : Env) (a : App) (t : list Event) (e : Exn) :
  model_cache a !! model_key_of a = None ->
  (path_of a = "" -> makedirs env (get_model_dir env) = None) ->
  whisper_model env 0 (requested_args env a) = inl e ->
  let r := run_transcription env (a, t) in
  if is_RuntimeError (exn_class e) && Py.contains cuda_marker (exn_str e)
  then
    In (Log WARNING "CUDA驱动版本不足，尝试回退到CPU模式") (snd (snd r)) /\
    fallback_notices (message_queue (fst (snd r)))
    = S (fallback_notices (message_queue a)) /\
    using_cpu (fst (snd r)) = true /\
    loads (snd (snd r)) = (loads t ++ [requested_args env a; cpu_args env a])%list /\
    device (cpu_args env a) = "cpu" /\
    (forall e', whisper_model env 1 (cpu_args env a) = inl e' -> fst r = inl e')
  else
    fst r = inl e /\
    loads (snd (snd r)) = (loads t ++ [requested_args env a])%list /\
    In (fatal_error e) (message_queue (fst (snd r))).
Proof.
  intros Hmiss Hdirs Hload. cbv zeta.
  destruct (load_phase_failure env a t e Hmiss Hdirs Hload) as [first Hphase].
  cbv zeta in Hphase.
  destruct ((announce env (size_of a) (path_of a) >>
             resolve_model env (size_of a) (device_of a) (path_of a)) (a, t))
    as [res [a1 t1]] eqn:Hrun.
  cbn [fst snd] in Hphase.
  destruct (is_RuntimeError (exn_class e) && Py.contains cuda_marker (exn_str e)).
  - destruct Hphase as (Hcpu & Hqueue & Hloads & Hlog & Hretry).
    assert (Hdev : device (cpu_args env a) = "cpu")
      by (unfold cpu_args, load_args; destruct (negb _); reflexivity).
    assert (Hnotices : fallback_notices (message_queue a1)
                       = S (fallback_notices (message_queue a))).
    { rewrite Hqueue, fallback_notices_app. unfold fallback_notices at 2.
      simpl. lia. }
    destruct (whisper_model env 1 (cpu_args env a)) as [e'|m].
    + subst res.
      destruct (run_load_raises env (a, t) (a1, t1) e' Hrun)
        as (Hres & Hu & Hq & Hl & Hin).
      cbn [fst snd] in *. rewrite Hu, Hq, Hl, fallback_notices_app, Hnotices.
      repeat split; auto. intros e0 [= <-]. exact Hres.
    + destruct Hretry as [-> _].
      destruct (run_after_load env (a, t) (a1, t1) _ Hrun)
        as (Hu & _ & Hn & _ & _ & Hl & Hin).
      cbn [fst snd] in *. rewrite Hu, Hn, Hl.
      repeat split; auto. discriminate.
  - destruct Hphase as (-> & _ & Hqueue & Hloads).
    destruct (run_load_raises env (a, t) (a1, t1) e Hrun)
      as (Hres & _ & Hq & Hl & _).
    cbn [fst snd] in *. rewrite Hq, Hl. repeat split; auto.
    apply in_or_app. right. left. reflexivity.
Qed.

Lemma load_failure_policy_witness :
  model_cache Sample.ready_gpu !! model_key_of Sample.ready_gpu = None /\
  (path_of Sample.ready_gpu = "" ->
   makedirs Sample.env (get_model_dir Sample.env) = None) /\
  whisper_model Sample.env 0 (requested_args Sample.env Sample.ready_gpu)
  = inl Sample.driver_error /\
  let r := run_transcription Sample.env (Sample.ready_gpu, []) in
  In (Log WARNING "CUDA驱动版本不足，尝试回退到CPU模式") (snd (snd r)) /\
  fallback_notices (message_queue (fst (snd r))) = 1%nat /\
  using_cpu (fst (snd r)) = true /\
  loads (snd (snd r))
  = [requested_args Sample.env Sample.ready_gpu;
     cpu_args Sample.env Sample.ready_gpu] /\
  device (cpu_args Sample.env Sample.ready_gpu) = "cpu" /\
  (forall e',
     whisper_model Sample.env 1 (cpu_args Sample.env Sample.ready_gpu) = inl e' ->
     fst r = inl e').
Proof.
  split; [reflexivity|]. split; [intros _; reflexivity|]. split; [reflexivity|].
  exact (load_failure_policy Sample.env Sample.ready_gpu [] Sample.driver_error
           eq_refl (fun _ => eq_refl) eq_refl).
Defined.

(** A load error of another kind: no retry, the run ends with it. *)
Example other_load_error_is_fatal :
  let env :=
    {| app_dir := "C:\app";
       whisper_model := fun _ _ =>
         inl {| exn_class := RuntimeError; exn_str := "out of memory" |};
       signature_has_progress_callback := fun _ => inr false;
       transcribe := fun _ _ _ => ([], inr (Sample.info, inr Sample.segments));
       certifi_where := None; makedirs := fun _ => None;
       open_for_writing := fun _ => None; config_write_error := None;
       path_exists := fun _ => true |} in
  let r := run_transcription env (Sample.ready_gpu, []) in
  fst r = inl {| exn_class := RuntimeError; exn_str := "out of memory" |} /\
  length (loads (snd (snd r))) = 1%nat /\
  using_cpu (fst (snd r)) = false.
Proof. repeat split; vm_compute; reflexivity. Qed.

(** C9.  Take a run whose load falls back to the CPU, started with no
    button command waiting on the queue.  At its end the CPU flag is
    set, one button command waits, and the second load was made with
    device ["cpu"]; if it succeeded, its model is the one cached under
    the CPU key.  When the relay then drains the queue,
    [toggle_acceleration] negates the flag: the CPU flag is false again
    and the configuration holds device ["cuda"], which is also what is
    written to disk if the configuration file can be written. *)
Theorem fallback_toggle_records_cuda (env : Env) (a : App) (t : list Event)
    (e : Exn) :
  model_cache a !! model_key_of a = None ->
  (path_of a = "" -> makedirs env (get_model_dir env) = None) ->
  whisper_model env 0 (requested_args env a) = inl e ->
  is_RuntimeError (exn_class e) && Py.contains cuda_marker (exn_str e) = true ->
  toggles (message_queue a) = O ->
  let s1 := snd (run_transcription env (a, t)) in
  let s2 := snd (process_messages env s1) in
  (using_cpu (fst s1) = true /\
   toggles (message_queue (fst s1)) = 1%nat /\
   loads (snd s1) = (loads t ++ [requested_args env a; cpu_args env a])%list /\
   device (cpu_args env a) = "cpu" /\
   (forall m, whisper_model env 1 (cpu_args env a) = inr m ->
      model_cache (fst s1) !! cpu_key_of a = Some m)) /\
  (using_cpu (fst s2) = false /\
   config (fst s2) !! "model.device" = Some "cuda" /\
   (config_write_error env = None ->
    exists cfg, In (SaveConfig cfg) (snd s2) /\
                cfg !! "model.device" = Some "cuda")).
Proof.
  intros Hmiss Hdirs Hload Hmarker Hnone. cbv zeta.
  destruct (load_phase_failure env a t e Hmiss Hdirs Hload) as [first Hphase].
  cbv zeta in Hphase. rewrite Hmarker in Hphase.
  destruct ((announce env (size_of a) (path_of a) >>
             resolve_model env (size_of a) (device_of a) (path_of a)) (a, t))
    as [res [a1 t1]] eqn:Hrun.
  cbn [fst snd] in Hphase.
  destruct Hphase as (Hcpu & Hqueue & Hloads & Hlog & Hretry).
  assert (Hdev : device (cpu_args env a) = "cpu")
    by (unfold cpu_args, load_args; destruct (negb _); reflexivity).
  assert (Htoggles : toggles (message_queue a1) = 1%nat).
  { rewrite Hqueue, toggles_app, Hnone. reflexivity. }
  assert (Hend :
    using_cpu (fst (snd (run_transcription env (a, t)))) = true /\
    toggles (message_queue (fst (snd (run_transcription env (a, t))))) = 1%nat /\
    loads (snd (snd (run_transcription env (a, t))))
    = (loads t ++ [requested_args env a; cpu_args env a])%list /\
    (forall m, whisper_model env 1 (cpu_args env a) = inr m ->
       model_cache (fst (snd (run_transcription env (a, t)))) !! cpu_key_of a
       = Some m)).
  { destruct (whisper_model env 1 (cpu_args env a)) as [e'|m].
    - subst res.
      destruct (run_load_raises env (a, t) (a1, t1) e' Hrun)
        as (_ & Hu & Hq & Hl & _).
      cbn [fst snd] in *. rewrite Hu, Hq, Hl, toggles_app, Htoggles.
      repeat split; auto. discriminate.
    - destruct Hretry as [-> Hcached].
      destruct (run_after_load env (a, t) (a1, t1) _ Hrun)
        as (Hu & Ht & _ & Hc & _ & Hl & _).
      cbn [fst snd] in *. rewrite Hu, Ht, Hl, Hc.
      repeat split; auto. intros m' [= <-]. exact Hcached. }
  destruct Hend as (Hu & Ht & Hl & Hc).
  generalize dependent (run_transcription env (a, t)).
  intros [r [a2 t2]] Hu Ht Hl Hc. cbn [fst snd] in *.
  split; [repeat split; auto|].
  destruct (process_messages_toggles env a2 t2) as [_ Hrelay].
  destruct (Hrelay Ht) as (Hu' & Hc' & Hs').
  generalize dependent (process_messages env (a2, t2)).
  intros [r' [a3 t3]] _ Hu' Hc' Hs'. cbn [fst snd] in *.
  rewrite Hu in Hu', Hc'. rewrite Hu', Hc'.
  split; [reflexivity|]. split; [apply lookup_insert_eq|].
  intros Hw. exists (config a3). split; [auto|].
  rewrite Hc'. apply lookup_insert_eq.
Qed.

Lemma fallback_toggle_records_cuda_witness :
  model_cache Sample.ready_gpu !! model_key_of Sample.ready_gpu = None /\
  (path_of Sample.ready_gpu = "" ->
   makedirs Sample.env (get_model_dir Sample.env) = None) /\
  whisper_model Sample.env 0 (requested_args Sample.env Sample.ready_gpu)
  = inl Sample.driver_error /\
  is_RuntimeError (exn_class Sample.driver_error)
  && Py.contains cuda_marker (exn_str Sample.driver_error) = true /\
  toggles (message_queue Sample.ready_gpu) = O /\
  let s1 := snd (run_transcription Sample.env (Sample.ready_gpu, [])) in
  let s2 := snd (process_messages Sample.env s1) in
  (using_cpu (fst s1) = true /\
   toggles (message_queue (fst s1)) = 1%nat /\
   loads (snd s1)
   = [requested_args Sample.env Sample.ready_gpu;
      cpu_args Sample.env Sample.ready_gpu] /\
   device (cpu_args Sample.env Sample.ready_gpu) = "cpu" /\
   (forall m,
      whisper_model Sample.env 1 (cpu_args Sample.env Sample.ready_gpu) = inr m ->
      model_cache (fst s1) !! cpu_key_of Sample.ready_gpu = Some m)) /\
  (using_cpu (fst s2) = false /\
   config (fst s2) !! "model.device" = Some "cuda" /\
   (config_write_error Sample.env = None ->
    exists cfg, In (SaveConfig cfg) (snd s2) /\
                cfg !! "model.device" = Some "cuda")).
Proof.
  split; [reflexivity|]. split; [intros _; reflexivity|].
  split; [reflexivity|]. split; [reflexivity|]. split; [reflexivity|].
  exact (fallback_toggle_records_cuda Sample.env Sample.ready_gpu []
           Sample.driver_error eq_refl (fun _ => eq_refl) eq_refl eq_refl eq_refl).
Defined.

(** ** The progress values of a run *)

Lemma progress_of_app (q1 q2 : list Msg) :
  progress_of (q1 ++ q2) = (progress_of q1 ++ progress_of q2)%list.
Proof.
  induction q1 as [|m q1 IH]; [reflexivity|].
  destruct m; simpl; try exact IH. now rewrite IH.
Qed.

Section Emits.

Context {A : Type}.
Implicit Types (F : list Q -> Prop) (l : list Q).

Lemma emits_ret (x : A) F : emits (ret x) [] F.
Proof. intros s. exists []. split; [now rewrite app_nil_r | reflexivity]. Qed.

Lemma emits_raise (e : Exn) l F : F [] -> emits (@raise A e) l F.
Proof. intros HF s. exists []. split; [now rewrite app_nil_r | exact HF]. Qed.

Lemma emits_weaken (m : M A) l F G :
  (forall p, F p -> G p) -> emits m l F -> emits m l G.
Proof.
  intros HFG Hm s. destruct (Hm s) as (msgs & Hq & Hr).
  exists msgs. split; [exact Hq|]. destruct (fst (m s)); auto.
Qed.

Lemma emits_ext (m m' : M A) l F :
  (forall s, m s = m' s) -> emits m l F -> emits m' l F.
Proof. intros Heq Hm s. rewrite <- Heq. apply Hm. Qed.

(** A handler that itself adds no progress value, around a block that
    adds none either. *)
Lemma emits_try_except_nil (m : M A) catches (h : Exn -> M A) F :
  emits m [] (eq []) -> (forall e, emits (h e) [] F) -> F [] ->
  emits (try_except m catches h) [] F.
Proof.
  intros Hm Hh HF s. unfold try_except.
  destruct (Hm s) as (msgs1 & Hq1 & Hr1).
  destruct (m s) as [[e|x] s1]; cbn [fst snd] in *.
  - destruct (catches (exn_class e)); cbn [fst snd].
    + destruct (Hh e s1) as (msgs2 & Hq2 & Hr2).
      exists (msgs1 ++ msgs2)%list. rewrite Hq2, Hq1, app_assoc.
      split; [reflexivity|]. rewrite progress_of_app, <- Hr1. exact Hr2.
    + exists msgs1. split; [exact Hq1|]. now rewrite <- Hr1.
  - exists msgs1. split; assumption.
Qed.

(** A handler that adds no progress value and always raises. *)
Lemma emits_try_except_reraise (m : M A) catches (h : Exn -> M A) l F :
  emits m l F ->
  (forall e, emits (h e) [] (eq [])) ->
  (forall e s, exists e', fst (h e s) = inl e') ->
  emits (try_except m catches h) l F.
Proof.
  intros Hm Hh Hraise s. unfold try_except.
  destruct (Hm s) as (msgs1 & Hq1 & Hr1).
  destruct (m s) as [[e|x] s1]; cbn [fst snd] in *.
  - destruct (catches (exn_class e)); cbn [fst snd].
    + destruct (Hh e s1) as (msgs2 & Hq2 & Hr2).
      destruct (Hraise e s1) as [e' He']. rewrite He' in Hr2.
      exists (msgs1 ++ msgs2)%list. rewrite Hq2, Hq1, app_assoc.
      split; [reflexivity|].
      rewrite He', progress_of_app, <- Hr2, app_nil_r. exact Hr1.
    + exists msgs1. split; assumption.
  - exists msgs1. split; assumption.
Qed.

(** A [finally] block that adds no progress value and never raises. *)
Lemma emits_try_finally (m : M A) (f : M unit) l F :
  emits m l F ->
  emits f [] (eq []) ->
  (forall s, fst (f s) = inr tt) ->
  emits (try_finally m f) l F.
Proof.
  intros Hm Hf Hok s. unfold try_finally.
  destruct (Hm s) as (msgs1 & Hq1 & Hr1).
  destruct (m s) as [r s1]; cbn [fst snd] in *.
  destruct (Hf s1) as (msgs2 & Hq2 & Hr2). specialize (Hok s1).
  destruct (f s1) as [[e|[]] s2]; cbn [fst snd] in *; [discriminate|].
  exists (msgs1 ++ msgs2)%list. rewrite Hq2, Hq1, app_assoc.
  split; [reflexivity|]. rewrite progress_of_app, Hr2, app_nil_r.
  exact Hr1.
Qed.

End Emits.

Section EmitsSteps.

Implicit Types (F : list Q -> Prop) (l : list Q).

Lemma emits_get F : emits get [] F.
Proof. intros s. exists []. split; [now rewrite app_nil_r | reflexivity]. Qed.

Lemma emits_emit (e : Event) F : emits (emit e) [] F.
Proof. intros s. exists []. split; [now rewrite app_nil_r | reflexivity]. Qed.

Lemma emits_modify (f : App -> App) F :
  (forall a, message_queue (f a) = message_queue a) -> emits (modify f) [] F.
Proof.
  intros Hf s. exists []. split; [|reflexivity].
  simpl. now rewrite Hf, app_nil_r.
Qed.

Lemma emits_send (m : Msg) F : emits (send_message m) (progress_of [m]) F.
Proof. intros s. exists [m]. split; reflexivity. Qed.

(** Sequencing, given what is known of the value passed on.  What may
    have been appended when the second part raises comes after what the
    first part appended. *)
Lemma emits_bind_with {A B} (P : A -> Prop) (m : M A) (k : A -> M B) l1 l2 F :
  emits m l1 F ->
  (forall s x s', m s = (inr x, s') -> P x) ->
  (forall x, P x -> emits (k x) l2 (fun p => F (l1 ++ p)%list)) ->
  emits (bind m k) (l1 ++ l2) F.
Proof.
  intros Hm HP Hk s. unfold bind.
  destruct (Hm s) as (msgs1 & Hq1 & Hr1). specialize (HP s).
  destruct (m s) as [[e|x] s1]; cbn [fst snd] in *.
  - exists msgs1. split; assumption.
  - destruct (Hk x (HP x s1 eq_refl) s1) as (msgs2 & Hq2 & Hr2).
    exists (msgs1 ++ msgs2)%list. rewrite Hq2, Hq1, app_assoc.
    split; [reflexivity|]. rewrite progress_of_app, Hr1.
    destruct (fst (k x s1)); [exact Hr2 | now rewrite Hr2].
Qed.

Lemma emits_bind {A B} (m : M A) (k : A -> M B) l1 l2 F :
  emits m l1 F ->
  (forall x, emits (k x) l2 (fun p => F (l1 ++ p)%list)) ->
  emits (bind m k) (l1 ++ l2) F.
Proof.
  intros Hm Hk. apply (emits_bind_with (fun _ => True)); auto.
Qed.

Lemma emits_bind_nil {A B} (m : M A) (k : A -> M B) l F :
  emits m [] F -> (forall x, emits (k x) l F) -> emits (bind m k) l F.
Proof. intros Hm Hk. exact (emits_bind m k [] l F Hm Hk). Qed.

Lemma emits_bind_cons {A B} (m : M A) (k : A -> M B) (v : Q) l F :
  emits m [v] F ->
  (forall x, emits (k x) l (fun p => F (v :: p))) ->
  emits (bind m k) (v :: l) F.
Proof. intros Hm Hk. exact (emits_bind m k [v] l F Hm Hk). Qed.

Lemma emits_when (b : bool) (m : M unit) F :
  emits m [] F -> emits (when b m) [] F.
Proof. intros Hm. destruct b; [exact Hm | apply emits_ret]. Qed.

End EmitsSteps.

(** The parts of the worker down to [send_message]. *)
Ltac unfold_to_send :=
  unfold announce, resolve_model, load_or_fall_back, ensure_session,
    show_header, detect_progress_support, materialize, self_filename,
    write_file, make_dirs, construct, cache_model, set_state, logger_info,
    logger_warning, logger_error.

(** Settle that a computation puts no progress value on the queue, given
    that raising without one is allowed for. *)
Ltac emits_nil :=
  solve [ repeat first
    [ apply emits_ret
    | apply emits_raise; first [reflexivity | assumption]
    | apply emits_get
    | apply emits_emit
    | apply (emits_send (status _))
    | apply (emits_send (message _ _ _))
    | apply (emits_send clear_result)
    | apply (emits_send (append_result _))
    | apply (emits_send update_acceleration_button)
    | apply emits_modify; intros ?; reflexivity
    | apply emits_bind_nil; [|intros ?]
    | apply emits_try_except_nil;
        [| intros ? | first [reflexivity | assumption] ]
    | apply emits_when
    | match goal with
      | |- emits (if ?b then _ else _) _ _ => destruct b
      | |- emits (match ?x with _ => _ end) _ _ => destruct x
      end
    | progress unfold_to_send ] ].

Section EmitsOfTheWorker.

Variable F : list Q -> Prop.

Lemma announce_emits env size path : emits (announce env size path) [10%Q] F.
Proof.
  unfold announce.
  apply (emits_bind _ _ [] [10%Q]); [emits_nil | intros _].
  apply (emits_send (progress 10)).
Qed.

Lemma resolve_model_emits env size dev path :
  F [] -> emits (resolve_model env size dev path) [] F.
Proof. intros HF. emits_nil. Qed.

Lemma show_header_emits info : emits (show_header info) [] F.
Proof. emits_nil. Qed.

Lemma cleanup_emits : emits cleanup [] F.
Proof.
  intros [a t]. exists [].
  pose proof (cleanup_run a t) as (Hok & _ & _ & _ & Hq & _).
  cbn [fst snd]. rewrite Hq, Hok, app_nil_r. split; reflexivity.
Qed.

Lemma save_transcription_results_emits env info segments_list output_dir :
  F [] ->
  emits (save_transcription_results env info segments_list output_dir)
    [100%Q] F.
Proof.
  intros HF. unfold save_transcription_results.
  apply emits_try_except_reraise.
  - repeat (apply emits_bind_nil; [emits_nil | intros ?]).
    apply (emits_bind _ _ [100%Q] []);
      [apply (emits_send (progress 100)) | intros _; emits_nil].
  - intros e. emits_nil.
  - intros e s. exists e. reflexivity.
Qed.

End EmitsOfTheWorker.

Lemma process_segments_emits total i segments_list full_text F :
  emits (process_segments total i segments_list full_text)
    (map (fun j => segment_progress j total)
       (count_from i (length segments_list))) F.
Proof.
  revert i full_text F.
  induction segments_list as [|segment rest IH]; intros i full_text F; simpl.
  - apply emits_ret.
  - apply emits_bind_cons; [apply (emits_send (progress _)) | intros _].
    apply emits_bind_nil; [emits_nil | intros _]. apply IH.
Qed.

Arguments process_segments : simpl never.
Arguments save_transcription_results : simpl never.
Arguments export_with_synthetic_progress : simpl never.

Lemma export_with_synthetic_progress_emits env info segments_list F :
  F [90%Q] -> F (90%Q :: segment_values (length segments_list)) ->
  emits (export_with_synthetic_progress env info segments_list)
    (90%Q :: segment_values (length segments_list) ++ [100%Q]) F.
Proof.
  intros H90 Hsteps. unfold export_with_synthetic_progress.
  apply emits_bind_cons; [apply (emits_send (progress 90)) | intros _].
  apply emits_bind_nil; [emits_nil | intros _].
  apply emits_bind_nil; [apply show_header_emits | intros _].
  apply emits_bind_nil; [emits_nil | intros _].
  apply emits_bind; [apply process_segments_emits | intros _].
  fold (segment_values (length segments_list)).
  apply save_transcription_results_emits. now rewrite app_nil_r.
Qed.

Section NoCallback.

Variable env : Env.
Variable info : TranscriptionInfo.
Variable segments_list : list Segment.
Variable F : list Q -> Prop.

(** The library has no progress callback, and returns these segments. *)
Hypothesis no_callback :
  forall model, signature_has_progress_callback env model <> inr true.
Hypothesis transcribed :
  forall model file lang,
    snd (transcribe env model file lang) = inr (info, inr segments_list).

(** Where the run may raise: after 10, after 20, after 90, and after
    the values of the segments. *)
Hypothesis raise_after_10 : F [10%Q].
Hypothesis raise_after_20 : F [10%Q; 20%Q].
Hypothesis raise_after_90 : F [10%Q; 20%Q; 90%Q].
Hypothesis raise_after_steps :
  F (10%Q :: 20%Q :: 90%Q :: segment_values (length segments_list)).

Lemma detect_progress_support_false model s b s' :
  detect_progress_support env model s = (inr b, s') -> b = false.
Proof.
  unfold detect_progress_support. pose proof (no_callback model) as Hno.
  destruct (signature_has_progress_callback env model) as [e|[|]];
    step; intros [= <- _]; [reflexivity | congruence | reflexivity].
Qed.

Lemma analyse_and_export_emits lang_arg model_key :
  emits (analyse_and_export env lang_arg model_key)
    (20%Q :: 90%Q :: segment_values (length segments_list) ++ [100%Q])
    (fun p => F (10%Q :: p)).
Proof.
  unfold analyse_and_export.
  apply emits_bind_nil; [emits_nil | intros a].
  apply emits_bind_nil; [emits_nil | intros model].
  apply emits_bind_nil; [emits_nil | intros _].
  apply emits_bind_cons; [apply (emits_send (progress 20)) | intros _].
  apply emits_bind_nil; [emits_nil | intros _].
  apply (emits_bind_with (fun b => b = false) _ _ []);
    [ emits_nil
    | intros s b s'; apply detect_progress_support_false
    | intros b -> ].
  apply emits_bind_nil; [emits_nil | intros file].
  cbv zeta iota. rewrite transcribed.
  apply (emits_ext (export_with_synthetic_progress env info segments_list));
    [reflexivity | apply export_with_synthetic_progress_emits; assumption].
Qed.

Lemma run_transcription_emits :
  emits (run_transcription env)
    (10%Q :: 20%Q :: 90%Q :: segment_values (length segments_list) ++ [100%Q]) F.
Proof.
  unfold run_transcription.
  apply emits_try_finally;
    [| apply cleanup_emits | intros [a t]; apply cleanup_run].
  unfold run_guarded. apply emits_try_except_reraise.
  - unfold run_body.
    apply emits_bind_nil; [emits_nil | intros a]. cbv zeta.
    apply (emits_bind _ _ [10%Q]); [apply announce_emits | intros _].
    apply emits_bind_nil;
      [apply resolve_model_emits; assumption | intros model_key].
    apply analyse_and_export_emits.
  - intros e. emits_nil.
  - intros e s. exists e. reflexivity.
Qed.

End NoCallback.

(** *** The synthesised values are in order *)

Lemma quotient_nonneg (i n : Z) :
  (0 <= i)%Z -> (0 < n)%Z -> (0 <= inject_Z i / inject_Z n)%Q.
Proof.
  intros Hi Hn. unfold Qdiv. apply Qmult_le_0_compat.
  - change 0%Q with (inject_Z 0). now rewrite <- Zle_Qle.
  - apply Qinv_le_0_compat. change 0%Q with (inject_Z 0).
    rewrite <- Zle_Qle. lia.
Qed.

Lemma quotient_mono (i j n : Z) :
  (i <= j)%Z -> (0 < n)%Z ->
  (inject_Z i / inject_Z n <= inject_Z j / inject_Z n)%Q.
Proof.
  intros Hij Hn. unfold Qdiv. apply Qmult_le_compat_r.
  - now rewrite <- Zle_Qle.
  - apply Qinv_le_0_compat. change 0%Q with (inject_Z 0).
    rewrite <- Zle_Qle. lia.
Qed.

Lemma truediv_nonneg (i n : Z) :
  (0 <= i)%Z -> (0 < n)%Z -> (0 <= Py.truediv i n)%Q.
Proof.
  intros Hi Hn. apply float_round_nonneg, quotient_nonneg; assumption.
Qed.

Lemma segment_progress_mono (i j n : Z) :
  (0 < n)%Z -> (0 <= i)%Z -> (i <= j)%Z ->
  (segment_progress i n <= segment_progress j n)%Q.
Proof.
  intros Hn Hi Hij. unfold segment_progress, Py.fadd, Py.fmul.
  pose proof (truediv_nonneg i n Hi Hn) as Di.
  assert (Dij : (Py.truediv i n <= Py.truediv j n)%Q).
  { apply float_round_mono; [now apply quotient_nonneg | now apply quotient_mono]. }
  assert (Mi : (0 <= Py.float_round (Py.truediv i n * 10))%Q)
    by (apply float_round_nonneg; lra).
  assert (Mij : (Py.float_round (Py.truediv i n * 10)
                 <= Py.float_round (Py.truediv j n * 10))%Q)
    by (apply float_round_mono; lra).
  apply float_round_mono; lra.
Qed.

Lemma segment_progress_full (n : Z) :
  (0 < n)%Z -> segment_progress n n = 100%Q.
Proof.
  intros Hn. unfold segment_progress, Py.truediv.
  rewrite (float_round_proper (inject_Z n / inject_Z n) 1);
    [vm_compute; reflexivity|].
  apply Qmult_inv_r. change 0%Q with (inject_Z 0).
  rewrite inject_Z_injective. lia.
Qed.

Lemma segment_progress_lower (i n : Z) :
  (0 < n)%Z -> (0 <= i)%Z -> (90 <= segment_progress i n)%Q.
Proof.
  intros Hn Hi. unfold segment_progress, Py.fadd, Py.fmul.
  pose proof (truediv_nonneg i n Hi Hn) as Di.
  assert (Mi : (0 <= Py.float_round (Py.truediv i n * 10))%Q)
    by (apply float_round_nonneg; lra).
  replace 90%Q with (Py.float_round 90) at 1 by (vm_compute; reflexivity).
  apply float_round_mono; lra.
Qed.

Lemma segment_progress_upper (i n : Z) :
  (0 < n)%Z -> (0 <= i)%Z -> (i <= n)%Z -> (segment_progress i n <= 100)%Q.
Proof.
  intros Hn Hi Hin. rewrite <- (segment_progress_full n Hn).
  now apply segment_progress_mono.
Qed.

Lemma segments_then_100_nondecreasing (n : Z) (k : nat) :
  (0 < n)%Z ->
  forall i, (0 <= i)%Z -> (i + Z.of_nat k <= n + 1)%Z ->
  nondecreasing
    (map (fun j => segment_progress j n) (count_from i k) ++ [100%Q]).
Proof.
  intros Hn. induction k as [|k IH]; intros i Hi0 Hi.
  - simpl. auto.
  - cbn [count_from map app]. split; [|apply IH; lia].
    destruct k as [|k]; cbn [count_from map app].
    + apply segment_progress_upper; lia.
    + apply segment_progress_mono; lia.
Qed.

Lemma synthetic_progress_nondecreasing (n : nat) :
  nondecreasing (synthetic_progress n).
Proof.
  unfold synthetic_progress, segment_values. destruct n as [|n].
  - simpl. repeat split; discriminate.
  - assert (Hn : (0 < Z.of_nat (S n))%Z) by lia.
    pose proof (segments_then_100_nondecreasing _ (S n) Hn 1
                  ltac:(lia) ltac:(lia)) as H.
    cbn [nondecreasing].
    split; [discriminate|]. split; [discriminate|]. split; [|exact H].
    cbn [count_from map app]. apply segment_progress_lower; lia.
Qed.

Lemma nondecreasing_prefix (l1 l2 : list Q) :
  nondecreasing (l1 ++ l2) -> nondecreasing l1.
Proof.
  induction l1 as [|x l1 IH]; [simpl; auto|].
  cbn [app nondecreasing]. intros [Hx Hrest]. split; [|auto].
  destruct l1; [exact I | exact Hx].
Qed.

Lemma segment_values_bounds (n : nat) :
  Forall (fun v => (90 <= v <= 100)%Q) (segment_values n).
Proof.
  unfold segment_values.
  assert (H : forall k i, (1 <= i)%Z -> (i + Z.of_nat k <= Z.of_nat n + 1)%Z ->
            Forall (fun v => (90 <= v <= 100)%Q)
              (map (fun j => segment_progress j (Z.of_nat n)) (count_from i k))).
  { induction k as [|k IH]; intros i Hi0 Hi; cbn [count_from map].
    - constructor.
    - constructor; [|apply IH; lia].
      split; [apply segment_progress_lower | apply segment_progress_upper]; lia. }
  apply H; lia.
Qed.

Lemma segment_values_last (n : nat) :
  (1 <= n)%nat -> exists earlier, segment_values n = (earlier ++ [100%Q])%list.
Proof.
  intros Hn. unfold segment_values.
  assert (H : forall k i, (i + Z.of_nat k = Z.of_nat n)%Z ->
            map (fun j => segment_progress j (Z.of_nat n)) (count_from i (S k))
            = (map (fun j => segment_progress j (Z.of_nat n)) (count_from i k)
               ++ [100%Q])%list).
  { induction k as [|k IH]; intros i Hi.
    - cbn [count_from map app]. f_equal.
      replace i with (Z.of_nat n) by lia. apply segment_progress_full. lia.
    - change (count_from i (S (S k))) with (i :: count_from (i + 1) (S k)).
      cbn [map]. rewrite IH by lia. reflexivity. }
  destruct n as [|n]; [lia|]. eexists. apply H. lia.
Qed.



(** The same recording on a disk that cannot be written: the run raises
    after the values of both segments. *)
Example synthetic_progress_of_failed_export :
  fst (run_transcription (Sample2.env_read_only false) (Sample.ready, []))
  = inl Sample2.disk_full /\
  progress_of
    (message_queue
       (fst (snd (run_transcription (Sample2.env_read_only false)
                    (Sample.ready, [])))))
  = [10; 20; 90; 95; 100]%Q.
Proof. split; vm_compute; reflexivity. Qed.
(** * Further properties *)

(** ** The acceleration button *)

Lemma toggle_acceleration_run (env : Env) (a : App) (t : list Event) :
  exists evs,
    toggle_acceleration env (a, t)
    = (inr tt,
       (with_config
          (<["model.device" := if using_cpu a then "cuda" else "cpu"]> (config a))
          (with_ui
             (with_accelerate_btn_look
                (if using_cpu a then ("GPU模式", "#4CAF50") else ("加速", "#FF9800")))
             (with_using_cpu (negb (using_cpu a)) a)),
        (t ++ evs)%list)) /\
    (config_write_error env = None ->
     evs = [Log INFO (if using_cpu a then "切换到GPU模式" else "切换到CPU模式");
            SaveConfig
              (<["model.device" := if using_cpu a then "cuda" else "cpu"]>
                 (config a))]).
Proof.
  unfold toggle_acceleration, save_config.
  destruct (using_cpu a) eqn:Hu, (config_write_error env) as [err|];
    step; rewrite Hu; step;
    repeat rewrite <- app_assoc; simpl;
    eexists; (split; [reflexivity|]); intros H; try discriminate; reflexivity.
Qed.

(** X1.  One press of the acceleration button negates the CPU flag and
    leaves the configured device and the button's look in step with
    the new flag; a second press brings the flag and the look back and
    leaves the configured device naming the original mode.  Nothing
    else in the window or the object changes. *)
Theorem toggle_acceleration_twice (env : Env) (a : App) (t : list Event) :
  let a1 := fst (snd (toggle_acceleration env (a, t))) in
  let a2 := fst (snd (toggle_acceleration env (snd (toggle_acceleration env (a, t))))) in
  (using_cpu a1 = negb (using_cpu a) /\
   config a1 !! "model.device" = Some (device_of a1) /\
   accelerate_btn_look (ui a1)
   = (if using_cpu a1 then ("加速", "#FF9800") else ("GPU模式", "#4CAF50"))) /\
  (using_cpu a2 = using_cpu a /\
   config a2 = <["model.device" := device_of a]> (config a) /\
   ui a2
   = with_accelerate_btn_look
       (if using_cpu a then ("加速", "#FF9800") else ("GPU模式", "#4CAF50")) (ui a) /\
   filename a2 = filename a /\ model_cache a2 = model_cache a /\
   message_queue a2 = message_queue a).
Proof.
  cbv zeta.
  destruct (toggle_acceleration_run env a t) as (evs1 & -> & _).
  cbn [fst snd].
  match goal with |- context [toggle_acceleration env (?a1, ?t1)] =>
    destruct (toggle_acceleration_run env a1 t1) as (evs2 & -> & _)
  end.
  cbn [fst snd]. unfold device_of.
  destruct (using_cpu a) eqn:Hu; simpl; rewrite ?Hu;
    rewrite ?lookup_insert_eq, ?insert_insert_eq; repeat split.
Qed.

(** ** Start-up *)

Arguments check_ffmpeg : simpl never.
Arguments create_ui : simpl never.
Arguments check_local_base_model : simpl never.
Arguments load_config : simpl never.

(** The check for FFmpeg leaves the object alone; it raises what the
    probe lets through, before anything else is done. *)
Lemma check_ffmpeg_run (env : Env) (h : Host) (a : App) (t : list Event) :
  match probe_error h with
  | Some e => check_ffmpeg env h (a, t) = (inl e, (a, t))
  | None =>
      exists evs,
        check_ffmpeg env h (a, t) = (inr tt, (a, (t ++ evs)%list)) /\
        List.filter is_thread_start evs
        = (if negb (ffmpeg_runs h) && ffmpeg_package_dir h && install_answer h
           then [ThreadStart "install_ffmpeg"] else []) /\
        dialog_kinds evs
        = (if ffmpeg_runs h then []
           else if ffmpeg_package_dir h
                then askyesno :: (if install_answer h then [] else [showwarning])
                else [showwarning])
  end.
Proof.
  unfold check_ffmpeg, check_ffmpeg_installed, probe_error, ffmpeg_runs.
  destruct (ffmpeg_probe h) as [code| | |e]; [destruct (code =? 0)%Z| | |];
    try reflexivity;
    destruct (ffmpeg_package_dir h), (install_answer h);
    step; repeat rewrite <- app_assoc; simpl;
    eexists; (split; [reflexivity|]); split; reflexivity.
Qed.

Lemma check_local_base_model_run env h a t :
  exists evs,
    check_local_base_model env h (a, t)
    = (inr (detected_models env h), (a, (t ++ evs)%list)).
Proof.
  unfold check_local_base_model, detected_models.
  destruct (models_dir h) as [[|entry rest]|]; step.
  - exists []. now rewrite app_nil_r.
  - eexists. reflexivity.
  - exists []. now rewrite app_nil_r.
Qed.

(** A file that can be read gives a mapping: its own, or the empty
    one. *)
Lemma load_config_run h a t :
  config_error h = None ->
  exists evs,
    load_config h (a, t)
    = (inr (Mapping (loaded_config h)), (a, (t ++ evs)%list)).
Proof.
  unfold load_config, loaded_config, config_error.
  destruct (config_file_content h); try discriminate; intros _; step.
  - exists []. now rewrite app_nil_r.
  - eexists. reflexivity.
  - exists []. now rewrite app_nil_r.
Qed.

(** What [create_ui] makes of the detected folder and the
    configuration. *)
Lemma create_ui_run (local_base_model : option string)
    (cfg : gmap string string) (a : App) (t : list Event) :
  config a = cfg ->
  exists a' evs,
    create_ui local_base_model (Mapping cfg) (a, t)
    = (inr tt, (a', (t ++ evs)%list)) /\
    config a' = config a /\ filename a' = filename a /\
    message_queue a' = message_queue a /\
    requests_session a' = requests_session a /\
    txt_var a' = true /\ srt_var a' = true /\
    using_cpu a'
    = (if bool_decide (config a !! "model.device" = Some "cuda") then false
       else using_cpu a) /\
    ui a'
    = with_accelerate_btn_look
        (if bool_decide (config a !! "model.device" = Some "cuda")
         then ("GPU模式", "#4CAF50") else ("加速", "#FF9800"))
        (with_controls
           (config_state model_size
              (match config a !! "model.path", local_base_model with
               | None, None => NORMAL
               | _, _ => DISABLED
               end))
           (with_model_path
              (match config a !! "model.path", local_base_model with
               | Some path, _ => path
               | None, Some dir => dir
               | None, None => ""
               end)
              built_ui)).
Proof.
  intros _. unfold create_ui.
  destruct local_base_model as [dir|]; step;
    destruct (config a !! "model.path") as [path|]; step;
    destruct (bool_decide (config a !! "model.device" = Some "cuda")); step;
    repeat rewrite <- app_assoc; simpl;
    first [ do 2 eexists; split; [reflexivity|]
          | eexists; exists []; rewrite app_nil_r; split; [reflexivity|] ];
    repeat split.
Qed.

Arguments init : simpl never.

(** The object and the window as [__init__] leaves them when the
    configuration file raises nothing; the probe for FFmpeg comes
    after the window is built. *)
Lemma init_run (env : Env) (h : Host) :
  config_error h = None ->
  exists a' t',
    snd (init env h (blank, [])) = (a', t') /\
    fst (init env h (blank, []))
    = match probe_error h with Some e => inl e | None => inr tt end /\
    config a' = loaded_config h /\
    using_cpu a'
    = negb (bool_decide (loaded_config h !! "model.device" = Some "cuda")) /\
    ui a'
    = with_accelerate_btn_look
        (if bool_decide (loaded_config h !! "model.device" = Some "cuda")
         then ("GPU模式", "#4CAF50") else ("加速", "#FF9800"))
        (with_controls
           (config_state model_size
              (match loaded_config h !! "model.path", detected_models env h with
               | None, None => NORMAL
               | _, _ => DISABLED
               end))
           (with_model_path
              (match loaded_config h !! "model.path", detected_models env h with
               | Some path, _ => path
               | None, Some dir => dir
               | None, None => ""
               end)
              built_ui)) /\
    filename a' = None /\ txt_var a' = true /\ srt_var a' = true /\
    model_cache a' = ∅ /\ requests_session a' = None /\ message_queue a' = [].
Proof.
  intros Hcfg. unfold init, bind, modify, emit. cbn [fst snd].
  match goal with |- context [check_local_base_model env h (?a, ?t)] =>
    destruct (check_local_base_model_run env h a t) as (evs1 & ->)
  end.
  match goal with |- context [load_config h (?a, ?t)] =>
    destruct (load_config_run h a t Hcfg) as (evs2 & ->)
  end.
  cbn [fst snd].
  match goal with |- context [create_ui ?l _ (?a, ?t)] =>
    destruct (create_ui_run l (loaded_config h) a t eq_refl)
      as (a3 & evs3 & -> & Hc & Hf & Hq & Hr & Htxt & Hsrt & Hu & Hui)
  end.
  cbn [fst snd].
  match goal with |- context [check_ffmpeg env h (?a, ?t)] =>
    pose proof (check_ffmpeg_run env h a t) as Hff
  end.
  destruct (probe_error h) as [e|].
  - rewrite Hff. do 2 eexists. split; [reflexivity|]. split; [reflexivity|].
    simpl in *. rewrite ?Hc, ?Hu, ?Hui, ?Hf, ?Hq, ?Hr, ?Htxt, ?Hsrt.
    split; [reflexivity|].
    split; [destruct (bool_decide _); reflexivity|]. repeat split.
  - destruct Hff as (evs4 & -> & _).
    do 2 eexists. split; [reflexivity|]. split; [reflexivity|].
    simpl in *. rewrite ?Hc, ?Hu, ?Hui, ?Hf, ?Hq, ?Hr, ?Htxt, ?Hsrt.
    split; [reflexivity|].
    split; [destruct (bool_decide _); reflexivity|]. repeat split.
Qed.

(** A configuration file that raises ends start-up. *)
Lemma init_config_error (env : Env) (h : Host) (e : Exn) :
  config_error h = Some e -> fst (init env h (blank, [])) = inl e.
Proof.
  unfold config_error, init, bind, modify, emit. cbn [fst snd].
  match goal with |- context [check_local_base_model env h (?a, ?t)] =>
    destruct (check_local_base_model_run env h a t) as (evs1 & ->)
  end.
  unfold load_config, create_ui.
  destruct (config_file_content h); try discriminate; intros [= ->];
    destruct (detected_models env h); reflexivity.
Qed.



(** Three start-ups that raise: a configuration file in another
    encoding, one that holds [null], and an [ffmpeg] that cannot be
    executed. *)
Example startup_raises :
  fst (init Sample.env Sample2.host_latin1_config (blank, []))
  = inl Sample2.not_utf8 /\
  fst (init Sample.env Sample2.host_null_config (blank, []))
  = inl Sample2.not_iterable /\
  fst (init Sample.env Sample2.host_broken_ffmpeg (blank, []))
  = inl Sample2.not_a_program.
Proof. repeat split. Qed.

(** X3.  The mode chosen with the acceleration button survives a
    restart: if the configuration file can be written, the press saves
    the configuration, and a start-up that finds that configuration on
    disk comes up with the same CPU flag and the same look of the
    button. *)
Theorem device_survives_restart (env : Env) (h : Host) (a : App)
    (t : list Event) :
  config_write_error env = None ->
  let s1 := snd (toggle_acceleration env (a, t)) in
  config_file_content h = ConfigOf (config (fst s1)) ->
  let a2 := fst (snd (init env h (blank, []))) in
  In (SaveConfig (config (fst s1))) (snd s1) /\
  using_cpu a2 = using_cpu (fst s1) /\
  accelerate_btn_look (ui a2) = accelerate_btn_look (ui (fst s1)).
Proof.
  intros Hw. cbv zeta.
  destruct (toggle_acceleration_run env a t) as (evs & -> & Hevs).
  cbn [fst snd]. intros Hfile. rewrite (Hevs Hw).
  assert (Hcfg : config_error h = None)
    by (unfold config_error; now rewrite Hfile).
  destruct (init_run env h Hcfg) as (a' & t' & -> & _ & _ & Hu & Hui & _).
  cbn [fst snd]. rewrite Hu, Hui. unfold loaded_config. rewrite Hfile.
  simpl. rewrite lookup_insert_eq.
  split; [apply in_or_app; right; right; left; reflexivity|].
  destruct (using_cpu a); split; reflexivity.
Qed.

Lemma device_survives_restart_witness :
  config_write_error Sample.env = None /\
  config_file_content Sample2.host_after_toggle
  = ConfigOf (config (fst (snd (toggle_acceleration Sample.env (Sample.ready, []))))) /\
  using_cpu (fst (snd (init Sample.env Sample2.host_after_toggle (blank, [])))) = false.
Proof.
  split; [reflexivity|]. split; [reflexivity|].
  exact (proj1 (proj2 (device_survives_restart Sample.env Sample2.host_after_toggle
                         Sample.ready [] eq_refl eq_refl))).
Defined.

(** X4.  A model folder chosen in the browser survives a restart, and
    start-up does not check it again: if the chosen folder exists when
    it is chosen and the configuration file can be written, a start-up
    that finds the saved configuration on disk shows the same path in
    the entry and disables the model-size selector, whether or not a
    [models] folder was detected. *)
Theorem model_path_survives_restart (env : Env) (h : Host) (chosen : string)
    (a : App) (t : list Event) :
  config_write_error env = None ->
  let dirname :=
    if Py.endswith chosen "models" then chosen ++ "\base" else chosen in
  dirname <> "" ->
  path_exists env dirname = true ->
  let s1 := snd (select_model_dir env chosen (a, t)) in
  config_file_content h = ConfigOf (config (fst s1)) ->
  let a2 := fst (snd (init env h (blank, []))) in
  In (SaveConfig (config (fst s1))) (snd s1) /\
  model_path (ui a2) = dirname /\
  model_path (ui a2) = model_path (ui (fst s1)) /\
  st_model_size (controls (ui a2)) = DISABLED.
Proof.
  intros Hw dirname Hne Hex. cbv zeta.
  apply String.eqb_neq in Hne.
  assert (Hrun : exists evs,
    select_model_dir env chosen (a, t)
    = (inr tt,
       (with_config (<["model.path" := dirname]> (config a))
          (with_ui (with_controls (config_state model_size DISABLED))
             (with_ui (with_model_path dirname) a)),
        (t ++ evs ++ [SaveConfig (<["model.path" := dirname]> (config a))])%list))).
  { unfold select_model_dir, save_config. subst dirname.
    destruct (Py.endswith chosen "models") eqn:Hends;
      [rewrite (join_models_base _ Hends)|];
      rewrite Hne, Hex, Hw; step; repeat rewrite <- app_assoc; simpl;
      eexists [_]; reflexivity. }
  destruct Hrun as (evs & ->). cbn [fst snd]. intros Hfile.
  assert (Hcfg : config_error h = None)
    by (unfold config_error; now rewrite Hfile).
  destruct (init_run env h Hcfg) as (a' & t' & -> & _ & _ & _ & Hui & _).
  cbn [fst snd]. rewrite Hui. unfold loaded_config. rewrite Hfile.
  simpl. rewrite lookup_insert_eq.
  split; [rewrite !in_app_iff; right; right; left; reflexivity|].
  repeat split.
Qed.

Lemma model_path_survives_restart_witness :
  config_write_error Sample.env = None /\
  "C:/x/models\base" <> "" /\
  path_exists Sample.env "C:/x/models\base" = true /\
  config_file_content Sample2.host_after_browse
  = ConfigOf (config (fst (snd (select_model_dir Sample.env "C:/x/models"
                                  (Sample.fresh, []))))) /\
  model_path (ui (fst (snd (init Sample.env Sample2.host_after_browse (blank, [])))))
  = "C:/x/models\base".
Proof.
  split; [reflexivity|]. split; [discriminate|].
  split; [reflexivity|]. split; [reflexivity|].
  refine (proj1 (proj2 (model_path_survives_restart Sample.env Sample2.host_after_browse
                          "C:/x/models" Sample.fresh [] eq_refl _ eq_refl eq_refl))).
  discriminate.
Defined.

(** X5.  The FFmpeg check never changes the object.  If the probe
    raises something other than [FileNotFoundError] and
    [PermissionError], the check raises it and does nothing else.
    Otherwise it returns, and FFmpeg counts as installed exactly when
    the probe exits with code 0; then nothing is shown.  When it is not
    installed and the package folder exists, the user is asked once,
    the installer thread is started on yes and a warning shown on no;
    without the package folder one warning is shown and nothing is
    asked.  No thread is started in any other case. *)
Theorem ffmpeg_check_outcomes (env : Env) (h : Host) (a : App) (t : list Event) :
  match ffmpeg_probe h with
  | ProbeFailed e => check_ffmpeg env h (a, t) = (inl e, (a, t))
  | probe =>
      let installed :=
        match probe with Exited 0 => true | _ => false end in
      check_ffmpeg_installed h (a, t) = (inr installed, (a, t)) /\
      exists evs,
        check_ffmpeg env h (a, t) = (inr tt, (a, (t ++ evs)%list)) /\
        List.filter is_thread_start evs
        = (if negb installed && ffmpeg_package_dir h && install_answer h
           then [ThreadStart "install_ffmpeg"] else []) /\
        dialog_kinds evs
        = (if installed then []
           else if ffmpeg_package_dir h
                then askyesno :: (if install_answer h then [] else [showwarning])
                else [showwarning])
  end.
Proof.
  pose proof (check_ffmpeg_run env h a t) as Hrun.
  unfold probe_error, ffmpeg_runs, check_ffmpeg_installed in *.
  destruct (ffmpeg_probe h) as [code| | |e]; [| | |exact Hrun];
    (split; [|exact Hrun || (destruct code as [|p|p]; exact Hrun)]).
  - now destruct code.
  - reflexivity.
  - reflexivity.
Qed.

(** ** Installing FFmpeg *)

(** X6.  The installation never raises.  It puts exactly three messages
    on the queue: the status [正在安装FFmpeg], one notification, and
    the status [准备就绪].  It writes the user's PATH exactly when the
    [bin] folder exists, its path is not yet a part of PATH and the
    registry can be written; the value written is the [bin] path, a
    semicolon and the old PATH.  The notification is the success
    notice when the [bin] folder exists and either nothing had to be
    written or the write succeeded, and an error otherwise.  The window
    and the configuration are left alone. *)
Theorem install_ffmpeg_outcome (env : Env) (h : Host) (a : App) (t : list Event) :
  let bin := Path.div (Path.div (get_app_dir env) "ffmpeg") "bin" in
  let listed := Py.contains bin (environ_PATH h) in
  let writable := match registry_error h with None => true | Some _ => false end in
  exists a' t' note title text,
    install_ffmpeg env h (a, t)
    = (inr (if ffmpeg_bin_dir h && negb listed && writable
            then [SetUserPath (bin ++ ";" ++ environ_PATH h);
                  BroadcastSettingChange]
            else []),
       (a', t')) /\
    message_queue a'
    = (message_queue a
       ++ [status "正在安装FFmpeg"; message note title text; status "准备就绪"])%list /\
    note = (if ffmpeg_bin_dir h && (listed || writable) then "info" else "error") /\
    ui a' = ui a /\ config a' = config a /\ using_cpu a' = using_cpu a.
Proof.
  cbv zeta. unfold install_ffmpeg, try_except.
  destruct (ffmpeg_bin_dir h); step;
    [destruct (Py.contains _ (environ_PATH h)); step;
     [|destruct (registry_error h) as [e|]; step]|];
    repeat rewrite <- app_assoc; simpl;
    do 5 eexists; (split; [reflexivity|]); repeat split.
Qed.

(** ** What a drain of the queue shows *)

Lemma apply_message_step (env : Env) (m : Msg) (a : App) (t : list Event) :
  exists a1 evs,
    apply_message env m (a, t) = (inr tt, (a1, (t ++ evs)%list)) /\
    message_queue a1 = message_queue a /\
    status_var (ui a1) = shown_status [m] (status_var (ui a)) /\
    progress_var (ui a1) = shown_progress [m] (progress_var (ui a)) /\
    result_text (ui a1) = panel_after [m] (result_text (ui a)) /\
    using_cpu a1 = flag_after [m] (using_cpu a) /\
    controls (ui a1) = controls (ui a) /\
    filename a1 = filename a /\ model_cache a1 = model_cache a /\
    List.filter is_thread_start evs = [] /\
    (config_write_error env = None -> List.filter is_dialog evs = dialogs_of [m]) /\
    (forall ev, In ev (dialogs_of [m]) -> In ev evs).
Proof.
  unfold apply_message, toggle_acceleration, save_config.
  destruct m as [text|value|icon title text| |text|]; step.
  - exists (with_ui (with_status_var text) a), []. rewrite app_nil_r.
    repeat split; try (intros ev0 []).
  - exists (with_ui (with_progress_var value) a), []. rewrite app_nil_r.
    repeat split; try (intros ev0 []).
  - destruct (String.eqb icon "info"); step; do 2 eexists; repeat split; auto.
  - unfold result_frame_initialized.
    destruct (result_text (ui a)) as [shown|] eqn:Hr.
    + rewrite bool_decide_eq_true_2 by eauto. step.
      eexists; exists []; rewrite app_nil_r; repeat split;
        try (intros ev0 []).
    + rewrite bool_decide_eq_false_2 by (intros [x Hx]; discriminate). step.
      exists a, []. rewrite app_nil_r. repeat split; auto.
  - destruct (result_text (ui a)) as [shown|] eqn:Hr; step.
    + eexists; exists []; rewrite app_nil_r; repeat split;
        try (intros ev0 []).
    + exists a, []. rewrite app_nil_r. repeat split; auto.
  - destruct (using_cpu a) eqn:Hu, (config_write_error env) as [err|]; step;
      rewrite ?Hu; step; repeat rewrite <- app_assoc; simpl;
      do 2 eexists; (split; [reflexivity|]); repeat split; auto;
      try (intros ev0 []); intros; discriminate.
Qed.

Lemma shown_cons (m : Msg) (rest : list Msg) :
  (forall cur, shown_status (m :: rest) cur = shown_status rest (shown_status [m] cur)) /\
  (forall cur, shown_progress (m :: rest) cur
               = shown_progress rest (shown_progress [m] cur)) /\
  (forall cur, panel_after (m :: rest) cur = panel_after rest (panel_after [m] cur)) /\
  (forall cur, flag_after (m :: rest) cur = flag_after rest (flag_after [m] cur)) /\
  dialogs_of (m :: rest) = (dialogs_of [m] ++ dialogs_of rest)%list.
Proof. destruct m; repeat split. Qed.

Lemma drain_applies (env : Env) (q : list Msg) :
  forall (a : App) (t : list Event),
    message_queue a = q ->
    exists a' evs,
      drain env (length q) (a, t) = (inr tt, (a', (t ++ evs)%list)) /\
      message_queue a' = [] /\
      status_var (ui a') = shown_status q (status_var (ui a)) /\
      progress_var (ui a') = shown_progress q (progress_var (ui a)) /\
      result_text (ui a') = panel_after q (result_text (ui a)) /\
      using_cpu a' = flag_after q (using_cpu a) /\
      controls (ui a') = controls (ui a) /\
      filename a' = filename a /\ model_cache a' = model_cache a /\
      List.filter is_thread_start evs = [] /\
      (config_write_error env = None -> List.filter is_dialog evs = dialogs_of q) /\
      (forall ev, In ev (dialogs_of q) -> In ev evs).
Proof.
  induction q as [|m rest IH]; intros a t Hq.
  - exists a, []. rewrite app_nil_r. simpl. repeat split; auto.
  - destruct (apply_message_step env m (with_message_queue rest a) t)
      as (a1 & evs1 & Happly & Hq1 & Hs1 & Hp1 & Hr1 & Hu1 & Hc1 & Hf1 & Hm1
          & Ht1 & Hd1 & Hi1).
    cbn [length]. rewrite (drain_cons env _ a t m rest Hq), Happly.
    destruct (IH a1 (t ++ evs1)%list Hq1)
      as (a' & evs & -> & Hq' & Hs & Hp & Hr & Hu & Hc & Hf & Hm & Ht & Hd & Hi).
    destruct (shown_cons m rest) as (Es & Ep & Er & Eu & Ed).
    exists a', (evs1 ++ evs)%list. rewrite app_assoc.
    split; [reflexivity|]. split; [exact Hq'|].
    rewrite Es, Ep, Er, Eu, Ed, Hs, Hp, Hr, Hu, Hc, Hf, Hm, Hs1, Hp1, Hr1, Hu1,
      Hc1, Hf1, Hm1, !List.filter_app, Ht1, Ht.
    repeat split.
    + intros Hw. now rewrite (Hd1 Hw), (Hd Hw).
    + intros ev Hev. apply in_app_or in Hev. apply in_or_app.
      destruct Hev; [left | right]; auto.
Qed.

(** X7.  A tick of the relay never raises and empties the queue.  It
    applies the messages in order: afterwards the status and the
    progress bar show the last status and progress message (or what
    they showed before, if there was none), the result panel holds what
    was appended after the last clearing (and nothing, while its text
    widget does not exist), and the CPU flag has been negated once per
    button command.  No thread is started, the controls keep their
    state, and the tick ends by scheduling the next one.  If the
    configuration file can be written, the dialogs of the tick are
    exactly the notifications, in order: the information box for the
    icon ["info"], the error box for every other icon, ["warning"]
    included. *)
Theorem process_messages_applies (env : Env) (a : App) (t : list Event) :
  let q := message_queue a in
  exists a' evs,
    process_messages env (a, t)
    = (inr tt, (a', (t ++ evs ++ [After 100 "process_messages"])%list)) /\
    message_queue a' = [] /\
    status_var (ui a') = shown_status q (status_var (ui a)) /\
    progress_var (ui a') = shown_progress q (progress_var (ui a)) /\
    result_text (ui a') = panel_after q (result_text (ui a)) /\
    using_cpu a' = flag_after q (using_cpu a) /\
    controls (ui a') = controls (ui a) /\
    List.filter is_thread_start evs = [] /\
    (config_write_error env = None -> List.filter is_dialog evs = dialogs_of q).
Proof.
  cbv zeta. unfold process_messages, bind, get, emit. cbn [fst snd].
  destruct (drain_applies env (message_queue a) a t eq_refl)
    as (a' & evs & -> & Hq & Hs & Hp & Hr & Hu & Hc & _ & _ & Ht & Hd & _).
  exists a', evs. cbn [fst snd]. rewrite <- app_assoc.
  repeat split; auto.
Qed.

Lemma process_messages_applies_witness :
  config_write_error Sample.env = None /\
  exists evs,
    snd (snd (process_messages Sample.env
                (with_message_queue [fallback_notice; status "准备就绪"]
                   Sample.ready, [])))
    = (evs ++ [After 100 "process_messages"])%list /\
    List.filter is_dialog evs
    = [Dialog showerror "GPU不可用" "CUDA驱动版本不足，切换到CPU模式"].
Proof.
  split; [reflexivity|].
  destruct (process_messages_applies Sample.env
              (with_message_queue [fallback_notice; status "准备就绪"]
                 Sample.ready) [])
    as (a' & evs & E & _ & _ & _ & _ & _ & _ & _ & Hd).
  exists evs. rewrite E. split; [reflexivity | exact (Hd eq_refl)].
Defined.

(** The fallback notice of a run is shown in the error box. *)
Example fallback_notice_shown_as_error :
  dialogs_of [fallback_notice]
  = [Dialog showerror "GPU不可用" "CUDA驱动版本不足，切换到CPU模式"].
Proof. reflexivity. Qed.

(** ** What a run keeps *)

Lemma kept_refl s : kept s s.
Proof.
  split; [split; exists []; now rewrite app_nil_r | repeat split].
Qed.

Lemma kept_trans s1 s2 s3 : kept s1 s2 -> kept s2 s3 -> kept s1 s3.
Proof.
  intros [[[m1 Hm1] [e1 He1]] (F1 & T1 & S1 & C1)]
         [[[m2 Hm2] [e2 He2]] (F2 & T2 & S2 & C2)].
  split; [split|repeat split; congruence].
  - exists (m1 ++ m2)%list. now rewrite Hm2, Hm1, app_assoc.
  - exists (e1 ++ e2)%list. now rewrite He2, He1, app_assoc.
Qed.

Ltac kept_tac :=
  respects_struct kept_refl kept_trans;
  try (apply respects_modify; intros a0 t0;
       split; [split; [first [ eexists; reflexivity
                             | exists []; simpl; now rewrite app_nil_r ]
                      | exists []; simpl; now rewrite app_nil_r ]
              | repeat split ]);
  try (apply respects_emit; intros a0 t0;
       split; [split; [exists []; simpl; now rewrite app_nil_r
                      | eexists; reflexivity ]
              | repeat split ]).

Lemma process_segments_kept total i segments_list full_text :
  respects kept (process_segments total i segments_list full_text).
Proof.
  revert i full_text.
  induction segments_list as [|segment rest IH]; intros i full_text;
    cbn [process_segments].
  - kept_tac.
  - kept_tac. apply IH.
Qed.

Lemma run_transcription_kept (env : Env) : respects kept (run_transcription env).
Proof.
  unfold run_transcription, run_guarded, cleanup.
  kept_tac; apply process_segments_kept.
Qed.

(** X8.  A run only adds to the queue and to the trace: what was queued
    or recorded before is still there, in place.  It never changes the
    selected file, the two format toggles or the configuration; so a
    fallback to the CPU is not written to the configuration by the run
    itself. *)
Theorem run_only_appends (env : Env) (s : St) :
  let s' := snd (run_transcription env s) in
  (exists msgs, message_queue (fst s') = (message_queue (fst s) ++ msgs)%list) /\
  (exists evs, snd s' = (snd s ++ evs)%list) /\
  filename (fst s') = filename (fst s) /\
  txt_var (fst s') = txt_var (fst s) /\
  srt_var (fst s') = srt_var (fst s) /\
  config (fst s') = config (fst s).
Proof.
  cbv zeta. pose proof (run_transcription_kept env s) as H.
  generalize dependent (run_transcription env s). intros [r s'] H.
  destruct H as [[Hq Ht] (Hf & Htx & Hs & Hc)]. cbn [fst snd] in *.
  repeat split; assumption.
Qed.

(** X9.  A run that ends with an exception has reported it: the last
    two messages on the queue are the fatal-error notification with the
    exception's text and the status [严重错误], and the error is
    logged. *)
Theorem failed_run_reports (env : Env) (s : St) (e : Exn) :
  fst (run_transcription env s) = inl e ->
  (exists earlier,
     message_queue (fst (snd (run_transcription env s)))
     = (earlier ++ [fatal_error e; status "严重错误"])%list) /\
  In (Log ERROR ("转录过程中发生严重错误: " ++ exn_str e))
     (snd (snd (run_transcription env s))).
Proof.
  rewrite run_transcription_result, run_transcription_state.
  destruct (run_body env s) as [[e'|[]] [a1 t1]] eqn:Hbody.
  - rewrite (run_guarded_raise _ _ _ _ _ Hbody). cbn [fst snd].
    intros [= ->].
    match goal with |- context [cleanup (?a, ?t)] =>
      pose proof (cleanup_run a t) as (_ & _ & _ & _ & Hq & _ & _ & Ht);
      generalize dependent (cleanup (a, t))
    end.
    intros [r' [a' t']] Hq Ht. cbn [fst snd] in *. rewrite Hq, Ht.
    split; [eexists; reflexivity|].
    rewrite !in_app_iff. left. right. left. reflexivity.
  - rewrite (run_guarded_ok _ _ _ Hbody). discriminate.
Qed.

Lemma failed_run_reports_witness :
  fst (run_transcription (Sample2.env_read_only false) (Sample.ready, []))
  = inl Sample2.disk_full /\
  exists earlier,
    message_queue
      (fst (snd (run_transcription (Sample2.env_read_only false) (Sample.ready, []))))
    = (earlier ++ [fatal_error Sample2.disk_full; status "严重错误"])%list.
Proof.
  split; [reflexivity|].
  exact (proj1 (failed_run_reports (Sample2.env_read_only false) (Sample.ready, [])
                  Sample2.disk_full eq_refl)).
Defined.

(** ** The cache across runs *)

Ltac finish :=
  split; [eauto|]; split; [reflexivity|];
  first [ left; split; [reflexivity|]; split; [reflexivity|]
        | right; split; [reflexivity|]; split; [reflexivity|] ];
  rewrite ?fallback_notices_app; unfold fallback_notices; simpl; lia.

(** Whatever way the load phase takes, if it ends with a model key then
    a model is cached under that key; the key is the one computed from
    the settings at the start, or the CPU key after a fallback. *)
Lemma load_phase_result (env : Env) (a : App) (t : list Event)
    (key : string) (s1 : St) :
  (announce env (size_of a) (path_of a) >>
   resolve_model env (size_of a) (device_of a) (path_of a)) (a, t)
  = (inr key, s1) ->
  is_Some (model_cache (fst s1) !! key) /\
  ui (fst s1) = ui a /\
  ((key = model_key_of a /\ using_cpu (fst s1) = using_cpu a /\
    fallback_notices (message_queue (fst s1))
    = fallback_notices (message_queue a)) \/
   (key = cpu_key_of a /\ using_cpu (fst s1) = true /\
    fallback_notices (message_queue (fst s1))
    = S (fallback_notices (message_queue a)))).
Proof.
  assert (Hcount : forall q1 q2,
            fallback_notices (q1 ++ q2)
            = (fallback_notices q1 + fallback_notices q2)%nat)
    by apply fallback_notices_app.
  unfold model_key_of, cpu_key_of.
  unfold announce, resolve_model, load_or_fall_back, construct, cache_model,
    try_except, ensure_session.
  destruct (negb (String.eqb (path_of a) "")) eqn:Hpath; step;
    destruct (model_cache a !! _) as [m|] eqn:Hcache; step.
  - intros [= <- <-]. cbn [fst]. simpl. rewrite Hcache. finish.
  - destruct (whisper_model env 0 _) as [e|m]; step.
    + destruct (is_RuntimeError (exn_class e)); [|step; discriminate].
      destruct (Py.contains cuda_marker (exn_str e)); step; [|discriminate].
      destruct (whisper_model env 1 _) as [e'|m]; step; [discriminate|].
      intros [= <- <-]. simpl. rewrite lookup_insert_eq. finish.
    + intros [= <- <-]. simpl. rewrite lookup_insert_eq. finish.
  - intros [= <- <-]. cbn [fst]. simpl. rewrite Hcache. finish.
  - destruct (makedirs env _) as [e|]; step; [discriminate|].
    destruct (requests_session a) as [session|] eqn:Hsess;
      [|destruct (certifi_where env) as [bundle|]]; step; rewrite ?Hsess; step;
      (destruct (whisper_model env 0 _) as [e|m]; step;
       [ destruct (is_RuntimeError (exn_class e)); [|step; discriminate];
         destruct (Py.contains cuda_marker (exn_str e)); step; [|discriminate];
         destruct (whisper_model env 1 _) as [e'|m]; step; [discriminate|]
       | ]);
      intros [= <- <-]; simpl; rewrite lookup_insert_eq; finish.
Qed.

(** A load phase that finds the model cached does nothing but
    announce. *)
Lemma load_phase_hit (env : Env) (a : App) (t : list Event) (m : WhisperModel) :
  model_cache a !! model_key_of a = Some m ->
  exists a1 t1,
    (announce env (size_of a) (path_of a) >>
     resolve_model env (size_of a) (device_of a) (path_of a)) (a, t)
    = (inr (model_key_of a), (a1, t1)) /\
    loads t1 = loads t /\ model_cache a1 = model_cache a /\
    requests_session a1 = requests_session a /\
    using_cpu a1 = using_cpu a /\
    fallback_notices (message_queue a1) = fallback_notices (message_queue a).
Proof.
  intros Hhit. unfold model_key_of in *.
  unfold announce, resolve_model.
  destruct (negb (String.eqb (path_of a) "")); step; rewrite Hhit; step;
    do 2 eexists; (split; [reflexivity|]); simpl;
    rewrite loads_app, <- app_assoc, fallback_notices_app; simpl;
    rewrite app_nil_r; repeat split; unfold fallback_notices at 2; simpl; lia.
Qed.

Lemma session_kept_refl s : session_kept s s.
Proof. reflexivity. Qed.

Lemma session_kept_trans s1 s2 s3 :
  session_kept s1 s2 -> session_kept s2 s3 -> session_kept s1 s3.
Proof. unfold session_kept. congruence. Qed.

Ltac session_tac :=
  respects_struct session_kept_refl session_kept_trans;
  try (apply respects_modify; intros a0 t0; reflexivity);
  try (apply respects_emit; intros a0 t0; reflexivity).

Lemma process_segments_session total i segments_list full_text :
  respects session_kept (process_segments total i segments_list full_text).
Proof.
  revert i full_text.
  induction segments_list as [|segment rest IH]; intros i full_text;
    cbn [process_segments].
  - session_tac.
  - session_tac. apply IH.
Qed.

Lemma analyse_and_export_session env lang_arg model_key :
  respects session_kept (analyse_and_export env lang_arg model_key).
Proof.
  unfold analyse_and_export. session_tac; apply process_segments_session.
Qed.

(** From the end of the load phase to the end of the [try] block the
    session is not touched. *)
Lemma run_guarded_session (env : Env) (s s1 : St) (model_key : string) :
  (announce env (size_of (fst s)) (path_of (fst s)) >>
   resolve_model env (size_of (fst s)) (device_of (fst s)) (path_of (fst s))) s
  = (inr model_key, s1) ->
  requests_session (fst (snd (run_guarded env s))) = requests_session (fst s1).
Proof.
  intros Hload.
  pose proof (run_body_phases env s) as Hbody. rewrite Hload in Hbody.
  pose proof (analyse_and_export_session env (lang_of (fst s)) model_key s1) as Hq.
  rewrite <- Hbody in Hq. clear Hbody Hload.
  destruct (run_body env s) as [[e|[]] [a' t']] eqn:Hrun.
  - rewrite (run_guarded_raise _ _ _ _ _ Hrun). exact Hq.
  - rewrite (run_guarded_ok _ _ _ Hrun). exact Hq.
Qed.

(** The end of a run in terms of the end of its [try] block. *)
Lemma run_transcription_final (env : Env) (s : St) :
  ui (fst (snd (run_transcription env s)))
  = with_controls (fun _ => all_normal) (ui (fst (snd (run_guarded env s)))) /\
  requests_session (fst (snd (run_transcription env s)))
  = close <$> requests_session (fst (snd (run_guarded env s))) /\
  model_cache (fst (snd (run_transcription env s)))
  = model_cache (fst (snd (run_guarded env s))) /\
  message_queue (fst (snd (run_transcription env s)))
  = message_queue (fst (snd (run_guarded env s))) /\
  using_cpu (fst (snd (run_transcription env s)))
  = using_cpu (fst (snd (run_guarded env s))).
Proof.
  rewrite run_transcription_state.
  generalize (run_guarded env s). intros [r [a t]]. cbn [fst snd].
  pose proof (cleanup_run a t) as (_ & Hu & Hs & Hm & Hq & Hc & _).
  generalize dependent (cleanup (a, t)). intros [r' [a' t']]. cbn [fst snd].
  intros. repeat split; assumption.
Qed.

Lemma run_guarded_result_ok (env : Env) (s : St) :
  fst (run_guarded env s) = inr tt ->
  exists s1, run_body env s = (inr tt, s1).
Proof.
  destruct (run_body env s) as [[e|[]] [a1 t1]] eqn:Hbody.
  - rewrite (run_guarded_raise _ _ _ _ _ Hbody). discriminate.
  - eauto.
Qed.

(** X10.  After a run that completes, the cache holds a model under
    the key the run computed: the key of the size, device and path it
    started with when it queued no fallback notice, and the CPU key of
    that size and path when it did.  A run started from a state whose
    model is cached constructs no model, creates no session and queues
    no fallback notice. *)
Theorem completed_run_caches_model (env : Env) (a : App) (t : list Event) :
  let a' := fst (snd (run_transcription env (a, t))) in
  (fst (run_transcription env (a, t)) = inr tt ->
   is_Some (model_cache a'
            !! (if (fallback_notices (message_queue a')
                    =? fallback_notices (message_queue a))%nat
                then model_key_of a else cpu_key_of a))) /\
  (is_Some (model_cache a !! model_key_of a) ->
   loads (snd (snd (run_transcription env (a, t)))) = loads t /\
   model_cache a' = model_cache a /\
   requests_session a' = close <$> requests_session a /\
   fallback_notices (message_queue a') = fallback_notices (message_queue a)).
Proof.
  cbv zeta. split.
  - rewrite run_transcription_result. intros Hok.
    destruct (run_guarded_result_ok env (a, t) Hok) as [s2 Hbody].
    pose proof (run_body_phases env (a, t)) as Hphases.
    cbn [fst] in Hphases. rewrite Hbody in Hphases.
    destruct ((announce env (size_of a) (path_of a) >>
               resolve_model env (size_of a) (device_of a) (path_of a)) (a, t))
      as [[e|key] [a1 t1]] eqn:Hload; [discriminate|].
    destruct (load_phase_result env a t key (a1, t1) Hload) as (Hc & _ & Hkey).
    destruct (run_after_load env (a, t) (a1, t1) key Hload)
      as (_ & _ & Hn & Hm & _).
    generalize dependent (run_transcription env (a, t)).
    intros [r [a' t']]; intros. cbn [fst snd] in *.
    rewrite Hm, Hn.
    destruct Hkey as [(-> & _ & ->)|(-> & _ & ->)].
    + now rewrite Nat.eqb_refl.
    + replace (S _ =? _)%nat with false; [exact Hc|].
      symmetry. apply Nat.eqb_neq. lia.
  - intros [m Hhit].
    destruct (load_phase_hit env a t m Hhit)
      as (a1 & t1 & Hload & Hl & Hc & Hs & _ & Hn).
    destruct (run_after_load env (a, t) (a1, t1) _ Hload)
      as (_ & _ & Hn' & Hm & _ & Hl' & _).
    pose proof (run_guarded_session env (a, t) (a1, t1) _ Hload) as Hg.
    pose proof (run_transcription_final env (a, t)) as (_ & Hcs & _).
    generalize dependent (run_guarded env (a, t)). intros g; intros.
    generalize dependent (run_transcription env (a, t)).
    intros [r [a' t']]; intros. cbn [fst snd] in *.
    rewrite Hl', Hl, Hm, Hc, Hn', Hn, Hcs, Hg, Hs. repeat split.
Qed.

Lemma load_phase_success (env : Env) (a : App) (t : list Event)
    (m : WhisperModel) :
  model_cache a !! model_key_of a = None ->
  (path_of a = "" -> makedirs env (get_model_dir env) = None) ->
  whisper_model env 0 (requested_args env a) = inr m ->
  exists a1 t1,
    (announce env (size_of a) (path_of a) >>
     resolve_model env (size_of a) (device_of a) (path_of a)) (a, t)
    = (inr (model_key_of a), (a1, t1)) /\
    loads t1 = (loads t ++ [requested_args env a])%list /\
    model_cache a1 = <[model_key_of a := m]> (model_cache a) /\
    using_cpu a1 = using_cpu a /\
    toggles (message_queue a1) = toggles (message_queue a) /\
    fallback_notices (message_queue a1) = fallback_notices (message_queue a).
Proof.
  intros Hmiss Hdirs Hload.
  unfold requested_args, load_args, model_key_of in *.
  unfold announce, resolve_model, load_or_fall_back, construct, cache_model,
    try_except, ensure_session.
  destruct (negb (String.eqb (path_of a) "")) eqn:Hpath.
  - step. rewrite Hmiss. step. rewrite Hload. step.
    do 2 eexists. split; [reflexivity|]. simpl.
    repeat rewrite <- app_assoc. rewrite !loads_app, toggles_app,
      fallback_notices_app. simpl. repeat split; try lia.
    unfold fallback_notices at 2. simpl. lia.
  - apply negb_false_iff, String.eqb_eq in Hpath. specialize (Hdirs Hpath).
    step. rewrite Hmiss. step. rewrite Hdirs.
    destruct (requests_session a) as [session|] eqn:Hsess;
      [|destruct (certifi_where env) as [bundle|]]; step;
      rewrite Hsess; step; rewrite Hload; step;
      do 2 eexists; (split; [reflexivity|]); simpl;
      repeat rewrite <- app_assoc;
      rewrite !loads_app, toggles_app, fallback_notices_app; simpl;
      repeat split; try lia; unfold fallback_notices at 2; simpl; lia.
Qed.

(** X11.  Take a run that has to load its model and whose first
    [WhisperModel(...)] call succeeds.  The run makes that one load and
    no other, caches the model under the key of the settings, queues no
    fallback notice and no button command, and leaves the CPU flag as
    it was. *)
Theorem first_load_success (env : Env) (a : App) (t : list Event)
    (m : WhisperModel) :
  model_cache a !! model_key_of a = None ->
  (path_of a = "" -> makedirs env (get_model_dir env) = None) ->
  whisper_model env 0 (requested_args env a) = inr m ->
  let s' := snd (run_transcription env (a, t)) in
  loads (snd s') = (loads t ++ [requested_args env a])%list /\
  model_cache (fst s') = <[model_key_of a := m]> (model_cache a) /\
  using_cpu (fst s') = using_cpu a /\
  toggles (message_queue (fst s')) = toggles (message_queue a) /\
  fallback_notices (message_queue (fst s')) = fallback_notices (message_queue a).
Proof.
  intros Hmiss Hdirs Hload. cbv zeta.
  destruct (load_phase_success env a t m Hmiss Hdirs Hload)
    as (a1 & t1 & Hphase & Hl & Hc & Hu & Ht & Hn).
  destruct (run_after_load env (a, t) (a1, t1) _ Hphase)
    as (Hu' & Ht' & Hn' & Hc' & _ & Hl' & _).
  cbn [fst snd] in *. rewrite Hl', Hc', Hu', Ht', Hn', Hl, Hc, Hu, Ht, Hn.
  repeat split.
Qed.

Lemma first_load_success_witness :
  model_cache Sample.ready !! model_key_of Sample.ready = None /\
  (path_of Sample.ready = "" ->
   makedirs Sample.env (get_model_dir Sample.env) = None) /\
  whisper_model Sample.env 0 (requested_args Sample.env Sample.ready)
  = inr {| loaded_with := requested_args Sample.env Sample.ready |} /\
  loads (snd (snd (run_transcription Sample.env (Sample.ready, []))))
  = [requested_args Sample.env Sample.ready].
Proof.
  split; [reflexivity|]. split; [intros _; reflexivity|]. split; [reflexivity|].
  exact (proj1 (first_load_success Sample.env Sample.ready []
                  {| loaded_with := requested_args Sample.env Sample.ready |}
                  eq_refl (fun _ => eq_refl) eq_refl)).
Defined.

Lemma completed_run_caches_model_witness :
  fst (run_transcription Sample.env (Sample.ready_gpu, [])) = inr tt /\
  is_Some
    (model_cache (fst (snd (run_transcription Sample.env (Sample.ready_gpu, []))))
     !! "base_cpu_C:/m/base") /\
  is_Some (model_cache Sample2.cached !! model_key_of Sample2.cached) /\
  loads (snd (snd (run_transcription Sample.env (Sample2.cached, [])))) = [].
Proof.
  split; [reflexivity|].
  split;
    [exact (proj1 (completed_run_caches_model Sample.env Sample.ready_gpu [])
              eq_refl)|].
  assert (Hhit : is_Some (model_cache Sample2.cached
                          !! model_key_of Sample2.cached))
    by (eexists; reflexivity).
  split; [exact Hhit|].
  exact (proj1 (proj2 (completed_run_caches_model Sample.env Sample2.cached [])
                  Hhit)).
Defined.

(** ** Progress with a callback *)

Lemma for_each_update_progress_emits (callbacks : list Q) F :
  emits (for_each update_progress callbacks)
    (map (fun fraction => Py.fmul fraction 100) callbacks) F.
Proof.
  revert F. induction callbacks as [|fraction rest IH]; intros F;
    cbn [for_each map].
  - apply emits_ret.
  - apply emits_bind_cons; [|intros _; apply IH].
    unfold update_progress. apply (emits_send (progress _)).
Qed.

Arguments export_after_callbacks : simpl never.

Lemma export_after_callbacks_emits env info segments_list F :
  F [90%Q] ->
  emits (export_after_callbacks env info segments_list) [90%Q; 100%Q] F.
Proof.
  intros H90. unfold export_after_callbacks. apply emits_try_except_reraise.
  - apply emits_bind_nil; [emits_nil | intros _].
    apply emits_bind_cons; [apply (emits_send (progress 90)) | intros _].
    apply emits_bind_nil; [emits_nil | intros _].
    apply emits_bind_nil; [apply show_header_emits | intros _].
    apply emits_bind_nil; [emits_nil | intros _].
    apply save_transcription_results_emits. exact H90.
  - intros e. emits_nil.
  - intros e s. exists e. reflexivity.
Qed.

Section Callback.

Variable env : Env.
Variable callbacks : list Q.
Variable info : TranscriptionInfo.
Variable segments_list : list Segment.
Variable F : list Q -> Prop.

(** The library takes a progress callback, reports these fractions and
    returns these segments. *)
Hypothesis has_callback :
  forall model, signature_has_progress_callback env model = inr true.
Hypothesis transcribed :
  forall model file lang,
    transcribe env model file lang
    = (callbacks, inr (info, inr segments_list)).

(** Where the run may raise: after 10, after 20, and after the 90 that
    follows the reports. *)
Hypothesis raise_after_10 : F [10%Q].
Hypothesis raise_after_20 : F [10%Q; 20%Q].
Hypothesis raise_after_90 :
  F (10%Q :: 20%Q
     :: map (fun fraction => Py.fmul fraction 100) callbacks ++ [90%Q]).

Lemma detect_progress_support_true model s b s' :
  detect_progress_support env model s = (inr b, s') -> b = true.
Proof.
  unfold detect_progress_support. rewrite has_callback. step.
  now intros [= <- _].
Qed.

Lemma run_transcription_emits_callbacks :
  emits (run_transcription env)
    (10%Q :: 20%Q
     :: map (fun fraction => Py.fmul fraction 100) callbacks ++ [90%Q; 100%Q])
    F.
Proof.
  unfold run_transcription.
  apply emits_try_finally;
    [| apply cleanup_emits | intros [a t]; apply cleanup_run].
  unfold run_guarded. apply emits_try_except_reraise.
  - unfold run_body.
    apply emits_bind_nil; [emits_nil | intros a]. cbv zeta.
    apply (emits_bind _ _ [10%Q]); [apply announce_emits | intros _].
    apply emits_bind_nil;
      [apply resolve_model_emits; assumption | intros model_key].
    unfold analyse_and_export.
    apply emits_bind_nil; [emits_nil | intros a1].
    apply emits_bind_nil; [emits_nil | intros model].
    apply emits_bind_nil; [emits_nil | intros _].
    apply emits_bind_cons; [apply (emits_send (progress 20)) | intros _].
    apply emits_bind_nil; [emits_nil | intros _].
    apply (emits_bind_with (fun b => b = true) _ _ []);
      [ emits_nil
      | intros s b s'; apply detect_progress_support_true
      | intros b -> ].
    apply emits_bind_nil; [emits_nil | intros file].
    cbv zeta iota. rewrite transcribed. cbn [fst snd].
    apply emits_bind; [apply for_each_update_progress_emits | intros _].
    apply (emits_ext (export_after_callbacks env info segments_list));
      [reflexivity | apply export_after_callbacks_emits; assumption].
  - intros e. emits_nil.
  - intros e s. exists e. reflexivity.
Qed.

End Callback.

Lemma nondecreasing_below_last (l : list Q) (x : Q) :
  nondecreasing (l ++ [x]) -> forall y, In y l -> (y <= x)%Q.
Proof.
  induction l as [|z l IH]; [intros _ y []|].
  cbn [app nondecreasing]. intros [Hz Hrest] y [<-|Hy].
  - destruct l as [|w l]; [exact Hz|].
    apply Qle_trans with w; [exact Hz|].
    apply (IH Hrest). now left.
  - now apply IH.
Qed.

Lemma nondecreasing_above_first (l : list Q) (x : Q) :
  nondecreasing (x :: l) -> forall y, In y l -> (x <= y)%Q.
Proof.
  revert x. induction l as [|z l IH]; intros x; [intros _ y []|].
  cbn [nondecreasing]. intros [Hz Hrest] y [<-|Hy]; [exact Hz|].
  apply Qle_trans with z; [exact Hz|]. now apply IH.
Qed.

Lemma nondecreasing_suffix (l1 l2 : list Q) :
  nondecreasing (l1 ++ l2) -> nondecreasing l2.
Proof.
  induction l1 as [|x l1 IH]; [auto|].
  cbn [app nondecreasing]. intros [_ Hrest]. auto.
Qed.

(** A fraction between 0 and 1 gives a value between 0 and 100. *)
Lemma reported_bounds (fraction : Q) :
  (0 <= fraction <= 1)%Q -> (0 <= Py.fmul fraction 100 <= 100)%Q.
Proof.
  intros [H0 H1]. unfold Py.fmul. split.
  - apply float_round_nonneg. lra.
  - replace 100%Q with (Py.float_round 100) at 2 by (vm_compute; reflexivity).
    apply float_round_mono; lra.
Qed.



(** The floats of lines 637 and 783: seven hundredths times 100, nine
    tenths times 100, and the first of three segments. *)
Example float_products :
  let d007 := Py.float_round (7 # 100) in
  let d09 := Py.float_round (9 # 10) in
  Py.fmul d007 100 = (7881299347898369 # 1125899906842624)%Q /\
  (7 < Py.fmul d007 100)%Q /\
  Py.fmul d09 100 = 90%Q /\
  segment_progress 1 3 = (6567749456581973 # 70368744177664)%Q.
Proof. vm_compute. repeat split. Qed.
(** ** What the exporter leaves behind *)

Lemma files_written_app (t1 t2 : list Event) :
  files_written (t1 ++ t2) = (files_written t1 ++ files_written t2)%list.
Proof.
  induction t1 as [|ev t1 IH]; [reflexivity|].
  destruct ev; simpl; try exact IH. now rewrite IH.
Qed.

Lemma completion_message_lists (saved_files : list string) (start : string) :
  fold_left (fun acc file => acc ++ "已保存到: " ++ file ++ nl) saved_files start
  = start ++ fold_right String.append ""
               (map (fun file => "已保存到: " ++ file ++ nl) saved_files).
Proof.
  revert start. induction saved_files as [|file rest IH]; intros start; simpl.
  - clear. induction start as [|c start IH]; [reflexivity|].
    change (String c start = String c (start ++ "")). now rewrite <- IH.
  - rewrite IH, string_append_assoc. reflexivity.
Qed.

Arguments completion_message : simpl never.

(** X13.  If every file the export has to write can be opened, the
    export completes: it writes the text file if TXT is selected and
    the subtitle file if SRT is selected, in that order, each with the
    content of its format; the completion notice names exactly the
    files written, in that order, one per line after the line
    [转录完成]; and the last three messages are that notice, the
    status [完成! 结果已保存] and progress 100.  With neither format
    selected it writes nothing and still announces completion. *)
Theorem export_success (env : Env) (info : TranscriptionInfo)
    (segments_list : list Segment) (output_dir file : string)
    (a : App) (t : list Event) :
  filename a = Some file ->
  (txt_var a = true -> open_for_writing env (txt_path output_dir file) = None) ->
  (srt_var a = true -> open_for_writing env (srt_path output_dir file) = None) ->
  let written :=
    app (if txt_var a
         then [(txt_path output_dir file, txt_writes info segments_list)] else [])
        (if srt_var a
         then [(srt_path output_dir file, srt_writes segments_list)] else []) in
  let notice :=
    "转录完成" ++ nl
    ++ fold_right String.append ""
         (map (fun f => "已保存到: " ++ f ++ nl) (map fst written)) in
  exists t',
    save_transcription_results env info segments_list output_dir (a, t)
    = (inr tt,
       (with_message_queue
          (message_queue a
           ++ [message "info" "完成" notice; status "完成! 结果已保存";
               progress 100%Q])%list a,
        t')) /\
    files_written t' = (files_written t ++ written)%list.
Proof.
  intros Hfile Htxt Hsrt. cbv zeta.
  unfold save_transcription_results, try_except, self_filename, write_file,
    txt_path, srt_path in *.
  step. rewrite Hfile. step.
  destruct (txt_var a); [rewrite (Htxt eq_refl)|]; step;
    (destruct (srt_var a); [rewrite (Hsrt eq_refl)|]; step);
    unfold completion_message; rewrite completion_message_lists;
    unfold with_message_queue; simpl;
    repeat rewrite <- app_assoc; simpl;
    eexists; (split; [reflexivity|]);
    rewrite files_written_app; simpl; rewrite ?app_nil_r; reflexivity.
Qed.

Lemma export_success_witness :
  filename Sample.ready = Some "C:/audio/talk.mp3" /\
  (txt_var Sample.ready = true ->
   open_for_writing Sample.env (txt_path "C:\app\transcripts" "C:/audio/talk.mp3")
   = None) /\
  (srt_var Sample.ready = true ->
   open_for_writing Sample.env (srt_path "C:\app\transcripts" "C:/audio/talk.mp3")
   = None) /\
  exists t',
    snd (snd (save_transcription_results Sample.env Sample.info Sample.segments
                "C:\app\transcripts" (Sample.ready, []))) = t' /\
    map fst (files_written t')
    = ["C:\app\transcripts\talk_transcript.txt"; "C:\app\transcripts\talk.srt"].
Proof.
  split; [reflexivity|]. split; [intros _; reflexivity|].
  split; [intros _; reflexivity|].
  destruct (export_success Sample.env Sample.info Sample.segments
              "C:\app\transcripts" "C:/audio/talk.mp3" Sample.ready []
              eq_refl (fun _ => eq_refl) (fun _ => eq_refl)) as (t' & Hrun & Hw).
  exists t'. split; [now rewrite Hrun|]. now rewrite Hw.
Defined.

(** X14.  If the first file the export has to write cannot be opened
    ([OSError]), the export writes nothing and announces no completion:
    it logs the error, queues the error notification with the
    exception's text and the status [文件保存失败], and raises the
    exception again. *)
Theorem export_first_file_unwritable (env : Env) (info : TranscriptionInfo)
    (segments_list : list Segment) (output_dir file : string)
    (a : App) (t : list Event) (e : Exn) :
  filename a = Some file ->
  txt_var a || srt_var a = true ->
  open_for_writing env
    (if txt_var a then txt_path output_dir file else srt_path output_dir file)
  = Some e ->
  exn_class e = IOError ->
  save_transcription_results env info segments_list output_dir (a, t)
  = (inl e,
     (with_message_queue
        (message_queue a
         ++ [message "error" "错误" ("文件保存失败: " ++ exn_str e);
             status "文件保存失败"])%list a,
      (t ++ [Log ERROR ("文件保存失败: " ++ exn_str e)])%list)).
Proof.
  intros Hfile Hfmt Hopen Hclass.
  unfold save_transcription_results, try_except, self_filename, write_file,
    txt_path, srt_path in *.
  step. rewrite Hfile. step.
  destruct (txt_var a); [|destruct (srt_var a); [|discriminate]];
    rewrite Hopen; step; rewrite Hclass; step;
    unfold with_message_queue; simpl; repeat rewrite <- app_assoc; reflexivity.
Qed.

Lemma export_first_file_unwritable_witness :
  filename Sample.ready = Some "C:/audio/talk.mp3" /\
  txt_var Sample.ready || srt_var Sample.ready = true /\
  open_for_writing (Sample2.env_read_only false)
    (if txt_var Sample.ready
     then txt_path "C:\app\transcripts" "C:/audio/talk.mp3"
     else srt_path "C:\app\transcripts" "C:/audio/talk.mp3")
  = Some Sample2.disk_full /\
  exn_class Sample2.disk_full = IOError /\
  fst (save_transcription_results (Sample2.env_read_only false) Sample.info
         Sample.segments "C:\app\transcripts" (Sample.ready, []))
  = inl Sample2.disk_full.
Proof.
  repeat (split; [reflexivity|]).
  exact (f_equal fst
           (export_first_file_unwritable (Sample2.env_read_only false) Sample.info
              Sample.segments "C:\app\transcripts" "C:/audio/talk.mp3"
              Sample.ready [] Sample2.disk_full eq_refl eq_refl eq_refl eq_refl)).
Defined.

(** X15.  If both formats are selected and the text file is written
    but the subtitle file cannot be opened ([OSError]), the text file
    stays written, yet no completion is announced and no file is
    reported as saved: the queue gets only the error notification and
    the status [文件保存失败], and the exception is raised again. *)
Theorem export_second_file_unwritable (env : Env) (info : TranscriptionInfo)
    (segments_list : list Segment) (output_dir file : string)
    (a : App) (t : list Event) (e : Exn) :
  filename a = Some file ->
  txt_var a = true -> srt_var a = true ->
  open_for_writing env (txt_path output_dir file) = None ->
  open_for_writing env (srt_path output_dir file) = Some e ->
  exn_class e = IOError ->
  exists t',
    save_transcription_results env info segments_list output_dir (a, t)
    = (inl e,
       (with_message_queue
          (message_queue a
           ++ [message "error" "错误" ("文件保存失败: " ++ exn_str e);
               status "文件保存失败"])%list a,
        t')) /\
    files_written t'
    = (files_written t
       ++ [(txt_path output_dir file, txt_writes info segments_list)])%list.
Proof.
  intros Hfile Htxt Hsrt Hopen1 Hopen2 Hclass.
  unfold save_transcription_results, try_except, self_filename, write_file,
    txt_path, srt_path in *.
  step. rewrite Hfile. step. rewrite Htxt, Hopen1. step.
  rewrite Hsrt, Hopen2. step. rewrite Hclass. step.
  unfold with_message_queue; simpl; repeat rewrite <- app_assoc; simpl.
  eexists. split; [reflexivity|].
  rewrite files_written_app. reflexivity.
Qed.

Lemma export_second_file_unwritable_witness :
  filename Sample.ready = Some "C:/audio/talk.mp3" /\
  txt_var Sample.ready = true /\ srt_var Sample.ready = true /\
  open_for_writing Sample2.env_srt_locked
    (txt_path "C:\app\transcripts" "C:/audio/talk.mp3") = None /\
  open_for_writing Sample2.env_srt_locked
    (srt_path "C:\app\transcripts" "C:/audio/talk.mp3") = Some Sample2.disk_full /\
  exn_class Sample2.disk_full = IOError /\
  exists t',
    snd (snd (save_transcription_results Sample2.env_srt_locked Sample.info
                Sample.segments "C:\app\transcripts" (Sample.ready, []))) = t' /\
    map fst (files_written t') = ["C:\app\transcripts\talk_transcript.txt"].
Proof.
  repeat (split; [reflexivity|]).
  destruct (export_second_file_unwritable Sample2.env_srt_locked Sample.info
              Sample.segments "C:\app\transcripts" "C:/audio/talk.mp3"
              Sample.ready [] Sample2.disk_full
              eq_refl eq_refl eq_refl eq_refl eq_refl eq_refl) as (t' & Hrun & Hw).
  exists t'. split; [now rewrite Hrun|]. now rewrite Hw.
Defined.

(** ** Choosing a file and starting *)

(** X16.  Cancelling the file dialog changes nothing.  Choosing a file
    stores it, shows its base name and enables the start button; if a
    format is selected, starting then disables all six controls,
    empties the result panel, resets the progress bar to 0 and starts
    exactly one worker thread, without a dialog and without touching
    the queue. *)
Theorem select_file_then_start (chosen : string) (a : App) (t : list Event) :
  select_file "" (a, t) = (inr tt, (a, t)) /\
  (chosen <> "" ->
   txt_var a || srt_var a = true ->
   let s1 := snd (select_file chosen (a, t)) in
   let s2 := snd (start_transcription s1) in
   (filename (fst s1) = Some chosen /\
    file_label (ui (fst s1)) = Path.basename chosen /\
    st_transcribe_btn (controls (ui (fst s1))) = NORMAL) /\
   (controls (ui (fst s2)) = all_disabled /\
    result_text (ui (fst s2)) = Some "" /\
    progress_var (ui (fst s2)) = 0%Q /\
    message_queue (fst s2) = message_queue a /\
    List.filter is_thread_start (snd s2)
    = (List.filter is_thread_start t ++ [ThreadStart "run_transcription"])%list /\
    List.filter is_dialog (snd s2) = List.filter is_dialog t)).
Proof.
  split; [reflexivity|].
  intros Hne Hfmt. apply String.eqb_neq in Hne. cbv zeta.
  unfold select_file. rewrite Hne. step.
  split; [repeat split|].
  unfold start_transcription. step.
  destruct (txt_var a), (srt_var a); try discriminate; step;
    rewrite !List.filter_app; simpl; rewrite ?app_nil_r; repeat split.
Qed.

Lemma select_file_then_start_witness :
  "C:/audio/talk.mp3" <> "" /\
  txt_var Sample.fresh || srt_var Sample.fresh = true /\
  controls
    (ui (fst (snd (start_transcription
                     (snd (select_file "C:/audio/talk.mp3" (Sample.fresh, [])))))))
  = all_disabled.
Proof.
  split; [discriminate|]. split; [reflexivity|].
  refine (proj1 (proj2 (proj2 (select_file_then_start "C:/audio/talk.mp3"
                                 Sample.fresh []) _ eq_refl))).
  discriminate.
Defined.

(** ** What the window shows after a run *)

Lemma announces_bind {A B} (m : M A) (k : A -> M B) :
  (forall x, announces_completion (k x)) -> announces_completion (bind m k).
Proof.
  intros Hk s y s'. unfold bind.
  destruct (m s) as [[e|x] s1]; [discriminate|]. apply Hk.
Qed.

Lemma announces_raise {A} (e : Exn) : announces_completion (@raise A e).
Proof. intros s x s'. discriminate. Qed.

Lemma announces_try_except {A} (m : M A) catches (h : Exn -> M A) :
  announces_completion m -> (forall e, announces_completion (h e)) ->
  announces_completion (try_except m catches h).
Proof.
  intros Hm Hh s x s'. unfold try_except.
  destruct (m s) as [[e|y] s1] eqn:Hms.
  - destruct (catches (exn_class e)); [apply Hh | discriminate].
  - intros [= <- <-]. eapply Hm. exact Hms.
Qed.

(** The last four steps of a successful export. *)
Lemma announces_exported (notice : string) :
  announces_completion
    (send_message (message "info" "完成" notice) >>
     send_message (status "完成! 结果已保存") >>
     send_message (progress 100%Q) >>
     logger_info "转录完成").
Proof.
  intros [a t] x s'. step. intros [= _ <-]. simpl.
  exists (message_queue a), notice. now rewrite <- !app_assoc.
Qed.

Ltac announces_tac :=
  repeat first
    [ apply announces_exported
    | apply announces_raise
    | apply announces_bind; intros ?
    | apply announces_try_except; [|intros ?]
    | match goal with
      | |- announces_completion (if ?b then _ else _) => destruct b
      | |- announces_completion (match ?x with _ => _ end) => destruct x
      end ].

Lemma save_transcription_results_announces env info segments_list output_dir :
  announces_completion
    (save_transcription_results env info segments_list output_dir).
Proof. unfold save_transcription_results. announces_tac. Qed.

Lemma run_body_announces (env : Env) : announces_completion (run_body env).
Proof.
  unfold run_body, analyse_and_export, export_after_callbacks,
    export_with_synthetic_progress.
  announces_tac; apply save_transcription_results_announces.
Qed.

Lemma shown_app (q1 q2 : list Msg) :
  (forall cur, shown_status (q1 ++ q2) cur = shown_status q2 (shown_status q1 cur)) /\
  (forall cur, shown_progress (q1 ++ q2) cur
               = shown_progress q2 (shown_progress q1 cur)) /\
  dialogs_of (q1 ++ q2) = (dialogs_of q1 ++ dialogs_of q2)%list.
Proof.
  induction q1 as [|m q1 (IHs & IHp & IHd)]; [repeat split|].
  repeat split; intros; destruct m; simpl; rewrite ?IHd; auto.
Qed.

(** X17.  When a run has completed, the last three messages on the
    queue are the completion notice, the status [完成! 结果已保存]
    and progress 100.  One tick of the relay then leaves the queue
    empty, the status bar reading [完成! 结果已保存], the progress
    bar at 100 and all six controls enabled, and has shown the
    completion notice in the information box. *)
Theorem completed_run_shows_done (env : Env) (s : St) :
  fst (run_transcription env s) = inr tt ->
  let s1 := snd (run_transcription env s) in
  let s2 := snd (process_messages env s1) in
  completion_tail (message_queue (fst s1)) /\
  message_queue (fst s2) = [] /\
  status_var (ui (fst s2)) = "完成! 结果已保存" /\
  progress_var (ui (fst s2)) = 100%Q /\
  controls (ui (fst s2)) = all_normal /\
  exists notice, In (Dialog showinfo "完成" notice) (snd s2).
Proof.
  rewrite run_transcription_result. intros Hok. cbv zeta.
  destruct (run_guarded_result_ok env s Hok) as [s0 Hbody].
  pose proof (run_body_announces env s tt s0 Hbody) as Htail.
  pose proof (run_transcription_final env s) as (Hui & _ & _ & Hq & _).
  rewrite (run_guarded_ok _ _ _ Hbody) in Hui, Hq. cbn [fst snd] in Hui, Hq.
  rewrite <- Hq in Htail. clear Hq Hbody Hok.
  generalize dependent (run_transcription env s). intros [r [a1 t1]]; intros.
  cbn [fst snd] in *. split; [exact Htail|].
  destruct Htail as (earlier & notice & Hq).
  unfold process_messages, bind, get, emit. cbn [fst snd].
  destruct (drain_applies env (message_queue a1) a1 t1 eq_refl)
    as (a2 & evs & -> & Hq2 & Hs & Hp & _ & _ & Hc & _ & _ & _ & _ & Hd).
  cbn [fst snd]. rewrite Hq2, Hs, Hp, Hc, Hui, Hq.
  destruct (shown_app earlier
              [message "info" "完成" notice; status "完成! 结果已保存";
               progress 100%Q]) as (Es & Ep & Ed).
  rewrite Es, Ep. repeat split.
  exists notice. rewrite !in_app_iff. left. right. apply Hd.
  rewrite Hq, Ed, in_app_iff. right. left. reflexivity.
Qed.

Lemma completed_run_shows_done_witness :
  fst (run_transcription Sample.env (Sample.ready, [])) = inr tt /\
  status_var
    (ui (fst (snd (process_messages Sample.env
                     (snd (run_transcription Sample.env (Sample.ready, [])))))))
  = "完成! 结果已保存".
Proof.
  split; [reflexivity|].
  exact (proj1 (proj2 (proj2 (completed_run_shows_done Sample.env
                                (Sample.ready, []) eq_refl)))).
Defined.

(** X18.  When a run has ended with an exception, one tick of the relay
    leaves the queue empty, the status bar reading [严重错误] and all
    six controls enabled, and has shown the fatal error with the
    exception's text in the error box. *)
Theorem failed_run_shows_error (env : Env) (s : St) (e : Exn) :
  fst (run_transcription env s) = inl e ->
  let s2 := snd (process_messages env (snd (run_transcription env s))) in
  message_queue (fst s2) = [] /\
  status_var (ui (fst s2)) = "严重错误" /\
  controls (ui (fst s2)) = all_normal /\
  In (Dialog showerror "严重错误" ("转录过程中发生严重错误: " ++ exn_str e))
     (snd s2).
Proof.
  rewrite run_transcription_result. intros Hfail. cbv zeta.
  pose proof (run_transcription_final env s) as (Hui & _ & _ & Hq & _).
  destruct (run_body env s) as [[e'|[]] [a0 t0]] eqn:Hbody.
  - rewrite (run_guarded_raise _ _ _ _ _ Hbody) in Hfail, Hui, Hq.
    cbn [fst snd] in *. injection Hfail as ->.
    clear Hbody.
    generalize dependent (run_transcription env s). intros [r [a1 t1]]; intros.
    cbn [fst snd message_queue with_message_queue] in *.
    unfold process_messages, bind, get, emit. cbn [fst snd].
    destruct (drain_applies env (message_queue a1) a1 t1 eq_refl)
      as (a2 & evs & -> & Hq2 & Hs & _ & _ & _ & Hc & _ & _ & _ & _ & Hd).
    cbn [fst snd]. rewrite Hq2, Hs, Hc, Hui, Hq.
    destruct (shown_app (message_queue a0) [fatal_error e; status "严重错误"])
      as (Es & _ & Ed).
    rewrite Es. repeat split.
    rewrite !in_app_iff. left. right. apply Hd.
    rewrite Hq, Ed, in_app_iff. right. left. reflexivity.
  - rewrite (run_guarded_ok _ _ _ Hbody) in Hfail. discriminate.
Qed.

Lemma failed_run_shows_error_witness :
  fst (run_transcription (Sample2.env_read_only false) (Sample.ready, []))
  = inl Sample2.disk_full /\
  status_var
    (ui (fst (snd (process_messages (Sample2.env_read_only false)
                     (snd (run_transcription (Sample2.env_read_only false)
                             (Sample.ready, [])))))))
  = "严重错误".
Proof.
  split; [reflexivity|].
  exact (proj1 (proj2 (failed_run_shows_error (Sample2.env_read_only false)
                         (Sample.ready, []) Sample2.disk_full eq_refl))).
Defined.

(** ** After a fallback *)

Lemma models_kept_refl s : models_kept s s.
Proof. repeat split. Qed.

Lemma models_kept_trans s1 s2 s3 :
  models_kept s1 s2 -> models_kept s2 s3 -> models_kept s1 s3.
Proof. intros (A1 & B1 & C1) (A2 & B2 & C2). repeat split; congruence. Qed.

Ltac models_tac :=
  respects_struct models_kept_refl models_kept_trans;
  try (apply respects_modify; intros a0 t0; repeat split);
  try (apply respects_emit; intros a0 t0; repeat split).

(** The relay leaves the cache and the model settings alone. *)
Lemma process_messages_models (env : Env) :
  respects models_kept (process_messages env).
Proof.
  assert (Hdrain : forall k, respects models_kept (drain env k)).
  { induction k as [|k IH]; cbn [drain]; [models_tac|].
    apply (respects_bind _ models_kept_trans); [models_tac | intros a].
    destruct (message_queue a) as [|m rest]; [models_tac|].
    apply (respects_bind _ models_kept_trans); [models_tac | intros _].
    apply (respects_bind _ models_kept_trans); [|intros _; exact IH].
    unfold apply_message, toggle_acceleration, save_config. models_tac. }
  unfold process_messages. models_tac. apply Hdrain.
Qed.

(** The key of GPU mode is not the key of CPU mode. *)
Lemma cuda_key_is_not_cpu_key (size path : string) :
  size ++ "_" ++ "cuda" ++ "_" ++ path <> size ++ "_cpu_" ++ path.
Proof.
  induction size as [|c size IH].
  - discriminate.
  - change (String c (size ++ "_" ++ "cuda" ++ "_" ++ path)
            <> String c (size ++ "_cpu_" ++ path)).
    intros [= H]. exact (IH H).
Qed.

(** The cache after a load phase that fell back. *)
Lemma load_phase_fallback_cache (env : Env) (a : App) (t : list Event)
    (e : Exn) (m : WhisperModel) :
  model_cache a !! model_key_of a = None ->
  (path_of a = "" -> makedirs env (get_model_dir env) = None) ->
  whisper_model env 0 (requested_args env a) = inl e ->
  is_RuntimeError (exn_class e) && Py.contains cuda_marker (exn_str e) = true ->
  whisper_model env 1 (cpu_args env a) = inr m ->
  model_cache
    (fst (snd ((announce env (size_of a) (path_of a) >>
                resolve_model env (size_of a) (device_of a) (path_of a)) (a, t))))
  = <[cpu_key_of a := m]> (model_cache a).
Proof.
  intros Hmiss Hdirs Hload Hmarker Hretry.
  apply andb_prop in Hmarker as [Hclass Htext].
  unfold requested_args, cpu_args, load_args, model_key_of, cpu_key_of in *.
  unfold announce, resolve_model, load_or_fall_back, construct, cache_model,
    try_except, ensure_session.
  destruct (negb (String.eqb (path_of a) "")) eqn:Hpath.
  - step. rewrite Hmiss. step. rewrite Hload. cbn [exn_class].
    rewrite Hclass. step. rewrite Htext. step. rewrite Hretry. reflexivity.
  - apply negb_false_iff, String.eqb_eq in Hpath. specialize (Hdirs Hpath).
    step. rewrite Hmiss. step. rewrite Hdirs.
    destruct (requests_session a) as [session|] eqn:Hsess;
      [|destruct (certifi_where env) as [bundle|]]; step;
      rewrite Hsess; step; rewrite Hload; cbn [exn_class];
      rewrite Hclass; step; rewrite Htext; step; rewrite Hretry; reflexivity.
Qed.


